(** * js-doom-builder: the map core, its spatial grid and its history

    A shallow embedding of [utility.class.js], [history.class.js],
    the geometry classes (Vertex, Line, Sector, Thing) and
    [doommap.class.js].

    Conventions of the embedding.
    - Map coordinates are integers ([Z]): every public entry point rounds its
      arguments with [Math.round], so the stored coordinates are integral.
      On integers the cross product of [Utility.orientation] is an integer,
      hence [Math.abs(cross) < 1e-12] holds exactly when [cross = 0].
    - The parameters [t] of [addLine] and the ray cast of
      [polygonContainsPoint] are computed over the rationals ([Q]); angles
      ([Math.atan2]) are compared exactly by quadrant and cross product.
    - JavaScript objects live in a heap indexed by allocation number; object
      identity ([===], [indexOf], [Set.has]) is equality of these numbers.
    - A [throw] aborts the running operation and keeps every mutation done
      so far: computations are functions [World -> Res], where both outcomes
      carry the world.
    - The closures handed to [History.do] are represented by the data they
      capture ([Func]) and run by [runFunc].
    - Change notifications ([#emitChange]) go to listeners outside the core
      and are left out. *)

From Stdlib Require Import ZArith QArith Qround Lia.
From stdpp Require Import base option gmap list strings.

Local Open Scope Z_scope.

(** ** utility.class.js *)

Module Utility.

(** [orientation]: sign of the cross product of (q - p) and (r - p). *)
Definition orientation (px py qx qy rx ry : Z) : Z :=
  let cross := (qx - px) * (ry - py) - (qy - py) * (rx - px) in
  if cross =? 0 then 0 else if cross >? 0 then 1 else -1.

Definition onSegment (px py qx qy rx ry : Z) : bool :=
  (Z.min px rx <=? qx) && (qx <=? Z.max px rx) &&
  (Z.min py ry <=? qy) && (qy <=? Z.max py ry).

Definition segmentsProperlyIntersect (ax ay bx by_ cx cy dx dy : Z) : bool :=
  let o1 := orientation ax ay bx by_ cx cy in
  let o2 := orientation ax ay bx by_ dx dy in
  let o3 := orientation cx cy dx dy ax ay in
  let o4 := orientation cx cy dx dy bx by_ in
  (o1 * o2 <? 0) && (o3 * o4 <? 0).

Definition collinearOverlapMoreThanEndpoint
    (ax ay bx by_ cx cy dx dy : Z) : bool :=
  let o1 := orientation ax ay bx by_ cx cy in
  let o2 := orientation ax ay bx by_ dx dy in
  if negb (o1 =? 0) || negb (o2 =? 0) then false
  else
    let useX := Z.abs (ax - bx) >=? Z.abs (ay - by_) in
    let a0 := if useX then ax else ay in
    let a1 := if useX then bx else by_ in
    let c0 := if useX then cx else cy in
    let c1 := if useX then dx else dy in
    let '(s1, e1) := if a0 <=? a1 then (a0, a1) else (a1, a0) in
    let '(s2, e2) := if c0 <=? c1 then (c0, c1) else (c1, c0) in
    let left := Z.max s1 s2 in
    let right := Z.min e1 e2 in
    let overlapLength := right - left in
    overlapLength >? 0.

(** [flatXY[i]] of a JavaScript array; reading past the end yields
    [undefined], which never happens below ([nth] default 0). *)
Definition at_ (xy : list Z) (i : nat) : Z := nth i xy 0.

(** The loop [for (i = 0; i < n; i += 2)] over vertex indices [k = i/2]. *)
Definition shoelace (xy : list Z) : Z :=
  let n := length xy in
  fold_left (fun sum k =>
    let i := (2 * k)%nat in
    let j := ((i + 2) mod n)%nat in
    sum + (at_ xy i * at_ xy (j + 1) - at_ xy (i + 1) * at_ xy j))
    (seq 0 (Nat.div2 (S n))) 0.

(** [signedArea2d] returns [0.5 * sum]; only its sign is ever used, so
    the embedding keeps the doubled area. *)
Definition signedArea2d_twice (xy : list Z) : Z :=
  if (length xy <? 6)%nat then 0 else shoelace xy.

Definition Qltb (a b : Q) : bool := negb (Qle_bool b a).

Definition polygonContainsPoint (xy : list Z) (px py : Z) : bool :=
  if (length xy <? 6)%nat then false
  else
    let n := length xy in
    fold_left (fun inside k =>
      let i := (2 * k)%nat in
      let j := ((i + 2) mod n)%nat in
      let xi := at_ xy i in let yi := at_ xy (i + 1) in
      let xj := at_ xy j in let yj := at_ xy (j + 1) in
      let intersects :=
        negb (Bool.eqb (yi >? py) (yj >? py)) &&
        Qltb (inject_Z px)
             (inject_Z ((xj - xi) * (py - yi)) / inject_Z (yj - yi)
              + inject_Z xi)%Q in
      if intersects then negb inside else inside)
      (seq 0 (Nat.div2 (S n))) false.

Definition polygonContainsAllVertices (inner outer : list Z) : bool :=
  let ni := length inner in
  let no := length outer in
  if (ni <? 2)%nat || (no <? 6)%nat then false
  else
    forallb (fun k =>
      polygonContainsPoint outer (at_ inner (2 * k)) (at_ inner (2 * k + 1)))
      (seq 0 (Nat.div2 (S ni))).

(** *** Directions and angles

    [angleTo] is [Math.atan2(by - ay, bx - ax)], a value of (-pi, pi].
    A direction is kept as its integer vector; [half] tells on which side
    of the cut at angle pi it lies, so that angles are ordered by [half]
    and then by the cross product. *)
Definition Dir : Type := Z * Z.

Definition angleTo (ax ay bx by_ : Z) : Dir := (bx - ax, by_ - ay).

Definition cross (a b : Dir) : Z := a.1 * b.2 - a.2 * b.1.
Definition dot (a b : Dir) : Z := a.1 * b.1 + a.2 * b.2.

(** 0: angle in (-pi, 0); 1: angle 0; 2: angle in (0, pi); 3: angle pi.
    The null vector has angle [atan2(0, 0) = 0]. *)
Definition half (d : Dir) : Z :=
  if d.2 <? 0 then 0
  else if d.2 >? 0 then 2
  else if d.1 <? 0 then 3 else 1.

(** Sign of [angle a - angle b] (the comparator of the sort in
    [rebuildSectors]): -1, 0 or 1. *)
Definition angleCompare (a b : Dir) : Z :=
  if half a <? half b then -1
  else if half a >? half b then 1
  else Z.sgn (- cross a b).

(** [angleToCcw(a, b)], the counter-clockwise turn from [a] to [b] in
    [0, 2 pi), as a class that orders the turns: [(0, _)] is the turn 0,
    [(1, _)] a turn in (0, pi), [(2, _)] the turn pi and [(3, _)] a turn
    in (pi, 2 pi); inside classes 1 and 3 turns are compared by the cross
    product of their targets. *)
Definition turnClass (base cand : Dir) : Z :=
  let c := cross base cand in
  if c >? 0 then 1
  else if c <? 0 then 3
  else if dot base cand <? 0 then 2 else 0.

(** [delta1 < delta2] for the turns from [base] to [c1] and to [c2]. *)
Definition turnLt (base c1 c2 : Dir) : bool :=
  let k1 := turnClass base c1 in
  let k2 := turnClass base c2 in
  if k1 <? k2 then true
  else if k1 >? k2 then false
  else if (k1 =? 1) || (k1 =? 3) then cross c1 c2 >? 0 else false.

Definition turnPositive (base c : Dir) : bool :=
  negb (turnClass base c =? 0).

End Utility.

(** ** Values, keys and heap objects *)

(** The scalar values a property setter accepts ([typeof] number, boolean or
    string); numbers are the integral ones. *)
Inductive JsVal : Type :=
  | VNum (n : Z)
  | VBool (b : bool)
  | VStr (s : string).

#[global] Instance JsVal_eq_dec : EqDecision JsVal.
Proof. solve_decision. Defined.

(** [typeof a === typeof b]. *)
Definition sameType (a b : JsVal) : bool :=
  match a, b with
  | VNum _, VNum _ | VBool _, VBool _ | VStr _, VStr _ => true
  | _, _ => false
  end.

(** [createVertexKey] and [createLineKey] build the strings ["x,y"] and
    ["x0,y0:x1,y1"]; decimal numerals are injective, so a key is kept as the
    numbers it prints. *)
Definition VKey : Type := Z * Z.
Definition LKey : Type := (Z * Z) * (Z * Z).

Definition createVertexKey (x y : Z) : VKey := (x, y).

Definition createLineKey (x0 y0 x1 y1 : Z) : LKey :=
  if (x0 <? x1) || ((x0 =? x1) && (y0 <=? y1))
  then ((x0, y0), (x1, y1))
  else ((x1, y1), (x0, y0)).

Definition VertexId := nat.
Definition LineId := nat.
Definition SectorId := nat.
Definition ThingId := nat.

(** Any object that can sit in the selection or in a grid cell. *)
Inductive Geom : Type :=
  | GVertex (v : VertexId)
  | GLine (l : LineId)
  | GSector (s : SectorId)
  | GThing (t : ThingId).

#[global] Instance Geom_eq_dec : EqDecision Geom.
Proof. solve_decision. Defined.

Record Bounds : Type := mkBounds {
  minX : Z; minY : Z; maxX : Z; maxY : Z
}.

Record Vertex : Type := mkVertex {
  v_x : Z;
  v_y : Z;
  v_lines : list LineId
}.

Record Side : Type := mkSide {
  sector : option SectorId;
  sectorOld : option SectorId;
  sectorOverride : option SectorId;
  textureUpper : string;
  textureMiddle : string;
  textureLower : string;
  xOffset : Z;
  yOffset : Z
}.

Record Flags : Type := mkFlags {
  impassable : bool;
  twoSided : bool;
  upperUnpegged : bool;
  lowerUnpegged : bool;
  secret : bool;
  blockSound : bool;
  dontDraw : bool
}.

Record Line : Type := mkLine {
  l_v0 : VertexId;
  l_v1 : VertexId;
  front : Side;
  back : Side;
  flags : Flags;
  l_bounds : Bounds
}.

Record Properties : Type := mkProperties {
  floorHeight : Z;
  ceilingHeight : Z;
  floorTexture : string;
  ceilingTexture : string;
  lightLevel : Z;
  tag : Z;
  special : Z
}.

(** A sector built from no line has the bounds (Infinity, -Infinity), which
    cover no grid cell: [s_bounds = None]. [s_map] tells whether [#map] is
    set. *)
Record Sector : Type := mkSector {
  s_lines : list LineId;
  flatXY : list Z;
  s_map : bool;
  parent : option SectorId;
  children : list SectorId;
  properties : Properties;
  s_bounds : option Bounds
}.

Record Thing : Type := mkThing {
  t_x : Z;
  t_y : Z;
  t_z : Z;
  typeId : Z;
  angle : Z
}.

Definition newSide : Side := mkSide None None None "" "" "" 0 0.
Definition newFlags : Flags := mkFlags false false false false false false false.
Definition newProperties : Properties := mkProperties 0 128 "FLAT1" "CEIL1" 160 0 0.

(** *** Property access by name ([obj[property]]) *)

Definition side_get (s : Side) (p : string) : option JsVal :=
  if String.eqb p "textureUpper" then Some (VStr (textureUpper s))
  else if String.eqb p "textureMiddle" then Some (VStr (textureMiddle s))
  else if String.eqb p "textureLower" then Some (VStr (textureLower s))
  else if String.eqb p "xOffset" then Some (VNum (xOffset s))
  else if String.eqb p "yOffset" then Some (VNum (yOffset s))
  else None.

Definition side_set (s : Side) (p : string) (v : JsVal) : Side :=
  match v with
  | VStr x =>
      if String.eqb p "textureUpper" then
        mkSide (sector s) (sectorOld s) (sectorOverride s) x (textureMiddle s)
               (textureLower s) (xOffset s) (yOffset s)
      else if String.eqb p "textureMiddle" then
        mkSide (sector s) (sectorOld s) (sectorOverride s) (textureUpper s) x
               (textureLower s) (xOffset s) (yOffset s)
      else if String.eqb p "textureLower" then
        mkSide (sector s) (sectorOld s) (sectorOverride s) (textureUpper s)
               (textureMiddle s) x (xOffset s) (yOffset s)
      else s
  | VNum n =>
      if String.eqb p "xOffset" then
        mkSide (sector s) (sectorOld s) (sectorOverride s) (textureUpper s)
               (textureMiddle s) (textureLower s) n (yOffset s)
      else if String.eqb p "yOffset" then
        mkSide (sector s) (sectorOld s) (sectorOverride s) (textureUpper s)
               (textureMiddle s) (textureLower s) (xOffset s) n
      else s
  | VBool _ => s
  end.

Definition flags_get (f : Flags) (p : string) : option JsVal :=
  if String.eqb p "impassable" then Some (VBool (impassable f))
  else if String.eqb p "twoSided" then Some (VBool (twoSided f))
  else if String.eqb p "upperUnpegged" then Some (VBool (upperUnpegged f))
  else if String.eqb p "lowerUnpegged" then Some (VBool (lowerUnpegged f))
  else if String.eqb p "secret" then Some (VBool (secret f))
  else if String.eqb p "blockSound" then Some (VBool (blockSound f))
  else if String.eqb p "dontDraw" then Some (VBool (dontDraw f))
  else None.

Definition flags_set (f : Flags) (p : string) (v : JsVal) : Flags :=
  match v with
  | VBool b =>
      if String.eqb p "impassable" then
        mkFlags b (twoSided f) (upperUnpegged f) (lowerUnpegged f) (secret f)
                (blockSound f) (dontDraw f)
      else if String.eqb p "twoSided" then
        mkFlags (impassable f) b (upperUnpegged f) (lowerUnpegged f) (secret f)
                (blockSound f) (dontDraw f)
      else if String.eqb p "upperUnpegged" then
        mkFlags (impassable f) (twoSided f) b (lowerUnpegged f) (secret f)
                (blockSound f) (dontDraw f)
      else if String.eqb p "lowerUnpegged" then
        mkFlags (impassable f) (twoSided f) (upperUnpegged f) b (secret f)
                (blockSound f) (dontDraw f)
      else if String.eqb p "secret" then
        mkFlags (impassable f) (twoSided f) (upperUnpegged f) (lowerUnpegged f)
                b (blockSound f) (dontDraw f)
      else if String.eqb p "blockSound" then
        mkFlags (impassable f) (twoSided f) (upperUnpegged f) (lowerUnpegged f)
                (secret f) b (dontDraw f)
      else if String.eqb p "dontDraw" then
        mkFlags (impassable f) (twoSided f) (upperUnpegged f) (lowerUnpegged f)
                (secret f) (blockSound f) b
      else f
  | _ => f
  end.

Definition properties_get (q : Properties) (p : string) : option JsVal :=
  if String.eqb p "floorHeight" then Some (VNum (floorHeight q))
  else if String.eqb p "ceilingHeight" then Some (VNum (ceilingHeight q))
  else if String.eqb p "floorTexture" then Some (VStr (floorTexture q))
  else if String.eqb p "ceilingTexture" then Some (VStr (ceilingTexture q))
  else if String.eqb p "lightLevel" then Some (VNum (lightLevel q))
  else if String.eqb p "tag" then Some (VNum (tag q))
  else if String.eqb p "special" then Some (VNum (special q))
  else None.

Definition properties_set (q : Properties) (p : string) (v : JsVal)
  : Properties :=
  match v with
  | VNum n =>
      if String.eqb p "floorHeight" then
        mkProperties n (ceilingHeight q) (floorTexture q) (ceilingTexture q)
                     (lightLevel q) (tag q) (special q)
      else if String.eqb p "ceilingHeight" then
        mkProperties (floorHeight q) n (floorTexture q) (ceilingTexture q)
                     (lightLevel q) (tag q) (special q)
      else if String.eqb p "lightLevel" then
        mkProperties (floorHeight q) (ceilingHeight q) (floorTexture q)
                     (ceilingTexture q) n (tag q) (special q)
      else if String.eqb p "tag" then
        mkProperties (floorHeight q) (ceilingHeight q) (floorTexture q)
                     (ceilingTexture q) (lightLevel q) n (special q)
      else if String.eqb p "special" then
        mkProperties (floorHeight q) (ceilingHeight q) (floorTexture q)
                     (ceilingTexture q) (lightLevel q) (tag q) n
      else q
  | VStr x =>
      if String.eqb p "floorTexture" then
        mkProperties (floorHeight q) (ceilingHeight q) x (ceilingTexture q)
                     (lightLevel q) (tag q) (special q)
      else if String.eqb p "ceilingTexture" then
        mkProperties (floorHeight q) (ceilingHeight q) (floorTexture q) x
                     (lightLevel q) (tag q) (special q)
      else q
  | VBool _ => q
  end.

(** ** history.class.js *)

(** The [target] argument of [History.do]: [null], a key string, a map
    object (line or sector) or the map itself. *)
Inductive Key : Type :=
  | KVertex (k : VKey)
  | KLine (k : LKey).

Inductive Target : Type :=
  | TNull
  | TKey (k : Key)
  | TObj (g : Geom)
  | TThis.

#[global] Instance Key_eq_dec : EqDecision Key.
Proof. solve_decision. Defined.

#[global] Instance Target_eq_dec : EqDecision Target.
Proof. solve_decision. Defined.

(** The closures of doommap.class.js that are handed to [History.do], each
    with the variables it captures. *)
Inductive Func : Type :=
  | AddVertexDo (vertex : VertexId) (key : VKey)
  | AddVertexUndo (key : VKey)
  | RemoveVertexDo (vertex : VertexId) (i : nat) (key : VKey)
  | RemoveVertexUndo (vertex : VertexId) (key : VKey)
  | AddLineDo (line : LineId) (key : LKey)
  | AddLineUndo (key : LKey)
  | RemoveLineDo (line : LineId) (i : nat) (key : LKey)
  | RemoveLineUndo (line : LineId) (key : LKey)
  | AddThingDo (thing : ThingId)
  | AddThingUndo (thing : ThingId)
  | RemoveThingDo (thing : ThingId)
  | RemoveThingUndo (thing : ThingId)
  | SetSide (line : LineId) (isFront : bool) (property : string) (value : JsVal)
  | SetFlag (line : LineId) (property : string) (value : JsVal)
  | SetSector (sector : SectorId) (property : string) (value : JsVal)
  | SetMetadata (property : string) (value : JsVal).

Module History.

Record Action : Type := mkAction {
  doFunc : Func;
  undoFunc : Func;
  target : Target;
  parameter : option string;
  coalescing : bool
}.

Record t : Type := mk {
  stack : list Action;
  redoStack : list Action
}.

Definition empty : t := mk [] [].

Definition undoCount (h : t) : nat := length (stack h).
Definition redoCount (h : t) : nat := length (redoStack h).

(** [const replace = last && last.coalescing && last.target === target &&
    last.parameter === parameter], with [last = stack[stack.length - 1]]. *)
Definition replace (h : t) (tg : Target) (pm : option string) : bool :=
  match last (stack h) with
  | Some l =>
      coalescing l && bool_decide (target l = tg)
      && bool_decide (parameter l = pm)
  | None => false
  end.

(** The stack update of [do], before [action.doFunc()] runs. *)
Definition record (h : t) (action : Action) : t :=
  if replace h (target action) (parameter action)
  then mk (<[(length (stack h) - 1)%nat := action]> (stack h)) (redoStack h)
  else mk (stack h ++ [action]) [].

(** [Array.prototype.pop]. *)
Definition pop {A} (l : list A) : option A * list A :=
  (last l, removelast l).

Definition clear (_ : t) : t := mk [] [].

End History.

(** ** The map and the world around it *)

Record MetaFlags : Type := mkMetaFlags {
  monstersEnabled : bool;
  deathmatch : bool;
  allowJump : bool;
  allowFreelook : bool;
  doom2Format : bool
}.

Record Metadata : Type := mkMetadata {
  name : string;
  title : string;
  author : string;
  music : string;
  skyTexture : string;
  ambientLight : Z;
  m_flags : MetaFlags
}.

Definition newMetadata : Metadata :=
  mkMetadata "MAP01" "Untitled Map" "" "" "SKY1" 0
             (mkMetaFlags true true false true false).

(** [metadata.flags] is an object: no scalar has its [typeof]. *)
Definition metadata_get (m : Metadata) (p : string) : option JsVal :=
  if String.eqb p "name" then Some (VStr (name m))
  else if String.eqb p "title" then Some (VStr (title m))
  else if String.eqb p "author" then Some (VStr (author m))
  else if String.eqb p "music" then Some (VStr (music m))
  else if String.eqb p "skyTexture" then Some (VStr (skyTexture m))
  else if String.eqb p "ambientLight" then Some (VNum (ambientLight m))
  else None.

Definition metadata_set (m : Metadata) (p : string) (v : JsVal) : Metadata :=
  match v with
  | VStr x =>
      if String.eqb p "name" then
        mkMetadata x (title m) (author m) (music m) (skyTexture m)
                   (ambientLight m) (m_flags m)
      else if String.eqb p "title" then
        mkMetadata (name m) x (author m) (music m) (skyTexture m)
                   (ambientLight m) (m_flags m)
      else if String.eqb p "author" then
        mkMetadata (name m) (title m) x (music m) (skyTexture m)
                   (ambientLight m) (m_flags m)
      else if String.eqb p "music" then
        mkMetadata (name m) (title m) (author m) x (skyTexture m)
                   (ambientLight m) (m_flags m)
      else if String.eqb p "skyTexture" then
        mkMetadata (name m) (title m) (author m) (music m) x
                   (ambientLight m) (m_flags m)
      else m
  | VNum n =>
      if String.eqb p "ambientLight" then
        mkMetadata (name m) (title m) (author m) (music m) (skyTexture m)
                   n (m_flags m)
      else m
  | VBool _ => m
  end.

(** The private fields of [DoomMap]. Arrays and insertion-ordered [Set]s
    are lists; the two [Map]s by key and the grid are finite maps. *)
Record DoomMap : Type := mkDoomMap {
  metadata : Metadata;
  history : History.t;
  vertices : list VertexId;
  vertexMap : gmap VKey VertexId;
  lines : list LineId;
  lineMap : gmap LKey LineId;
  modifiedLines : list LineId;
  sectors : list SectorId;
  things : list ThingId;
  selection : list Geom;
  spatialGrid : gmap Z (gmap Z (list Geom))
}.

Definition newDoomMap : DoomMap :=
  mkDoomMap newMetadata History.empty [] ∅ [] ∅ [] [] [] [] ∅.

(** The heap of geometry objects and the map under edit ([this]). *)
Record World : Type := mkWorld {
  h_vertices : gmap VertexId Vertex;
  h_lines : gmap LineId Line;
  h_sectors : gmap SectorId Sector;
  h_things : gmap ThingId Thing;
  h_next : nat;
  this : DoomMap
}.

Definition newWorld : World := mkWorld ∅ ∅ ∅ ∅ 0 newDoomMap.

(** *** Computations that may throw *)

Inductive Res (A : Type) : Type :=
  | Ok (a : A) (w : World)
  | Throw (msg : string) (w : World).
Arguments Ok {A} a w.
Arguments Throw {A} msg w.

Definition M (A : Type) : Type := World -> Res A.

Definition throw {A} (msg : string) : M A := fun w => Throw msg w.
Definition get : M World := fun w => Ok w w.
Definition modify (f : World -> World) : M unit := fun w => Ok tt (f w).

#[global] Instance M_ret : MRet M := fun A a w => Ok a w.
#[global] Instance M_bind : MBind M := fun A B k m w =>
  match m w with
  | Ok a w' => k a w'
  | Throw msg w' => Throw msg w'
  end.

(** [xs.forEach(f)] for a body that may throw. *)
Fixpoint forEach {A} (xs : list A) (f : A -> M unit) : M unit :=
  match xs with
  | [] => mret tt
  | x :: xs' => f x;; forEach xs' f
  end.

Definition world_of {A} (r : Res A) : World :=
  match r with Ok _ w | Throw _ w => w end.

(** *** Arrays and insertion-ordered sets *)

(** [array.indexOf(x)]; [None] stands for -1. *)
Fixpoint indexOf `{EqDecision A} (x : A) (l : list A) : option nat :=
  match l with
  | [] => None
  | y :: l' => if decide (y = x) then Some 0%nat else S <$> indexOf x l'
  end.

(** [array.splice(i, 1)]: an index past the end removes nothing, the index
    -1 counts from the end and removes the last element. *)
Definition splice1 {A} (i : option nat) (l : list A) : list A :=
  match i with
  | Some n => delete n l
  | None => removelast l
  end.

Definition includes `{EqDecision A} (x : A) (l : list A) : bool :=
  bool_decide (x ∈ l).

(** [set.add(x)] and [set.delete(x)] on a [Set] kept in insertion order. *)
Definition setAdd `{EqDecision A} (x : A) (l : list A) : list A :=
  if includes x l then l else l ++ [x].

Definition setDelete `{EqDecision A} (x : A) (l : list A) : list A :=
  filter (fun y => y ≠ x) l.

(** *** Field updates *)

Definition with_this (f : DoomMap -> DoomMap) (w : World) : World :=
  mkWorld (h_vertices w) (h_lines w) (h_sectors w) (h_things w) (h_next w)
          (f (this w)).

Definition set_metadata (x : Metadata) (m : DoomMap) : DoomMap :=
  mkDoomMap x (history m) (vertices m) (vertexMap m) (lines m) (lineMap m)
            (modifiedLines m) (sectors m) (things m) (selection m)
            (spatialGrid m).
Definition set_history (x : History.t) (m : DoomMap) : DoomMap :=
  mkDoomMap (metadata m) x (vertices m) (vertexMap m) (lines m) (lineMap m)
            (modifiedLines m) (sectors m) (things m) (selection m)
            (spatialGrid m).
Definition set_vertices (x : list VertexId) (m : DoomMap) : DoomMap :=
  mkDoomMap (metadata m) (history m) x (vertexMap m) (lines m) (lineMap m)
            (modifiedLines m) (sectors m) (things m) (selection m)
            (spatialGrid m).
Definition set_vertexMap (x : gmap VKey VertexId) (m : DoomMap) : DoomMap :=
  mkDoomMap (metadata m) (history m) (vertices m) x (lines m) (lineMap m)
            (modifiedLines m) (sectors m) (things m) (selection m)
            (spatialGrid m).
Definition set_lines (x : list LineId) (m : DoomMap) : DoomMap :=
  mkDoomMap (metadata m) (history m) (vertices m) (vertexMap m) x (lineMap m)
            (modifiedLines m) (sectors m) (things m) (selection m)
            (spatialGrid m).
Definition set_lineMap (x : gmap LKey LineId) (m : DoomMap) : DoomMap :=
  mkDoomMap (metadata m) (history m) (vertices m) (vertexMap m) (lines m) x
            (modifiedLines m) (sectors m) (things m) (selection m)
            (spatialGrid m).
Definition set_modifiedLines (x : list LineId) (m : DoomMap) : DoomMap :=
  mkDoomMap (metadata m) (history m) (vertices m) (vertexMap m) (lines m)
            (lineMap m) x (sectors m) (things m) (selection m)
            (spatialGrid m).
Definition set_sectors (x : list SectorId) (m : DoomMap) : DoomMap :=
  mkDoomMap (metadata m) (history m) (vertices m) (vertexMap m) (lines m)
            (lineMap m) (modifiedLines m) x (things m) (selection m)
            (spatialGrid m).
Definition set_things (x : list ThingId) (m : DoomMap) : DoomMap :=
  mkDoomMap (metadata m) (history m) (vertices m) (vertexMap m) (lines m)
            (lineMap m) (modifiedLines m) (sectors m) x (selection m)
            (spatialGrid m).
Definition set_selection (x : list Geom) (m : DoomMap) : DoomMap :=
  mkDoomMap (metadata m) (history m) (vertices m) (vertexMap m) (lines m)
            (lineMap m) (modifiedLines m) (sectors m) (things m) x
            (spatialGrid m).
Definition set_spatialGrid (x : gmap Z (gmap Z (list Geom))) (m : DoomMap)
  : DoomMap :=
  mkDoomMap (metadata m) (history m) (vertices m) (vertexMap m) (lines m)
            (lineMap m) (modifiedLines m) (sectors m) (things m) (selection m)
            x.

(** *** Heap access *)

Definition nullVertex : Vertex := mkVertex 0 0 [].
Definition nullLine : Line :=
  mkLine 0%nat 0%nat newSide newSide newFlags (mkBounds 0 0 0 0).
Definition nullSector : Sector :=
  mkSector [] [] false None [] newProperties None.
Definition nullThing : Thing := mkThing 0 0 0 1 0.

Definition vertexAt (w : World) (v : VertexId) : Vertex :=
  default nullVertex (h_vertices w !! v).
Definition lineAt (w : World) (l : LineId) : Line :=
  default nullLine (h_lines w !! l).
Definition sectorAt (w : World) (s : SectorId) : Sector :=
  default nullSector (h_sectors w !! s).
Definition thingAt (w : World) (t : ThingId) : Thing :=
  default nullThing (h_things w !! t).

Definition putVertex (v : VertexId) (x : Vertex) (w : World) : World :=
  mkWorld (<[v := x]> (h_vertices w)) (h_lines w) (h_sectors w) (h_things w)
          (h_next w) (this w).
Definition putLine (l : LineId) (x : Line) (w : World) : World :=
  mkWorld (h_vertices w) (<[l := x]> (h_lines w)) (h_sectors w) (h_things w)
          (h_next w) (this w).
Definition putSector (s : SectorId) (x : Sector) (w : World) : World :=
  mkWorld (h_vertices w) (h_lines w) (<[s := x]> (h_sectors w)) (h_things w)
          (h_next w) (this w).
Definition putThing (t : ThingId) (x : Thing) (w : World) : World :=
  mkWorld (h_vertices w) (h_lines w) (h_sectors w) (<[t := x]> (h_things w))
          (h_next w) (this w).

(** [new C(...)]: the next allocation number. *)
Definition alloc : M nat :=
  fun w => Ok (h_next w)
              (mkWorld (h_vertices w) (h_lines w) (h_sectors w) (h_things w)
                       (S (h_next w)) (this w)).

Definition set_front (x : Side) (l : Line) : Line :=
  mkLine (l_v0 l) (l_v1 l) x (back l) (flags l) (l_bounds l).
Definition set_back (x : Side) (l : Line) : Line :=
  mkLine (l_v0 l) (l_v1 l) (front l) x (flags l) (l_bounds l).
Definition set_flags (x : Flags) (l : Line) : Line :=
  mkLine (l_v0 l) (l_v1 l) (front l) (back l) x (l_bounds l).
Definition set_sector (x : option SectorId) (s : Side) : Side :=
  mkSide x (sectorOld s) (sectorOverride s) (textureUpper s) (textureMiddle s)
         (textureLower s) (xOffset s) (yOffset s).
Definition set_sectorOld (x : option SectorId) (s : Side) : Side :=
  mkSide (sector s) x (sectorOverride s) (textureUpper s) (textureMiddle s)
         (textureLower s) (xOffset s) (yOffset s).
Definition set_sectorOverride (x : option SectorId) (s : Side) : Side :=
  mkSide (sector s) (sectorOld s) x (textureUpper s) (textureMiddle s)
         (textureLower s) (xOffset s) (yOffset s).
Definition set_v_lines (x : list LineId) (v : Vertex) : Vertex :=
  mkVertex (v_x v) (v_y v) x.

(** The endpoints of a line, as coordinates. *)
Definition x0_of (w : World) (l : LineId) : Z := v_x (vertexAt w (l_v0 (lineAt w l))).
Definition y0_of (w : World) (l : LineId) : Z := v_y (vertexAt w (l_v0 (lineAt w l))).
Definition x1_of (w : World) (l : LineId) : Z := v_x (vertexAt w (l_v1 (lineAt w l))).
Definition y1_of (w : World) (l : LineId) : Z := v_y (vertexAt w (l_v1 (lineAt w l))).

(** [geometry.bounds] *)
Definition boundsOf (w : World) (g : Geom) : option Bounds :=
  match g with
  | GVertex v => let o := vertexAt w v in
                 Some (mkBounds (v_x o) (v_y o) (v_x o) (v_y o))
  | GLine l => Some (l_bounds (lineAt w l))
  | GSector s => s_bounds (sectorAt w s)
  | GThing t => let o := thingAt w t in
                Some (mkBounds (t_x o) (t_y o) (t_x o) (t_y o))
  end.

(** ** Spatial grid *)

Definition SPATIAL_GRID_CELL_SIZE : Z := 128.

(** The values of [for (let x = a; x <= b; x++)]. *)
Definition range (a b : Z) : list Z :=
  map (fun i => a + Z.of_nat i) (seq 0 (Z.to_nat (b - a + 1))).

Definition cellOf (c : Z) : Z := c / SPATIAL_GRID_CELL_SIZE.

Definition Grid : Type := gmap Z (gmap Z (list Geom)).

Definition gridAddColumn (g : Geom) (ys : list Z) (column : gmap Z (list Geom))
  : gmap Z (list Geom) :=
  fold_left (fun col y => <[y := setAdd g (default [] (col !! y))]> col)
            ys column.

Definition gridAdd (g : Geom) (b : Bounds) (grid : Grid) : Grid :=
  fold_left (fun gr x =>
    <[x := gridAddColumn g (range (cellOf (minY b)) (cellOf (maxY b)))
                         (default ∅ (gr !! x))]> gr)
    (range (cellOf (minX b)) (cellOf (maxX b))) grid.

Definition gridRemoveColumn (g : Geom) (ys : list Z)
    (column : gmap Z (list Geom)) : gmap Z (list Geom) :=
  fold_left (fun col y =>
    match col !! y with
    | None => col
    | Some cell =>
        let cell' := setDelete g cell in
        if (length cell' =? 0)%nat then delete y col else <[y := cell']> col
    end) ys column.

Definition gridRemove (g : Geom) (b : Bounds) (grid : Grid) : Grid :=
  fold_left (fun gr x =>
    match gr !! x with
    | None => gr
    | Some column =>
        let column' :=
          gridRemoveColumn g (range (cellOf (minY b)) (cellOf (maxY b))) column in
        if (size column' =? 0)%nat then delete x gr else <[x := column']> gr
    end)
    (range (cellOf (minX b)) (cellOf (maxX b))) grid.

(** [#addToSpatialGrid(geometry)] *)
Definition addToSpatialGrid (g : Geom) : M unit :=
  modify (fun w =>
    match boundsOf w g with
    | Some b => with_this (fun m => set_spatialGrid (gridAdd g b (spatialGrid m)) m) w
    | None => w
    end).

(** [#removeFromSpatialGrid(geometry)] *)
Definition removeFromSpatialGrid (g : Geom) : M unit :=
  modify (fun w =>
    match boundsOf w g with
    | Some b => with_this (fun m => set_spatialGrid (gridRemove g b (spatialGrid m)) m) w
    | None => w
    end).

(** ** vertex.class.js, line.class.js, thing.class.js *)

(** [new Vertex(x, y)] *)
Definition Vertex_new (x y : Z) : M VertexId :=
  v ← alloc;
  modify (putVertex v (mkVertex x y []));;
  mret v.

(** [vertex.addLine(line)] *)
Definition Vertex_addLine (v : VertexId) (line : LineId) : M unit :=
  modify (fun w =>
    putVertex v (set_v_lines (v_lines (vertexAt w v) ++ [line]) (vertexAt w v)) w).

(** [vertex.removeLine(line)] *)
Definition Vertex_removeLine (v : VertexId) (line : LineId) : M unit :=
  w ← get;
  match indexOf line (v_lines (vertexAt w v)) with
  | None => throw "Attempted to remove non-existent line from vertex"
  | Some i =>
      modify (putVertex v (set_v_lines (delete i (v_lines (vertexAt w v)))
                                       (vertexAt w v)))
  end.

(** [new Line(v0, v1)] *)
Definition Line_new (v0 v1 : VertexId) : M LineId :=
  w ← get;
  let a := vertexAt w v0 in
  let b := vertexAt w v1 in
  l ← alloc;
  modify (putLine l (mkLine v0 v1 newSide newSide newFlags
            (mkBounds (Z.min (v_x a) (v_x b)) (Z.min (v_y a) (v_y b))
                      (Z.max (v_x a) (v_x b)) (Z.max (v_y a) (v_y b)))));;
  Vertex_addLine v0 l;;
  Vertex_addLine v1 l;;
  mret l.

(** [Side.copy]: textures and offsets only. *)
Definition Side_copy (dst src : Side) : Side :=
  mkSide (sector dst) (sectorOld dst) (sectorOverride dst)
         (textureUpper src) (textureMiddle src) (textureLower src)
         (xOffset src) (yOffset src).

(** [line.clone(vertexMap, v0, v1)]; a [null] override is [None]. *)
Definition Line_clone (line : LineId) (vmap : gmap VKey VertexId)
    (v0 v1 : option VertexId) : M LineId :=
  w ← get;
  let src := lineAt w line in
  let p0 := vertexAt w (default (l_v0 src) v0) in
  let p1 := vertexAt w (default (l_v1 src) v1) in
  let key0 := createVertexKey (v_x p0) (v_y p0) in
  let key1 := createVertexKey (v_x p1) (v_y p1) in
  match vmap !! key0, vmap !! key1 with
  | Some v0_, Some v1_ =>
      l ← Line_new v0_ v1_;
      modify (fun w' =>
        let n := lineAt w' l in
        putLine l (mkLine (l_v0 n) (l_v1 n) (Side_copy (front n) (front src))
                          (Side_copy (back n) (back src)) (flags src)
                          (l_bounds n)) w');;
      mret l
  | _, _ => throw "Missing vertex"
  end.

(** [line.clearVertices()] *)
Definition Line_clearVertices (line : LineId) : M unit :=
  w ← get;
  let o := lineAt w line in
  let i0 := indexOf line (v_lines (vertexAt w (l_v0 o))) in
  let i1 := indexOf line (v_lines (vertexAt w (l_v1 o))) in
  match i0, i1 with
  | Some n0, Some n1 =>
      modify (fun w' =>
        let a := vertexAt w' (l_v0 o) in
        putVertex (l_v0 o) (set_v_lines (delete n0 (v_lines a)) a) w');;
      modify (fun w' =>
        let b := vertexAt w' (l_v1 o) in
        putVertex (l_v1 o) (set_v_lines (delete n1 (v_lines b)) b) w')
  | _, _ => throw "Line missing from vertices"
  end.

(** [new Thing(x, y, z, typeId, angle)] *)
Definition Thing_new (x y z ty an : Z) : M ThingId :=
  t ← alloc;
  modify (putThing t (mkThing x y z ty an));;
  mret t.

(** [thing.clone(x, y)] *)
Definition Thing_clone (t : ThingId) (x y : Z) : M ThingId :=
  w ← get;
  let o := thingAt w t in
  Thing_new x y (t_z o) (typeId o) (angle o).

(** ** doommap.class.js: the closures run by the history *)

Definition modThis (f : DoomMap -> DoomMap) : M unit := modify (with_this f).

Definition thingPush (thing : ThingId) : M unit :=
  w ← get;
  match indexOf thing (things (this w)) with
  | None =>
      modThis (fun m => set_things (things m ++ [thing]) m);;
      addToSpatialGrid (GThing thing)
  | Some _ => mret tt
  end.

Definition thingSplice (thing : ThingId) : M unit :=
  w ← get;
  match indexOf thing (things (this w)) with
  | Some i =>
      removeFromSpatialGrid (GThing thing);;
      modThis (fun m => set_things (delete i (things m)) m)
  | None => mret tt
  end.

Definition runFunc (f : Func) : M unit :=
  match f with
  | AddVertexDo vertex key =>
      modThis (fun m => set_vertices (vertices m ++ [vertex]) m);;
      modThis (fun m => set_vertexMap (<[key := vertex]> (vertexMap m)) m);;
      addToSpatialGrid (GVertex vertex)
  | AddVertexUndo key =>
      w ← get;
      match vertexMap (this w) !! key with
      | Some v =>
          removeFromSpatialGrid (GVertex v);;
          modThis (fun m => set_vertices (splice1 (indexOf v (vertices m)) (vertices m)) m);;
          modThis (fun m => set_vertexMap (delete key (vertexMap m)) m)
      | None => mret tt
      end
  | RemoveVertexDo vertex i key =>
      removeFromSpatialGrid (GVertex vertex);;
      modThis (fun m => set_vertices (delete i (vertices m)) m);;
      modThis (fun m => set_vertexMap (delete key (vertexMap m)) m)
  | RemoveVertexUndo vertex key =>
      w ← get;
      match vertexMap (this w) !! key with
      | None =>
          v ← Vertex_new (v_x (vertexAt w vertex)) (v_y (vertexAt w vertex));
          modThis (fun m => set_vertices (vertices m ++ [v]) m);;
          modThis (fun m => set_vertexMap (<[key := v]> (vertexMap m)) m);;
          addToSpatialGrid (GVertex v)
      | Some _ => mret tt
      end
  | AddLineDo line key =>
      modThis (fun m => set_modifiedLines (setAdd line (modifiedLines m)) m);;
      modThis (fun m => set_lines (lines m ++ [line]) m);;
      modThis (fun m => set_lineMap (<[key := line]> (lineMap m)) m);;
      addToSpatialGrid (GLine line)
  | AddLineUndo key =>
      w ← get;
      match lineMap (this w) !! key with
      | Some l =>
          modThis (fun m => set_modifiedLines (setAdd l (modifiedLines m)) m);;
          removeFromSpatialGrid (GLine l);;
          Line_clearVertices l;;
          modThis (fun m => set_lines (splice1 (indexOf l (lines m)) (lines m)) m);;
          modThis (fun m => set_lineMap (delete key (lineMap m)) m)
      | None => mret tt
      end
  | RemoveLineDo line i key =>
      modThis (fun m => set_modifiedLines (setAdd line (modifiedLines m)) m);;
      removeFromSpatialGrid (GLine line);;
      Line_clearVertices line;;
      modThis (fun m => set_lines (delete i (lines m)) m);;
      modThis (fun m => set_lineMap (delete key (lineMap m)) m)
  | RemoveLineUndo line key =>
      w ← get;
      match lineMap (this w) !! key with
      | None =>
          l ← Line_clone line (vertexMap (this w))
                (Some (l_v0 (lineAt w line))) (Some (l_v1 (lineAt w line)));
          modThis (fun m => set_modifiedLines (setAdd l (modifiedLines m)) m);;
          modThis (fun m => set_lines (lines m ++ [l]) m);;
          modThis (fun m => set_lineMap (<[key := l]> (lineMap m)) m);;
          addToSpatialGrid (GLine l)
      | Some _ => mret tt
      end
  | AddThingDo thing => thingPush thing
  | AddThingUndo thing => thingSplice thing
  | RemoveThingDo thing => thingSplice thing
  | RemoveThingUndo thing => thingPush thing
  | SetSide line isFront property value =>
      modify (fun w =>
        let o := lineAt w line in
        putLine line
          (if isFront then set_front (side_set (front o) property value) o
           else set_back (side_set (back o) property value) o) w)
  | SetFlag line property value =>
      modify (fun w =>
        let o := lineAt w line in
        putLine line (set_flags (flags_set (flags o) property value) o) w)
  | SetSector s property value =>
      modify (fun w =>
        let o := sectorAt w s in
        putSector s
          (mkSector (s_lines o) (flatXY o) (s_map o) (parent o) (children o)
                    (properties_set (properties o) property value)
                    (s_bounds o)) w)
  | SetMetadata property value =>
      modThis (fun m => set_metadata (metadata_set (metadata m) property value) m)
  end.

(** *** [History.do], [undo], [redo] and [clear] on the map's history *)

Definition History_do (doFunc undoFunc : Func) (target : Target)
    (parameter : option string) (coalescing : bool) : M unit :=
  let action := History.mkAction doFunc undoFunc target parameter coalescing in
  modThis (fun m => set_history (History.record (history m) action) m);;
  runFunc (History.doFunc action).

Definition History_undo : M unit :=
  w ← get;
  let h := history (this w) in
  match History.pop (History.stack h) with
  | (Some action, rest) =>
      modThis (set_history (History.mk rest (History.redoStack h)));;
      runFunc (History.undoFunc action);;
      modThis (fun m =>
        set_history (History.mk (History.stack (history m))
                       (History.redoStack (history m) ++ [action])) m)
  | (None, _) => mret tt
  end.

Definition History_redo : M unit :=
  w ← get;
  let h := history (this w) in
  match History.pop (History.redoStack h) with
  | (Some action, rest) =>
      modThis (set_history (History.mk (History.stack h) rest));;
      runFunc (History.doFunc action);;
      modThis (fun m =>
        set_history (History.mk (History.stack (history m) ++ [action])
                       (History.redoStack (history m))) m)
  | (None, _) => mret tt
  end.

Definition History_clear : M unit :=
  modThis (fun m => set_history (History.clear (history m)) m).

(** *** Registration helpers *)

Definition keyOfVertex (w : World) (v : VertexId) : VKey :=
  createVertexKey (v_x (vertexAt w v)) (v_y (vertexAt w v)).

Definition keyOfLine (w : World) (l : LineId) : LKey :=
  createLineKey (x0_of w l) (y0_of w l) (x1_of w l) (y1_of w l).

(** [#addVertex(vertex)] *)
Definition addVertex_ (vertex : VertexId) : M unit :=
  w ← get;
  let key := keyOfVertex w vertex in
  History_do (AddVertexDo vertex key) (AddVertexUndo key)
             (TKey (KVertex key)) None true.

(** [#removeVertex(vertex)] *)
Definition removeVertex_ (vertex : VertexId) : M unit :=
  w ← get;
  match indexOf vertex (vertices (this w)) with
  | None => throw "Attempted to remove non-existent vertex"
  | Some i =>
      let key := keyOfVertex w vertex in
      History_do (RemoveVertexDo vertex i key) (RemoveVertexUndo vertex key)
                 (TKey (KVertex key)) None true
  end.

(** [#addLine(line)] *)
Definition addLine_ (line : LineId) : M unit :=
  w ← get;
  let key := keyOfLine w line in
  History_do (AddLineDo line key) (AddLineUndo key)
             (TKey (KLine key)) None true.

(** [#removeLine(line)] *)
Definition removeLine_ (line : LineId) : M unit :=
  w ← get;
  match indexOf line (lines (this w)) with
  | None => throw "Attempted to remove non-existent line"
  | Some i =>
      let key := keyOfLine w line in
      History_do (RemoveLineDo line i key) (RemoveLineUndo line key)
                 (TKey (KLine key)) None true
  end.

(** [#addThing(thing)]: [target] and [parameter] keep their defaults. *)
Definition addThing_ (thing : ThingId) : M unit :=
  History_do (AddThingDo thing) (AddThingUndo thing) TNull None true.

(** [#removeThing(thing)] *)
Definition removeThing_ (thing : ThingId) : M unit :=
  w ← get;
  match indexOf thing (things (this w)) with
  | None => throw "Attempted to remove non-existent thing"
  | Some _ =>
      History_do (RemoveThingDo thing) (RemoveThingUndo thing) TNull None true
  end.

(** *** Geometry iterators *)

Inductive Kind : Type := KVertices | KLines | KSectors | KThings.

Definition arrayOf (k : Kind) (m : DoomMap) : list Geom :=
  match k with
  | KVertices => GVertex <$> vertices m
  | KLines => GLine <$> lines m
  | KSectors => GSector <$> sectors m
  | KThings => GThing <$> things m
  end.

(** [geometry instanceof Type], for [Type] the class of the array. *)
Definition instanceOf (k : Kind) (g : Geom) : bool :=
  match k, g with
  | KVertices, GVertex _ | KLines, GLine _
  | KSectors, GSector _ | KThings, GThing _ => true
  | _, _ => false
  end.

(** Modelled from the spec: [Geometry.isInside(min, max)], which the
    geometry base class under src/ does not define. The spec's query yields
    an entity when its own bounds lie inside the query rectangle. *)
Definition isInside (w : World) (g : Geom) (bmin bmax : Z * Z) : bool :=
  match boundsOf w g with
  | Some b =>
      (bmin.1 <=? minX b) && (bmin.2 <=? minY b) &&
      (maxX b <=? bmax.1) && (maxY b <=? bmax.2)
  | None => false
  end.

(** A callback gets the geometry, its [selected] flag and the variables it
    closes over; it yields their new value and [false] to stop. *)
Definition Callback (A : Type) : Type := Geom -> bool -> A -> M (A * bool).

Fixpoint iterateArray {A} (func : Callback A) (gs : list Geom) (acc : A)
  : M A :=
  match gs with
  | [] => mret acc
  | g :: gs' =>
      w ← get;
      '(acc', continue) ← func g (includes g (selection (this w))) acc;
      if (continue : bool) then iterateArray func gs' acc' else mret acc' 
  end.

(** The selection branch ignores what the callback returns. *)
Fixpoint iterateSelection {A} (k : Kind) (hasType : bool) (func : Callback A)
    (gs : list Geom) (acc : A) : M A :=
  match gs with
  | [] => mret acc
  | g :: gs' =>
      if hasType && instanceOf k g
      then '(acc', _) ← func g true acc;
           iterateSelection k hasType func gs' acc' 
      else iterateSelection k hasType func gs' acc
  end.

(** The cells of the query in visiting order (columns, then rows), flattened
    and with every geometry kept at its first occurrence ([visited]). *)
Definition cellsOf (grid : Grid) (bmin bmax : Z * Z) : list Geom :=
  x ← range (cellOf bmin.1) (cellOf bmax.1);
  match grid !! x with
  | None => []
  | Some column =>
      y ← range (cellOf bmin.2) (cellOf bmax.2);
      default [] (column !! y)
  end.

Fixpoint dedupe `{EqDecision A} (visited : list A) (l : list A) : list A :=
  match l with
  | [] => []
  | x :: l' =>
      if includes x visited then dedupe visited l'
      else x :: dedupe (x :: visited) l'
  end.

Fixpoint iterateCells {A} (func : Callback A) (bmin bmax : Z * Z)
    (selectionOnly : bool) (gs : list Geom) (acc : A) : M A :=
  match gs with
  | [] => mret acc
  | g :: gs' =>
      w ← get;
      let selected := includes g (selection (this w)) in
      if isInside w g bmin bmax && (negb selectionOnly || selected)
      then '(acc', continue) ← func g selected acc;
           if (continue : bool) then iterateCells func bmin bmax selectionOnly gs' acc'
           else mret acc' 
      else iterateCells func bmin bmax selectionOnly gs' acc
  end.

(** [#iterateGeometry(array, func, boundsMin, boundsMax, selectionOnly)].
    With bounds the array is not consulted: every geometry of the visited
    cells reaches the callback, whatever its class. *)
Definition iterateGeometry {A} (k : Kind) (func : Callback A)
    (bounds : option ((Z * Z) * (Z * Z))) (selectionOnly : bool) (acc : A)
  : M A :=
  w ← get;
  match bounds with
  | None =>
      if selectionOnly
      then iterateSelection k (bool_decide (arrayOf k (this w) ≠ [])) func
                            (selection (this w)) acc
      else iterateArray func (arrayOf k (this w)) acc
  | Some (bmin, bmax) =>
      iterateCells func bmin bmax selectionOnly
                   (dedupe [] (cellsOf (spatialGrid (this w)) bmin bmax)) acc
  end.

Definition iterateVertices {A} := @iterateGeometry A KVertices.
Definition iterateLines {A} := @iterateGeometry A KLines.
Definition iterateSectors {A} := @iterateGeometry A KSectors.
Definition iterateThings {A} := @iterateGeometry A KThings.

(** Reading [line.v0.x] on an object that is not a Line: [line.v0] is
    [undefined], so the read throws a TypeError. *)
Definition asLine (g : Geom) : M LineId :=
  match g with
  | GLine l => mret l
  | _ => throw "TypeError: cannot read properties of undefined"
  end.

(** ** sector.class.js *)

(** A line descriptor [{ v0: {x, y}, v1: {x, y}, front }]. *)
Record LineDesc : Type := mkLineDesc {
  d_x0 : Z; d_y0 : Z; d_x1 : Z; d_y1 : Z; d_front : bool
}.

Definition descBounds (ds : list LineDesc) : option Bounds :=
  fold_left (fun acc d =>
    match acc with
    | None =>
        Some (mkBounds (Z.min (d_x0 d) (d_x1 d)) (Z.min (d_y0 d) (d_y1 d))
                       (Z.max (d_x0 d) (d_x1 d)) (Z.max (d_y0 d) (d_y1 d)))
    | Some b =>
        Some (mkBounds (Z.min (minX b) (Z.min (d_x0 d) (d_x1 d)))
                       (Z.min (minY b) (Z.min (d_y0 d) (d_y1 d)))
                       (Z.max (maxX b) (Z.max (d_x0 d) (d_x1 d)))
                       (Z.max (maxY b) (Z.max (d_y0 d) (d_y1 d))))
    end) ds None.

Definition modSector (s : SectorId) (f : Sector -> Sector) : M unit :=
  modify (fun w => putSector s (f (sectorAt w s)) w).

Definition modLine (l : LineId) (f : Line -> Line) : M unit :=
  modify (fun w => putLine l (f (lineAt w l)) w).

Definition set_s_lines (x : list LineId) (s : Sector) : Sector :=
  mkSector x (flatXY s) (s_map s) (parent s) (children s) (properties s)
           (s_bounds s).
Definition set_flatXY (x : list Z) (s : Sector) : Sector :=
  mkSector (s_lines s) x (s_map s) (parent s) (children s) (properties s)
           (s_bounds s).
Definition set_s_map (x : bool) (s : Sector) : Sector :=
  mkSector (s_lines s) (flatXY s) x (parent s) (children s) (properties s)
           (s_bounds s).
Definition set_parent (x : option SectorId) (s : Sector) : Sector :=
  mkSector (s_lines s) (flatXY s) (s_map s) x (children s) (properties s)
           (s_bounds s).
Definition set_children (x : list SectorId) (s : Sector) : Sector :=
  mkSector (s_lines s) (flatXY s) (s_map s) (parent s) x (properties s)
           (s_bounds s).
Definition set_properties (x : Properties) (s : Sector) : Sector :=
  mkSector (s_lines s) (flatXY s) (s_map s) (parent s) (children s) x
           (s_bounds s).

(** The body of the second [lines.forEach] of the constructor. *)
Definition Sector_attach (s : SectorId) (lineMap_ : gmap LKey LineId)
    (i : nat) (d : LineDesc) : M unit :=
  match lineMap_ !! createLineKey (d_x0 d) (d_y0 d) (d_x1 d) (d_y1 d) with
  | None => throw "Sector reference to missing line"
  | Some l =>
      modSector s (fun o => set_s_lines (s_lines o ++ [l]) o);;
      w ← get;
      let o := lineAt w l in
      if d_front d then
        match sector (front o) with
        | Some _ => throw "Line already assigned to a front sector"
        | None =>
            modLine l (fun o' => set_front (set_sector (Some s) (front o')) o');;
            modSector s (fun q =>
              set_flatXY (flatXY q
                          ++ (if (i =? 0)%nat then [x0_of w l; y0_of w l] else [])
                          ++ [x1_of w l; y1_of w l]) q)
        end
      else
        match sector (back o) with
        | Some _ => throw "Line already assigned to a back sector"
        | None =>
            modLine l (fun o' => set_back (set_sector (Some s) (back o')) o');;
            modSector s (fun q =>
              set_flatXY (flatXY q
                          ++ (if (i =? 0)%nat then [x1_of w l; y1_of w l] else [])
                          ++ [x0_of w l; y0_of w l]) q)
        end
  end.

Fixpoint forEachI {A} (i : nat) (xs : list A) (f : nat -> A -> M unit)
  : M unit :=
  match xs with
  | [] => mret tt
  | x :: xs' => f i x;; forEachI (S i) xs' f
  end.

(** [new Sector(lineMap, lines)] *)
Definition Sector_new (lineMap_ : gmap LKey LineId) (ds : list LineDesc)
  : M SectorId :=
  s ← alloc;
  modify (putSector s (mkSector [] [] false None [] newProperties (descBounds ds)));;
  forEachI 0 ds (Sector_attach s lineMap_);;
  mret s.

(** [sector.childOf(parent)]. The walk up the parent chain is bounded by the
    number of sectors of the heap; a longer chain would be a cycle. *)
Fixpoint childOf_from (fuel : nat) (w : World) (p : option SectorId)
    (anc : SectorId) : bool :=
  match fuel, p with
  | S fuel', Some q =>
      if decide (q = anc) then true
      else childOf_from fuel' w (parent (sectorAt w q)) anc
  | _, _ => false
  end.

Definition childOf (w : World) (s anc : SectorId) : bool :=
  childOf_from (S (size (h_sectors w))) w (parent (sectorAt w s)) anc.

Definition boundsInside (inner outer : Bounds) : bool :=
  (minX inner >=? minX outer) && (minY inner >=? minY outer) &&
  (maxX inner <=? maxX outer) && (maxY inner <=? maxY outer).

(** Reading [other.flatXY.length] or [other.#parent] on an object that is
    not a Sector throws a TypeError. *)
Definition asSector (g : Geom) : M SectorId :=
  match g with
  | GSector s => mret s
  | _ => throw "TypeError: not a Sector"
  end.

Definition boundsQuery (b : option Bounds) : option ((Z * Z) * (Z * Z)) :=
  (fun b => ((minX b, minY b), (maxX b, maxY b))) <$> b.

(** First callback of [addToMap]: the most nested containing sector. *)
Definition findParentCb (self : SectorId) (b1 : Bounds) : Callback unit :=
  fun other _ _ =>
    if decide (other = GSector self) then mret (tt, true)
    else
      w ← get;
      match boundsOf w other with
      | None => mret (tt, true)
      | Some b2 =>
          if boundsInside b1 b2 then
            o ← asSector other;
            w ← get;
            let isIn := Utility.polygonContainsAllVertices
                          (flatXY (sectorAt w self)) (flatXY (sectorAt w o)) in
            (if isIn &&
                match parent (sectorAt w self) with
                | None => true
                | Some p => childOf w o p
                end
             then modSector self (set_parent (Some o))
             else mret tt);;
            mret (tt, true)
          else mret (tt, true)
      end.

(** Second callback of [addToMap]: adopt the siblings this sector
    contains. *)
Definition adoptCb (self : SectorId) (b1 : Bounds) : Callback unit :=
  fun other _ _ =>
    if decide (other = GSector self) then mret (tt, true)
    else
      o ← asSector other;
      w ← get;
      if negb (bool_decide (parent (sectorAt w o) = parent (sectorAt w self)))
      then mret (tt, true)
      else
        match s_bounds (sectorAt w o) with
        | None => mret (tt, true)
        | Some b2 =>
            if boundsInside b2 b1 &&
               Utility.polygonContainsAllVertices
                 (flatXY (sectorAt w o)) (flatXY (sectorAt w self))
            then
              match parent (sectorAt w o) with
              | Some p =>
                  modSector p (fun q =>
                    set_children (splice1 (indexOf o (children q)) (children q)) q)
              | None => mret tt
              end;;
              modSector self (fun q => set_children (children q ++ [o]) q);;
              modSector o (set_parent (Some self));;
              mret (tt, true)
            else mret (tt, true)
        end.

(** The last loop of [addToMap]: an open side gets the parent. *)
Definition patchOpenSide (self : SectorId) (l : LineId) : M unit :=
  w ← get;
  let o := lineAt w l in
  let p := parent (sectorAt w self) in
  if bool_decide (sector (front o) = Some self)
     && bool_decide (sector (back o) = None)
  then modLine l (fun o' => set_back (set_sector p (back o')) o')
  else if bool_decide (sector (back o) = Some self)
          && bool_decide (sector (front o) = None)
  then modLine l (fun o' => set_front (set_sector p (front o')) o')
  else mret tt.

(** [sector.addToMap(map)] *)
Definition Sector_addToMap (self : SectorId) : M unit :=
  w ← get;
  if s_map (sectorAt w self)
  then throw "Sector has already been added to a map"
  else
    modSector self (set_s_map true);;
    match s_bounds (sectorAt w self) with
    | None => mret tt
    | Some b1 =>
        iterateSectors (findParentCb self b1) (boundsQuery (Some b1)) false tt
    end;;
    w ← get;
    match parent (sectorAt w self) with
    | Some p => modSector p (fun q => set_children (children q ++ [self]) q)
    | None => mret tt
    end;;
    match s_bounds (sectorAt w self) with
    | None => mret tt
    | Some b1 =>
        iterateSectors (adoptCb self b1) (boundsQuery (Some b1)) false tt
    end;;
    w ← get;
    forEach (s_lines (sectorAt w self)) (patchOpenSide self).

(** [sector.removeFromMap()] *)
Definition Sector_removeFromMap (self : SectorId) : M unit :=
  w ← get;
  if negb (s_map (sectorAt w self))
  then throw "Sector has not been added to a map"
  else
    let p := parent (sectorAt w self) in
    forEach (s_lines (sectorAt w self)) (fun l =>
      w' ← get;
      let o := lineAt w' l in
      if bool_decide (sector (front o) = Some self)
      then modLine l (fun o' => set_front (set_sector p (front o')) o')
      else if bool_decide (sector (back o) = Some self)
      then modLine l (fun o' => set_back (set_sector p (back o')) o')
      else mret tt);;
    forEach (children (sectorAt w self)) (fun c =>
      modSector c (set_parent p);;
      match p with
      | Some q => modSector q (fun x => set_children (children x ++ [c]) x)
      | None => mret tt
      end);;
    modSector self (set_children []);;
    match p with
    | Some q =>
        w' ← get;
        match indexOf self (children (sectorAt w' q)) with
        | None => throw "Missing child in sector"
        | Some i =>
            modSector q (fun x => set_children (delete i (children x)) x);;
            modSector self (set_parent None)
        end
    | None => mret tt
    end;;
    modSector self (set_s_map false).

(** [sector.clone(lineMap, lines)] *)
Definition Sector_clone (template : SectorId) (lineMap_ : gmap LKey LineId)
    (ds : list LineDesc) : M SectorId :=
  s ← Sector_new lineMap_ ds;
  w ← get;
  modSector s (set_properties (properties (sectorAt w template)));;
  mret s.

(** [sector.clearLines()] *)
Definition Sector_clearLines (self : SectorId) : M unit :=
  w ← get;
  if s_map (sectorAt w self)
  then throw "Attempted to clear sector lines without calling removeFromMap() first"
  else
    forEach (s_lines (sectorAt w self)) (fun l =>
      w' ← get;
      let o := lineAt w' l in
      if bool_decide (sector (back o) = Some self)
      then modLine l (fun o' => set_back (set_sector None (back o')) o')
      else if bool_decide (sector (front o) = Some self)
      then modLine l (fun o' => set_front (set_sector None (front o')) o')
      else throw "Line not connected to this sector");;
    modSector self (set_s_lines []).

(** ** doommap.class.js: sector construction *)

(** [#addSector(sector)] *)
Definition addSector_ (s : SectorId) : M unit :=
  Sector_addToMap s;;
  modThis (fun m => set_sectors (sectors m ++ [s]) m);;
  addToSpatialGrid (GSector s).

(** [#removeSector(sector)] *)
Definition removeSector_ (s : SectorId) : M unit :=
  w ← get;
  match indexOf s (sectors (this w)) with
  | None => throw "Attempted to remove non-existent sector"
  | Some i =>
      Sector_clearLines s;;
      removeFromSpatialGrid (GSector s);;
      modThis (fun m => set_sectors (delete i (sectors m)) m);;
      Sector_removeFromMap s
  end.

(** A directed edge [{ from, to, line, forward }]; the two edges of a line
    are told apart by [forward]. The [visited] marks are kept apart. *)
Definition Edge : Type := LineId * bool.

Definition edgeFrom (w : World) (e : Edge) : VertexId :=
  if e.2 then l_v0 (lineAt w e.1) else l_v1 (lineAt w e.1).
Definition edgeTo (w : World) (e : Edge) : VertexId :=
  if e.2 then l_v1 (lineAt w e.1) else l_v0 (lineAt w e.1).

Definition angleBetween (w : World) (a b : VertexId) : Utility.Dir :=
  Utility.angleTo (v_x (vertexAt w a)) (v_y (vertexAt w a))
                  (v_x (vertexAt w b)) (v_y (vertexAt w b)).

(** The working set: the modified lines, then the lines of their
    vertices. *)
Definition localVerticesOf (w : World) (modified : list LineId)
  : list VertexId :=
  fold_left (fun acc l =>
    setAdd (l_v1 (lineAt w l)) (setAdd (l_v0 (lineAt w l)) acc)) modified [].

Definition localLinesOf (w : World) (modified : list LineId) : list LineId :=
  fold_left (fun acc v => fold_left (fun acc' l => setAdd l acc')
                                    (v_lines (vertexAt w v)) acc)
            (localVerticesOf w modified)
            (fold_left (fun acc l => setAdd l acc) modified []).

(** The invalidation of one side; yields the sector to invalidate. *)
Definition rememberSide (s : Side) : Side :=
  match sector s with
  | Some x => set_sectorOld (Some x) s
  | None => set_sectorOld None s
  end.

Definition invalidate (ls : list LineId) : M (list SectorId) :=
  fold_left (fun (acc : M (list SectorId)) l =>
    inv ← acc;
    w ← get;
    let o := lineAt w l in
    modLine l (fun o' => set_front (rememberSide (front o')) o');;
    let inv1 := match sector (front o) with
                | Some x => setAdd x inv | None => inv end in
    modLine l (fun o' => set_back (rememberSide (back o')) o');;
    mret (match sector (back o) with
          | Some x => setAdd x inv1 | None => inv1 end))
    ls (mret []).

Definition edgesOf (ls : list LineId) : list Edge :=
  l ← ls; [(l, true); (l, false)].

(** Stable insertion sort, as [Array.prototype.sort] with the comparator
    [aa - bb]. *)
Fixpoint insertBy {A} (lt : A -> A -> bool) (x : A) (l : list A) : list A :=
  match l with
  | [] => [x]
  | y :: l' => if lt x y then x :: y :: l' else y :: insertBy lt x l'
  end.

Definition sortBy {A} (lt : A -> A -> bool) (l : list A) : list A :=
  fold_left (fun acc x => insertBy lt x acc) l [].

(** [outgoing.get(vertex)] after the sort by absolute angle. *)
Definition outgoingOf (w : World) (edges : list Edge) (v : VertexId)
  : list Edge :=
  sortBy (fun a b =>
            Utility.angleCompare (angleBetween w v (edgeTo w a))
                                 (angleBetween w v (edgeTo w b)) <? 0)
         (filter (fun e => edgeFrom w e = v) edges).

(** [nextLeft(edge)] *)
Definition nextLeft (w : World) (edges : list Edge) (edge : Edge)
  : option Edge :=
  let pivot := edgeTo w edge in
  let outs := outgoingOf w edges pivot in
  match outs with
  | [] => None
  | first :: _ =>
      let baseAngle := angleBetween w pivot (edgeFrom w edge) in
      let cand e := angleBetween w pivot (edgeTo w e) in
      let best :=
        fold_left (fun best c =>
          if Utility.turnPositive baseAngle (cand c) &&
             match best with
             | None => true
             | Some b => Utility.turnLt baseAngle (cand c) (cand b)
             end
          then Some c else best) outs None in
      let best' :=
        match best with
        | Some b => Some b
        | None =>
            fold_left (fun best c =>
              match best with
              | None => Some c
              | Some b =>
                  if Utility.turnLt baseAngle (cand b) (cand c)
                  then Some c else best
              end) outs None
        end in
      Some (default first best')
  end.

Definition GUARD_LIMIT : Z := 100000.

(** The [while] loop that walks from [start]; yields [(loopEdges, closed)].
    Every round adds an edge that is not yet in [loopEdges], so the number
    of edges bounds the number of rounds. *)
Fixpoint walk (fuel : nat) (w : World) (edges : list Edge) (start : Edge)
    (e : Edge) (guard : Z) (loopEdges : list Edge)
  : list Edge * bool :=
  match fuel with
  | O => (loopEdges, false)
  | S fuel' =>
      if includes e loopEdges then (loopEdges, false)
      else
        let loopEdges' := loopEdges ++ [e] in
        match nextLeft w edges e with
        | None => (loopEdges', false)
        | Some e' =>
            if guard + 1 >? GUARD_LIMIT then (loopEdges', false)
            else if decide (e' = start) then (loopEdges', true)
            else walk fuel' w edges start e' (guard + 1) loopEdges'
        end
  end.

Definition xyOf (w : World) (loopEdges : list Edge) : list Z :=
  e ← loopEdges;
  [v_x (vertexAt w (edgeFrom w e)); v_y (vertexAt w (edgeFrom w e))].

(** The loop over [edges] that collects the positive-area loops. The
    [continue] statements of its body go on with the next edge. *)
Definition traceLoops (w : World) (edges : list Edge) : list (list Edge) :=
  (fold_left (fun (st : list Edge * list (list Edge)) start =>
     let '(visited, loops) := st in
     if includes start visited then st
     else
       let '(loopEdges, closed) :=
         walk (S (length edges)) w edges start start 0 [] in
       let xy := xyOf w loopEdges in
       if negb closed || (length xy <? 6)%nat then st
       else
         let ring := xy ++ [Utility.at_ xy 0; Utility.at_ xy 1] in
         if Utility.signedArea2d_twice ring >? 0
         then (visited ++ loopEdges, loops ++ [loopEdges])
         else st)
     edges ([], [])).2.

Definition descOfEdge (w : World) (e : Edge) : LineDesc :=
  mkLineDesc (x0_of w e.1) (y0_of w e.1) (x1_of w e.1) (y1_of w e.1) e.2.

(** [sectorOverride ?? sectorOld ?? null] on the left side of an edge. *)
Definition oldLeft (w : World) (e : Edge) : option SectorId :=
  let side := if e.2 then front (lineAt w e.1) else back (lineAt w e.1) in
  match sectorOverride side with
  | Some s => Some s
  | None => sectorOld side
  end.

Definition templateOf (w : World) (loopEdges : list Edge) : option SectorId :=
  fold_left (fun acc e =>
    match acc with Some s => Some s | None => oldLeft w e end)
    loopEdges None.

Definition buildSector (loopEdges : list Edge) : M unit :=
  w ← get;
  let newLines := descOfEdge w <$> loopEdges in
  s ← match templateOf w loopEdges with
      | Some t => Sector_clone t (lineMap (this w)) newLines
      | None => Sector_new (lineMap (this w)) newLines
      end;
  addSector_ s.

Definition clearOverride (l : LineId) : M unit :=
  modLine l (fun o =>
    set_back (set_sectorOverride None (back o))
             (set_front (set_sectorOverride None (front o)) o)).

(** [rebuildSectors()] *)
Definition rebuildSectors : M unit :=
  w ← get;
  if (length (modifiedLines (this w)) =? 0)%nat then mret tt
  else
    let localLines := localLinesOf w (modifiedLines (this w)) in
    invalidated ← invalidate localLines;
    forEach invalidated removeSector_;;
    w1 ← get;
    let loops := traceLoops w1 (edgesOf localLines) in
    forEach loops buildSector;;
    w2 ← get;
    forEach (lines (this w2)) clearOverride;;
    modThis (set_modifiedLines []).

(** ** doommap.class.js: math helpers and property setters *)

(** The callback of [#wouldSegmentCrossAny]; the accumulator is [result]. *)
Definition crossCb (x0 y0 x1 y1 : Z) (ignore : option (list LineId))
  : Callback (option LineId) :=
  fun g _ result =>
    if match g, ignore with
       | GLine l, Some ig => includes l ig
       | _, _ => false
       end
    then mret (result, true)
    else
      line ← asLine g;
      w ← get;
      let x2 := x0_of w line in let y2 := y0_of w line in
      let x3 := x1_of w line in let y3 := y1_of w line in
      let sharesEndpoint :=
        ((x0 =? x2) && (y0 =? y2)) || ((x0 =? x3) && (y0 =? y3)) ||
        ((x1 =? x2) && (y1 =? y2)) || ((x1 =? x3) && (y1 =? y3)) in
      if sharesEndpoint then mret (result, true)
      else if Utility.segmentsProperlyIntersect x0 y0 x1 y1 x2 y2 x3 y3
      then mret (Some line, false)
      else if Utility.collinearOverlapMoreThanEndpoint x0 y0 x1 y1 x2 y2 x3 y3
      then mret (Some line, false)
      else mret (result, true).

(** [#wouldSegmentCrossAny(x0, y0, x1, y1, boundsMin, boundsMax, ignore)] *)
Definition wouldSegmentCrossAny (x0 y0 x1 y1 : Z) (boundsMin boundsMax : Z * Z)
    (ignore : option (list LineId)) : M (option LineId) :=
  iterateLines (crossCb x0 y0 x1 y1 ignore) (Some (boundsMin, boundsMax))
               false None.

(** The shared shape of the four setters: validate, skip a no-op, record. *)
Definition setProperty (current : option JsVal) (value : JsVal)
    (msg : string) (doF : JsVal -> Func) (target : Target)
    (parameter : string) : M unit :=
  match current with
  | None => throw msg
  | Some last =>
      if negb (sameType value last) then throw msg
      else if bool_decide (last = value) then mret tt
      else History_do (doF value) (doF last) target (Some parameter) true
  end.

(** [setSideProperty(line, property, value, isFront)] *)
Definition setSideProperty (line : LineId) (property : string) (value : JsVal)
    (isFront : bool) : M unit :=
  w ← get;
  let side := if isFront then front (lineAt w line) else back (lineAt w line) in
  setProperty (side_get side property) value "Invalid side property"
              (SetSide line isFront property) (TObj (GLine line))
              ((if isFront then "front" else "back") +:+ ":" +:+ property).

(** [setLineFlag(line, property, value)] *)
Definition setLineFlag (line : LineId) (property : string) (value : JsVal)
  : M unit :=
  w ← get;
  setProperty (flags_get (flags (lineAt w line)) property) value
              "Invalid flags property"
              (SetFlag line property) (TObj (GLine line))
              ("flag:" +:+ property).

(** [setSectorProperty(sector, property, value)] *)
Definition setSectorProperty (s : SectorId) (property : string)
    (value : JsVal) : M unit :=
  w ← get;
  setProperty (properties_get (properties (sectorAt w s)) property) value
              "Invalid sector property"
              (SetSector s property) (TObj (GSector s)) property.

(** [setMapProperty(property, value)] *)
Definition setMapProperty (property : string) (value : JsVal) : M unit :=
  w ← get;
  setProperty (metadata_get (metadata (this w)) property) value
              "Invalid metadata property"
              (SetMetadata property) TThis property.

(** ** doommap.class.js: manipulation API

    The coordinates handed to the API are integers, on which [Math.round]
    is the identity. *)

Definition splitCandidate (w : World) (vx vy : Z) (l : LineId) : bool :=
  (Utility.orientation (x0_of w l) (y0_of w l) (x1_of w l) (y1_of w l) vx vy =? 0)
  && Utility.onSegment (x0_of w l) (y0_of w l) vx vy (x1_of w l) (y1_of w l).

(** [addVertex(x, y, skipRebuild)] *)
Definition addVertex (vx vy : Z) (skipRebuild : bool) : M VertexId :=
  w ← get;
  let key := createVertexKey vx vy in
  match vertexMap (this w) !! key with
  | Some existing => mret existing
  | None =>
      vertex ← Vertex_new vx vy;
      addVertex_ vertex;;
      w1 ← get;
      let linesToSplit := filter (fun l => splitCandidate w1 vx vy l = true)
                                 (lines (this w1)) in
      forEach linesToSplit (fun line =>
        w2 ← get;
        lA ← Line_clone line (vertexMap (this w2))
               (Some (l_v0 (lineAt w2 line))) (Some vertex);
        w3 ← get;
        lB ← Line_clone line (vertexMap (this w3))
               (Some vertex) (Some (l_v1 (lineAt w3 line)));
        addLine_ lA;;
        addLine_ lB;;
        removeLine_ line);;
      (if skipRebuild then mret tt else rebuildSectors);;
      mret vertex
  end.

(** The loop [while (vertex.lines.length > 0) #removeLine(vertex.lines[0])].
    Every round that does not throw detaches a line of [vertex.lines], so
    the initial length bounds the rounds when the lists hold incident lines
    only; a list that does not shrink makes the source loop for ever
    ([diverges]). *)
Fixpoint removeIncident (fuel : nat) (vertex : VertexId) : M unit :=
  w ← get;
  match v_lines (vertexAt w vertex) with
  | [] => mret tt
  | l :: _ =>
      match fuel with
      | O => throw "diverges"
      | S fuel' => removeLine_ l;; removeIncident fuel' vertex
      end
  end.

(** [removeVertex(x, y, skipRebuild)] *)
Definition removeVertex (vx vy : Z) (skipRebuild : bool) : M bool :=
  w ← get;
  match vertexMap (this w) !! createVertexKey vx vy with
  | None => mret false
  | Some vertex =>
      removeIncident (length (v_lines (vertexAt w vertex))) vertex;;
      removeVertex_ vertex;;
      (if skipRebuild then mret tt else rebuildSectors);;
      mret true
  end.

(** [moveVertex(fromX, fromY, toX, toY, skipRebuild)] *)
Definition moveVertex (fx fy tx ty : Z) (skipRebuild : bool) : M bool :=
  if (fx =? tx) && (fy =? ty) then mret true
  else
    w ← get;
    match vertexMap (this w) !! createVertexKey fx fy with
    | None => mret false
    | Some oldVertex =>
        newVertex ← match vertexMap (this w) !! createVertexKey tx ty with
                    | Some v => mret v
                    | None => addVertex tx ty true
                    end;
        w1 ← get;
        forEach (v_lines (vertexAt w1 oldVertex)) (fun oldLine =>
          w2 ← get;
          let o := lineAt w2 oldLine in
          let other := if decide (l_v0 o = oldVertex) then l_v1 o else l_v0 o in
          if decide (other = newVertex) then removeLine_ oldLine
          else
            let newKey := createLineKey (v_x (vertexAt w2 newVertex))
                                        (v_y (vertexAt w2 newVertex))
                                        (v_x (vertexAt w2 other))
                                        (v_y (vertexAt w2 other)) in
            match lineMap (this w2) !! newKey with
            | Some _ => removeLine_ oldLine
            | None =>
                newLine ← Line_clone oldLine (vertexMap (this w2))
                  (if decide (l_v0 o = oldVertex) then Some newVertex else None)
                  (if decide (l_v1 o = oldVertex) then Some newVertex else None);
                addLine_ newLine;;
                removeLine_ oldLine
            end);;
        removeVertex_ oldVertex;;
        (if skipRebuild then mret tt else rebuildSectors);;
        mret true
    end.

(** [removeLine(fromX, fromY, toX, toY, skipRebuild)] *)
Definition removeLine (x0 y0 x1 y1 : Z) (skipRebuild : bool) : M bool :=
  w ← get;
  match lineMap (this w) !! createLineKey x0 y0 x1 y1 with
  | None => mret false
  | Some line =>
      removeLine_ line;;
      (if skipRebuild then mret tt else rebuildSectors);;
      mret true
  end.

(** [getLine(x0, y0, x1, y1)] *)
Definition getLine (w : World) (x0 y0 x1 y1 : Z) : option LineId :=
  lineMap (this w) !! createLineKey x0 y0 x1 y1.

(** [addThing(x, y, z, typeId, clone)] *)
Definition addThing (x y z ty : Z) (clone : option ThingId) : M ThingId :=
  thing ← match clone with
          | Some c => Thing_clone c x y
          | None => Thing_new x y z ty 0
          end;
  addThing_ thing;;
  mret thing.

(** [removeThing(thing)] *)
Definition removeThing (thing : ThingId) : M bool :=
  w ← get;
  if includes thing (things (this w))
  then removeThing_ thing;; mret true
  else throw "Attempted to remove non-existing thing".

(** *** [addLine] *)

Definition epsilon : Q := 1 # 1000000000000.

(** [Math.round] on a rational. *)
Definition roundQ (q : Q) : Z := Qfloor (q + (1 # 2)).

Definition qmin (a b : Q) : Q := if Qle_bool a b then a else b.
Definition qmax (a b : Q) : Q := if Qle_bool a b then b else a.

(** The reusable [intersection] object [{ x, y, t }]. *)
Definition Intersection : Type := (Z * Z) * Q.

Definition properIntersectionPoint (ax ay bx by_ cx cy dx dy : Z)
  : Intersection :=
  let rpx := bx - ax in let rpy := by_ - ay in
  let spx := dx - cx in let spy := dy - cy in
  let d := rpx * spy - rpy * spx in
  let t := Qred (inject_Z ((cx - ax) * spy - (cy - ay) * spx) / inject_Z d) in
  let ix := (inject_Z ax + t * inject_Z rpx)%Q in
  let iy := (inject_Z ay + t * inject_Z rpy)%Q in
  ((roundQ ix, roundQ iy), t).

(** The first callback of [addLine]. Every entry pushed on [hits] is the one
    shared [intersection] object, so [hits] is known by its length and by
    the current content of that object. *)
Definition hitsCb (x0 y0 x1 y1 : Z) : Callback (nat * Intersection) :=
  fun g _ acc =>
    line ← asLine g;
    w ← get;
    let lx0 := x0_of w line in let ly0 := y0_of w line in
    let lx1 := x1_of w line in let ly1 := y1_of w line in
    let sharesEndpoint :=
      ((x0 =? lx0) && (y0 =? ly0)) || ((x0 =? lx1) && (y0 =? ly1)) ||
      ((x1 =? lx0) && (y1 =? ly0)) || ((x1 =? lx1) && (y1 =? ly1)) in
    if sharesEndpoint then mret (acc, true)
    else if Utility.segmentsProperlyIntersect x0 y0 x1 y1 lx0 ly0 lx1 ly1
    then
      let hit := properIntersectionPoint x0 y0 x1 y1 lx0 ly0 lx1 ly1 in
      if Utility.Qltb 0 hit.2 && Utility.Qltb hit.2 1
      then mret ((S acc.1, hit), true)
      else mret ((acc.1, hit), true)
    else mret (acc, true).

Definition projectT (sx sy dx dy lengthSquared qx qy : Z) : Q :=
  if lengthSquared =? 0 then 0%Q
  else
    let t := Qred (inject_Z ((qx - sx) * dx + (qy - sy) * dy)
                   / inject_Z lengthSquared) in
    qmax 0 (qmin 1 t).

(** The second callback of [addLine]: the covered intervals. *)
Definition intervalsCb (sx sy ex ey : Z) : Callback (list (Q * Q)) :=
  fun g _ intervals =>
    line ← asLine g;
    w ← get;
    let ax := x0_of w line in let ay := y0_of w line in
    let bx := x1_of w line in let by_ := y1_of w line in
    if negb (Utility.orientation sx sy ex ey ax ay =? 0)
    then mret (intervals, true)
    else if negb (Utility.orientation sx sy ex ey bx by_ =? 0)
    then mret (intervals, true)
    else
      let dx := ex - sx in let dy := ey - sy in
      let l2 := dx * dx + dy * dy in
      let ta := projectT sx sy dx dy l2 ax ay in
      let tb := projectT sx sy dx dy l2 bx by_ in
      let s := qmin ta tb in
      let e := qmax ta tb in
      if Qle_bool (e - s) epsilon then mret (intervals, true)
      else if Qle_bool e 0 || Qle_bool 1 s then mret (intervals, true)
      else mret (intervals ++ [(qmax 0 s, qmin 1 e)], true).

Definition mergeIntervals (intervals : list (Q * Q)) : list (Q * Q) :=
  fold_left (fun merged iv =>
    match last merged with
    | None => merged ++ [iv]
    | Some top =>
        if Utility.Qltb (top.2 + epsilon) iv.1 then merged ++ [iv]
        else removelast merged ++ [(top.1, qmax top.2 iv.2)]
    end)
    (sortBy (fun a b => Utility.Qltb a.1 b.1) intervals) [].

Definition gapsOf (merged : list (Q * Q)) : list (Q * Q) :=
  let '(gaps, cursor) :=
    fold_left (fun (st : list (Q * Q) * Q) iv =>
      let '(gaps, cursor) := st in
      ((if Utility.Qltb (cursor + epsilon) iv.1
        then gaps ++ [(cursor, iv.1)] else gaps),
       qmax cursor iv.2)) merged ([], 0%Q) in
  if Utility.Qltb cursor (1 - epsilon) then gaps ++ [(cursor, 1%Q)] else gaps.

Definition pointAt (sx sy dx dy : Z) (t : Q) : Z * Z :=
  (roundQ (inject_Z sx + t * inject_Z dx), roundQ (inject_Z sy + t * inject_Z dy)).

(** The body of the loop over [gaps]; the accumulator is [created]. *)
Definition createGap (sx sy dx dy : Z) (created : list LineId) (gap : Q * Q)
  : M (list LineId) :=
  if Qle_bool (gap.2 - gap.1) epsilon then mret created
  else
    let pA := pointAt sx sy dx dy gap.1 in
    let pB := pointAt sx sy dx dy gap.2 in
    vA ← addVertex pA.1 pA.2 true;
    vB ← addVertex pB.1 pB.2 true;
    w ← get;
    let a := vertexAt w vA in
    let b := vertexAt w vB in
    if (v_x a =? v_x b) && (v_y a =? v_y b) then mret created
    else
      match lineMap (this w) !! createLineKey (v_x a) (v_y a) (v_x b) (v_y b) with
      | Some _ => mret created
      | None =>
          line ← Line_new vA vB;
          addLine_ line;;
          mret (created ++ [line])
      end.

Definition otherOf (w : World) (line : LineId) (vertex : VertexId)
  : VertexId :=
  if decide (l_v0 (lineAt w line) = vertex)
  then l_v1 (lineAt w line) else l_v0 (lineAt w line).

(** The loop of [tryMergeAtVertex] over the snapshot of
    [sharedVertex.lines]. *)
Fixpoint tryMergeOver (line : LineId) (sharedVertex : VertexId)
    (candidates : list LineId) : M LineId :=
  match candidates with
  | [] => mret line
  | candidate :: rest =>
      if decide (candidate = line) then tryMergeOver line sharedVertex rest
      else
        w ← get;
        let a := vertexAt w (otherOf w line sharedVertex) in
        let b := vertexAt w sharedVertex in
        let c := vertexAt w (otherOf w candidate sharedVertex) in
        if negb (Utility.orientation (v_x a) (v_y a) (v_x b) (v_y b)
                                     (v_x c) (v_y c) =? 0)
        then tryMergeOver line sharedVertex rest
        else
          crossing ← wouldSegmentCrossAny (v_x a) (v_y a) (v_x c) (v_y c)
                       (Z.min (v_x a) (v_x c), Z.min (v_y a) (v_y c))
                       (Z.max (v_x a) (v_x c), Z.max (v_y a) (v_y c))
                       (Some [line; candidate]);
          match crossing with
          | Some _ => tryMergeOver line sharedVertex rest
          | None =>
              w1 ← get;
              match lineMap (this w1)
                    !! createLineKey (v_x a) (v_y a) (v_x c) (v_y c) with
              | Some existing =>
                  removeLine_ line;;
                  removeLine_ candidate;;
                  mret existing
              | None =>
                  let base := lineAt w1 candidate in
                  merged ← Line_clone candidate (vertexMap (this w1))
                    (if decide (l_v0 base = sharedVertex)
                     then Some (otherOf w line sharedVertex) else None)
                    (if decide (l_v1 base = sharedVertex)
                     then Some (otherOf w candidate sharedVertex) else None);
                  addLine_ merged;;
                  removeLine_ line;;
                  removeLine_ candidate;;
                  mret merged
              end
          end
  end.

Definition tryMergeAtVertex (line : LineId) (sharedVertex : VertexId)
  : M LineId :=
  w ← get;
  tryMergeOver line sharedVertex (v_lines (vertexAt w sharedVertex)).

(** The loop [while (changed)]. A merge that does not throw takes at least
    one line out of the map, so the number of lines bounds the rounds. *)
Fixpoint mergeOutward (fuel : nat) (line : LineId) : M unit :=
  match fuel with
  | O => throw "diverges"
  | S fuel' =>
      w ← get;
      m1 ← tryMergeAtVertex line (l_v0 (lineAt w line));
      if negb (bool_decide (m1 = line)) then mergeOutward fuel' m1
      else
        m2 ← tryMergeAtVertex line (l_v1 (lineAt w line));
        if negb (bool_decide (m2 = line)) then mergeOutward fuel' m2
        else mret tt
  end.

(** What [addLine] returns: [false] or the non-empty array [created]. *)
Inductive AddLineResult : Type :=
  | ReturnsFalse
  | ReturnsCreated (created : list LineId).

(** [addLine(fromX, fromY, toX, toY, skipRebuild)] *)
Definition addLine (x0 y0 x1 y1 : Z) (skipRebuild : bool)
  : M AddLineResult :=
  if (x0 =? x1) && (y0 =? y1) then mret ReturnsFalse
  else
    let boundsMin := (Z.min x0 x1, Z.min y0 y1) in
    let boundsMax := (Z.max x0 x1, Z.max y0 y1) in
    vStart ← addVertex x0 y0 true;
    vEnd ← addVertex x1 y1 true;
    w ← get;
    let sx := v_x (vertexAt w vStart) in let sy := v_y (vertexAt w vStart) in
    let ex := v_x (vertexAt w vEnd) in let ey := v_y (vertexAt w vEnd) in
    match lineMap (this w) !! createLineKey sx sy ex ey with
    | Some _ =>
        (if skipRebuild then mret tt else rebuildSectors);;
        mret ReturnsFalse
    | None =>
        hits ← iterateLines (hitsCb x0 y0 x1 y1) (Some (boundsMin, boundsMax))
                 false (0%nat, ((0, 0), 0%Q));
        forEach (replicate hits.1 hits.2)
                (fun h => addVertex h.1.1 h.1.2 true;; mret tt);;
        let dx := ex - sx in
        let dy := ey - sy in
        intervals ← iterateLines (intervalsCb sx sy ex ey)
                      (Some (boundsMin, boundsMax)) false [];
        let gaps := gapsOf (mergeIntervals intervals) in
        created ← fold_left (fun (acc : M (list LineId)) gap =>
                     c ← acc; createGap sx sy dx dy c gap) gaps (mret []);
        forEach created (fun line =>
          w1 ← get;
          if includes line (lines (this w1))
          then mergeOutward (S (length (lines (this w1)))) line
          else mret tt);;
        (if skipRebuild then mret tt else rebuildSectors);;
        mret (match created with
              | [] => ReturnsFalse
              | _ => ReturnsCreated created
              end)
    end.

(** ** doommap.class.js: selection, copy and paste *)

(** [select(geometries)] *)
Definition select (geometries : list Geom) : M unit :=
  forEach geometries (fun g =>
    w ← get;
    if includes g (selection (this w)) then mret tt
    else
      let extra :=
        match g with
        | GLine l => [GVertex (l_v0 (lineAt w l)); GVertex (l_v1 (lineAt w l))]
        | GSector s =>
            l ← s_lines (sectorAt w s);
            [GVertex (l_v0 (lineAt w l)); GVertex (l_v1 (lineAt w l)); GLine l]
        | _ => []
        end in
      modThis (fun m =>
        set_selection (fold_left (fun acc x => setAdd x acc) (g :: extra)
                                 (selection m)) m)).

(** [deselect(geometries)]; [None] is the default [null]. *)
Definition deselect (geometries : option (list Geom)) : M unit :=
  match geometries with
  | None => modThis (set_selection [])
  | Some gs =>
      modThis (fun m =>
        set_selection (fold_left (fun acc x => setDelete x acc) gs
                                 (selection m)) m)
  end.

(** Run a method on another map object ([submap.#addVertex(...)]): [this]
    is that map for the duration of the call. *)
Definition onMap {A} (m : DoomMap) (c : M A) : M (A * DoomMap) :=
  fun w =>
    match c (with_this (fun _ => m) w) with
    | Ok a w' => Ok (a, this w') (with_this (fun _ => this w) w')
    | Throw msg w' => Throw msg (with_this (fun _ => this w) w')
    end.

Definition descOfLine (w : World) (frontFlag : bool) (l : LineId) : LineDesc :=
  mkLineDesc (x0_of w l) (y0_of w l) (x1_of w l) (y1_of w l) frontFlag.

(** [copySelection()] *)
Definition copySelection : M DoomMap :=
  w ← get;
  let self := this w in
  let sel g := includes g (selection self) in
  r ← onMap newDoomMap (
    forEach (filter (fun v => sel (GVertex v) = true) (vertices self)) (fun v =>
      w1 ← get;
      n ← Vertex_new (v_x (vertexAt w1 v)) (v_y (vertexAt w1 v));
      addVertex_ n);;
    forEach (filter (fun l => sel (GLine l) = true) (lines self)) (fun l =>
      w1 ← get;
      n ← Line_clone l (vertexMap (this w1)) None None;
      addLine_ n);;
    forEach (filter (fun s => sel (GSector s) = true) (sectors self)) (fun s =>
      w1 ← get;
      n ← Sector_clone s (lineMap (this w1))
            ((fun l => descOfLine w1
                         (bool_decide (sector (front (lineAt w1 l)) = Some s)) l)
             <$> s_lines (sectorAt w1 s));
      addSector_ n);;
    forEach (filter (fun t => sel (GThing t) = true) (things self)) (fun t =>
      w1 ← get;
      n ← Thing_clone t (t_x (thingAt w1 t)) (t_y (thingAt w1 t));
      addThing_ n));
  mret r.2.


(** ** Serialization *)

Record SideData : Type := mkSideData {
  sd_textureUpper : string; sd_textureMiddle : string;
  sd_textureLower : string; sd_xOffset : Z; sd_yOffset : Z
}.

Record LineData : Type := mkLineData {
  ld_v0 : Z * Z; ld_v1 : Z * Z;
  ld_front : SideData; ld_back : SideData; ld_flags : Flags
}.

Record SectorData : Type := mkSectorData {
  sd_properties : Properties;
  sd_lines : list LineDesc
}.

Record MapData : Type := mkMapData {
  md_vertices : list (Z * Z);
  md_lines : list LineData;
  md_sectors : list SectorData;
  md_things : list Thing;
  md_metadata : Metadata
}.

Definition Side_serialize (s : Side) : SideData :=
  mkSideData (textureUpper s) (textureMiddle s) (textureLower s)
             (xOffset s) (yOffset s).

Definition Side_deserialize (s : Side) (d : SideData) : Side :=
  mkSide (sector s) (sectorOld s) (sectorOverride s)
         (sd_textureUpper d) (sd_textureMiddle d) (sd_textureLower d)
         (sd_xOffset d) (sd_yOffset d).

Definition Line_serialize (w : World) (l : LineId) : LineData :=
  let o := lineAt w l in
  mkLineData (x0_of w l, y0_of w l) (x1_of w l, y1_of w l)
             (Side_serialize (front o)) (Side_serialize (back o)) (flags o).

(** [Line.deserialize(data, vertexMap)] *)
Definition Line_deserialize (d : LineData) (vmap : gmap VKey VertexId)
  : M LineId :=
  match vmap !! createVertexKey (ld_v0 d).1 (ld_v0 d).2,
        vmap !! createVertexKey (ld_v1 d).1 (ld_v1 d).2 with
  | Some v0, Some v1 =>
      l ← Line_new v0 v1;
      modLine l (fun n =>
        mkLine (l_v0 n) (l_v1 n) (Side_deserialize (front n) (ld_front d))
               (Side_deserialize (back n) (ld_back d)) (ld_flags d)
               (l_bounds n));;
      mret l
  | _, _ => throw "Missing vertex"
  end.

Definition Sector_serialize (w : World) (s : SectorId) : SectorData :=
  mkSectorData (properties (sectorAt w s))
    ((fun l => descOfLine w (bool_decide (sector (front (lineAt w l)) = Some s)) l)
     <$> s_lines (sectorAt w s)).

(** [Sector.deserialize(data, lineMap)] *)
Definition Sector_deserialize (d : SectorData) (lineMap_ : gmap LKey LineId)
  : M SectorId :=
  s ← Sector_new lineMap_ (sd_lines d);
  modSector s (set_properties (sd_properties d));;
  mret s.

(** [serialize()] *)
Definition serialize (w : World) : MapData :=
  mkMapData ((fun v => (v_x (vertexAt w v), v_y (vertexAt w v)))
             <$> vertices (this w))
            (Line_serialize w <$> lines (this w))
            (Sector_serialize w <$> sectors (this w))
            (thingAt w <$> things (this w))
            (metadata (this w)).

(** [deserialize(data)] *)
Definition deserialize (data : MapData) : M unit :=
  modThis (fun m =>
    mkDoomMap (md_metadata data) (history m) [] ∅ [] ∅ (modifiedLines m)
              [] [] (selection m) ∅);;
  forEach (md_vertices data) (fun vData =>
    v ← Vertex_new vData.1 vData.2; addVertex_ v);;
  forEach (md_lines data) (fun lData =>
    w ← get;
    l ← Line_deserialize lData (vertexMap (this w)); addLine_ l);;
  forEach (md_sectors data) (fun sData =>
    w ← get;
    s ← Sector_deserialize sData (lineMap (this w)); addSector_ s);;
  forEach (md_things data) (fun tData =>
    t ← Thing_new (t_x tData) (t_y tData) (t_z tData) (typeId tData)
                  (angle tData);
    addThing_ t);;
  rebuildSectors.

(** * Vocabulary of the properties *)

(** What a run leaves untouched outside the list of things and the grid. *)
Definition sameButThings (w w' : World) : Prop :=
  history (this w') = history (this w)
  /\ h_next w' = h_next w
  /\ h_things w' = h_things w.

Definition thingAction (t : ThingId) : History.Action :=
  History.mkAction (AddThingDo t) (AddThingUndo t) TNull None true.

Definition withLight (v : Z) (o : Sector) : Sector :=
  set_properties (properties_set (properties o) "lightLevel" (VNum v)) o.

Definition lightAction (s : SectorId) (v last : Z) : History.Action :=
  History.mkAction (SetSector s "lightLevel" (VNum v))
                   (SetSector s "lightLevel" (VNum last))
                   (TObj (GSector s)) (Some "lightLevel") true.

(** A map that holds one sector with the default properties, loaded from
    serialized data. *)
Definition oneSectorData : MapData :=
  mkMapData [] [] [mkSectorData newProperties []] [] newMetadata.

Definition oneSectorWorld : World :=
  world_of (deserialize oneSectorData newWorld).

(** The same map with a sector whose lightLevel is 128. *)
Definition dimSectorData : MapData :=
  mkMapData [] []
    [mkSectorData (properties_set newProperties "lightLevel" (VNum 128)) []]
    [] newMetadata.

Definition dimSectorWorld : World :=
  world_of (deserialize dimSectorData newWorld).

(** The world with another history, and the world without its history: the
    map, its objects and its grid. *)
Definition withHistory (h : History.t) (w : World) : World :=
  with_this (set_history h) w.

Definition content (w : World) : World := withHistory History.empty w.

Definition mapWorld {A} (f : World -> World) (r : Res A) : Res A :=
  match r with
  | Ok a w => Ok a (f w)
  | Throw msg w => Throw msg (f w)
  end.

(** A computation that neither reads nor writes the history. *)
Definition HistoryFree {A} (c : M A) : Prop :=
  forall h w, c (withHistory h w) = mapWorld (withHistory h) (c w).






(** [try { c } catch (e) { }]: the caller goes on with the map as the
    exception left it; yields the message of the exception, if any. *)
Definition attempt {A} (c : M A) : M (option string) :=
  fun w => match c w with
           | Ok _ w' => Ok None w'
           | Throw msg w' => Ok (Some msg) w'
           end.

Definition threw (o : option string) : bool :=
  match o with Some _ => true | None => false end.

(** The entities registered in the map. *)
Definition registered (w : World) : list Geom :=
  arrayOf KVertices (this w) ++ arrayOf KLines (this w)
  ++ arrayOf KSectors (this w) ++ arrayOf KThings (this w).

Definition cellAt (grid : Grid) (x y : Z) : list Geom :=
  default [] (grid !! x ≫= (.!! y)).

(** The cells that contain [g]. *)
Definition cellsHolding (grid : Grid) (g : Geom) : list (Z * Z) :=
  xc ← map_to_list grid;
  yc ← map_to_list xc.2;
  if includes g yc.2 then [(xc.1, yc.1)] else [].

(** The cells the bounds of an entity overlap. *)
Definition expectedCells (b : Bounds) : list (Z * Z) :=
  x ← range (cellOf (minX b)) (cellOf (maxX b));
  y ← range (cellOf (minY b)) (cellOf (maxY b));
  [(x, y)].

Definition gridHolds (w : World) (g : Geom) : bool :=
  let grid := spatialGrid (this w) in
  match boundsOf w g with
  | Some b =>
      forallb (fun c => includes g (cellAt grid c.1 c.2)) (expectedCells b)
      && forallb (fun c => includes c (expectedCells b)) (cellsHolding grid g)
  | None => (length (cellsHolding grid g) =? 0)%nat
  end.

Definition noEmptyCell (grid : Grid) : bool :=
  forallb (fun xc =>
    negb (size xc.2 =? 0)%nat
    && forallb (fun yc => negb (length yc.2 =? 0)%nat) (map_to_list xc.2))
    (map_to_list grid).

(** Every registered entity sits in exactly the cells of its bounds, and no
    empty cell or column is left. *)
Definition gridInvariant (w : World) : bool :=
  forallb (gridHolds w) (registered w) && noEmptyCell (spatialGrid (this w)).

(** Three vertices are added, the middle one is removed, the last three
    actions are undone, the first vertex is removed (its action takes the
    place of the one on top of the undo stack, so the redo stack stays) and
    two of the three undone actions are redone. *)
Definition staleIndexPrefix : M unit :=
  addVertex 0 0 false;; addVertex 10 0 false;; addVertex 20 0 false;;
  removeVertex 10 0 false;;
  History_undo;; History_undo;; History_undo;;
  removeVertex 0 0 false;;
  History_redo;; History_redo.

Definition plainSide : SideData := mkSideData "" "" "" 0 0.

(** An open path (0,0) - (100,0) - (0,100) - (-50,150). *)
Definition pathData : MapData :=
  mkMapData [(0, 0); (100, 0); (0, 100); (-50, 150)]
            [mkLineData (0, 0) (100, 0) plainSide plainSide newFlags;
             mkLineData (100, 0) (0, 100) plainSide plainSide newFlags;
             mkLineData (0, 100) (-50, 150) plainSide plainSide newFlags]
            [] [] newMetadata.

(** The path is loaded and its last vertex is moved onto the first one,
    which closes the triangle (0,0), (100,0), (0,100); no rebuild is asked
    for. *)
Definition triangleMap : World :=
  world_of ((deserialize pathData;; moveVertex (-50) 150 0 0 true) newWorld).



Definition sharesEndpoint (x0 y0 x1 y1 : Z) (w : World) (l : LineId) : bool :=
  ((x0 =? x0_of w l) && (y0 =? y0_of w l))
  || ((x0 =? x1_of w l) && (y0 =? y1_of w l))
  || ((x1 =? x0_of w l) && (y1 =? y0_of w l))
  || ((x1 =? x1_of w l) && (y1 =? y1_of w l)).














(** A map with the single line (0,0) - (10,0), loaded from serialized
    data. *)
Definition oneLineData : MapData :=
  mkMapData [(0, 0); (10, 0)]
            [mkLineData (0, 0) (10, 0) plainSide plainSide newFlags]
            [] [] newMetadata.

Definition oneLineMap : World :=
  world_of (deserialize oneLineData newWorld).

(** ** Vocabulary of the further properties *)

(** Whether the cell (x, y) is one of the cells the bounds overlap. *)
Definition inCells (b : Bounds) (x y : Z) : bool :=
  (cellOf (minX b) <=? x) && (x <=? cellOf (maxX b))
  && (cellOf (minY b) <=? y) && (y <=? cellOf (maxY b)).

(** The bounds of a geometry are ordered: those of a vertex, a thing and a
    line by construction, those of a sector when its vertices are. *)
Definition orderedBounds (w : World) (g : Geom) : Prop :=
  match boundsOf w g with
  | Some b => minY b <= maxY b
  | None => True
  end.

(** A map that holds the vertices (0, 0) and (300, 40), next to which the
    vertex (130, 200) was constructed. *)
Definition twoVertexWorld : World :=
  world_of ((addVertex 0 0 true;; addVertex 300 40 true;;
             Vertex_new 130 200) newWorld).

(** The actions [#addVertex] and [#addLine] record. *)
Definition addVertexAction (v : VertexId) (x y : Z) : History.Action :=
  History.mkAction (AddVertexDo v (createVertexKey x y))
    (AddVertexUndo (createVertexKey x y))
    (TKey (KVertex (createVertexKey x y))) None true.

Definition addLineAction (l : LineId) (x0 y0 x1 y1 : Z) : History.Action :=
  History.mkAction (AddLineDo l (createLineKey x0 y0 x1 y1))
    (AddLineUndo (createLineKey x0 y0 x1 y1))
    (TKey (KLine (createLineKey x0 y0 x1 y1))) None true.

(** The map loaded from one line, after [undo()] and [redo()] of the
    action that added the line: the line is registered again, but its
    vertices no longer list it. *)
Definition reAddedLineWorld : World :=
  world_of ((History_undo;; History_redo) oneLineMap).

Definition removeVertexAction (v : VertexId) (i : nat) (x y : Z)
  : History.Action :=
  History.mkAction (RemoveVertexDo v i (createVertexKey x y))
    (RemoveVertexUndo v (createVertexKey x y))
    (TKey (KVertex (createVertexKey x y))) None true.

(** The world in which [addVertex(x, y)] leaves a map without lines that
    has no vertex at (x, y): the new vertex object and its registration. *)
Definition withVertex (x y : Z) (w : World) : World :=
  let v := h_next w in
  let key := createVertexKey x y in
  with_this (fun m =>
      set_spatialGrid (gridAdd (GVertex v) (mkBounds x y x y) (spatialGrid m))
        (set_vertexMap (<[key := v]> (vertexMap m))
           (set_vertices (vertices m ++ [v])
              (set_history (History.record (history m) (addVertexAction v x y))
                 m))))
    (putVertex v (mkVertex x y [])
       (mkWorld (h_vertices w) (h_lines w) (h_sectors w) (h_things w)
                (S (h_next w)) (this w))).

(** [property in obj && typeof value === typeof obj[property]] *)
Definition accepts (current : option JsVal) (value : JsVal) : bool :=
  match current with
  | Some last => sameType value last
  | None => false
  end.

(** The side of a line a setter call addresses. *)
Definition sideOf (isFront : bool) (o : Line) : Side :=
  if isFront then front o else back o.

(** What [select] adds along with a geometry: the endpoints of a line,
    and the lines of a sector with their endpoints. *)
Definition selectedWith (w : World) (g : Geom) : list Geom :=
  match g with
  | GLine l => [GVertex (l_v0 (lineAt w l)); GVertex (l_v1 (lineAt w l))]
  | GSector s =>
      l ← s_lines (sectorAt w s);
      [GVertex (l_v0 (lineAt w l)); GVertex (l_v1 (lineAt w l)); GLine l]
  | _ => []
  end.

(** Every selected line has its two endpoints selected. *)
Definition endpointsSelected (w : World) (sel : list Geom) : Prop :=
  forall l, GLine l ∈ sel ->
    GVertex (l_v0 (lineAt w l)) ∈ sel /\ GVertex (l_v1 (lineAt w l)) ∈ sel.

Definition brickLine : LineData :=
  mkLineData (300, 40) (0, 0)
    (mkSideData "" "BRICK" "" 8 0) (mkSideData "" "" "" 0 0)
    (mkFlags true false false false false false false).

(** The serialized vertices of a list of vertex objects. *)
Definition coordsOf (w : World) (vs : list VertexId) : list (Z * Z) :=
  (fun v => (v_x (vertexAt w v), v_y (vertexAt w v))) <$> vs.

(** Every registered vertex and thing was allocated before [h_next]. *)
Definition allocated (w : World) : Prop :=
  (forall v, v ∈ vertices (this w) -> (v < h_next w)%nat)
  /\ (forall t, t ∈ things (this w) -> (t < h_next w)%nat).

(** The fields of the map that the loops over vertices and things of
    [deserialize] do not write. *)
Definition sameLinesAndSectors (w w' : World) : Prop :=
  lines (this w') = lines (this w)
  /\ sectors (this w') = sectors (this w)
  /\ modifiedLines (this w') = modifiedLines (this w)
  /\ metadata (this w') = metadata (this w)
  /\ lineMap (this w') = lineMap (this w).

(** A map that holds one thing. *)
Definition oneThingWorld : World :=
  world_of (addThing 40 50 0 3001 None newWorld).

Definition startData : MapData :=
  mkMapData [(0, 0); (64, 0); (0, 0)] [] []
    [mkThing 32 32 0 1 90; mkThing 10 10 0 3001 0]
    (metadata_set newMetadata "author" (VStr "id")).

(** * Properties *)

(** ** The history *)

Lemma replace_spec (h : History.t) (tg : Target) (pm : option string) :
  History.replace h tg pm = true <->
  exists top, last (History.stack h) = Some top
              /\ History.coalescing top = true
              /\ History.target top = tg
              /\ History.parameter top = pm.
Proof.
  unfold History.replace. destruct (last (History.stack h)) as [l|].
  - rewrite !andb_true_iff, !bool_decide_eq_true. split.
    + intros [[Hc Ht] Hp]. exists l. auto.
    + intros (top & Htop & Hc & Ht & Hp). injection Htop as <-. auto.
  - split; [discriminate | intros (top & Htop & _); discriminate].
Qed.

Lemma insert_last_length {A} (l : list A) (x : A) :
  l <> [] -> <[(length l - 1)%nat := x]> l = removelast l ++ [x].
Proof.
  intros Hne. destruct (exists_last Hne) as (l' & y & ->).
  rewrite removelast_last, length_app. simpl.
  replace (length l' + 1 - 1)%nat with (length l' + 0)%nat by lia.
  rewrite insert_app_r. reflexivity.
Qed.

(** C5. [History.do(doFunc, undoFunc, target, parameter, coalescing)]: when
    the top of the undo stack is coalescing and has the same target and
    parameter, the new action takes the place of the top and the redo stack
    is kept; otherwise the action is pushed and the redo stack is emptied;
    in both cases [doFunc] then runs once, on the map with the updated
    history. *)
Theorem History_do_spec (w : World) (doF undoF : Func) (tg : Target)
    (pm : option string) (co : bool) :
  let h := history (this w) in
  let action := History.mkAction doF undoF tg pm co in
  let coalesces :=
    exists top, last (History.stack h) = Some top
                /\ History.coalescing top = true
                /\ History.target top = tg
                /\ History.parameter top = pm in
  exists h',
    History_do doF undoF tg pm co w
      = runFunc doF (with_this (set_history h') w)
    /\ (coalesces ->
        History.stack h' = removelast (History.stack h) ++ [action]
        /\ History.undoCount h' = History.undoCount h
        /\ History.redoStack h' = History.redoStack h)
    /\ (~ coalesces ->
        History.stack h' = History.stack h ++ [action]
        /\ History.undoCount h' = S (History.undoCount h)
        /\ History.redoStack h' = []).
Proof.
  intros h action coalesces.
  exists (History.record h action). split; [reflexivity|].
  unfold History.record. simpl.
  destruct (History.replace h tg pm) eqn:Hr.
  - split.
    + intros _. apply replace_spec in Hr as (top & Htop & _).
      assert (Hne : History.stack h <> []).
      { intros E. rewrite E in Htop. discriminate. }
      simpl. rewrite insert_last_length by exact Hne.
      split; [reflexivity|]. split; [|reflexivity].
      unfold History.undoCount. simpl.
      destruct (exists_last Hne) as (l' & y & E). rewrite E.
      rewrite removelast_last, !length_app. reflexivity.
    + intros Hn. exfalso. apply Hn. apply replace_spec. exact Hr.
  - split.
    + intros Hc. apply replace_spec in Hc. congruence.
    + intros _. simpl. split; [reflexivity|]. split; [|reflexivity].
      unfold History.undoCount. simpl. rewrite length_app. simpl. lia.
Qed.

(** ** Undoing a sequence of actions *)

Lemma HistoryFree_ret {A} (a : A) : HistoryFree (mret a).
Proof. intros h w. reflexivity. Qed.

Lemma HistoryFree_throw {A} (msg : string) : HistoryFree (@throw A msg).
Proof. intros h w. reflexivity. Qed.

Lemma HistoryFree_bind {A B} (c : M A) (k : A -> M B) :
  HistoryFree c -> (forall a, HistoryFree (k a)) -> HistoryFree (c ≫= k).
Proof.
  intros Hc Hk h w. unfold mbind, M_bind. rewrite Hc.
  destruct (c w) as [a w'|msg w']; simpl; [apply Hk | reflexivity].
Qed.

(** What is done with the world that was read may depend on anything but
    its history. *)
Lemma HistoryFree_get {B} (k : World -> M B) :
  (forall h w, k (withHistory h w) (withHistory h w)
               = mapWorld (withHistory h) (k w w)) ->
  HistoryFree (get ≫= k).
Proof. intros Hk h w. apply Hk. Qed.

Lemma HistoryFree_modify (f : World -> World) :
  (forall h w, f (withHistory h w) = withHistory h (f w)) ->
  HistoryFree (modify f).
Proof. intros Hf h w. unfold modify. simpl. by rewrite Hf. Qed.

Lemma HistoryFree_modThis (f : DoomMap -> DoomMap) :
  (forall h m, f (set_history h m) = set_history h (f m)) ->
  HistoryFree (modThis f).
Proof.
  intros Hf. apply HistoryFree_modify. intros h w.
  unfold withHistory, with_this. simpl. by rewrite Hf.
Qed.

Lemma HistoryFree_addToSpatialGrid g : HistoryFree (addToSpatialGrid g).
Proof.
  apply HistoryFree_modify. intros h w.
  change (boundsOf (withHistory h w) g) with (boundsOf w g).
  by destruct (boundsOf w g).
Qed.

Lemma HistoryFree_removeFromSpatialGrid g :
  HistoryFree (removeFromSpatialGrid g).
Proof.
  apply HistoryFree_modify. intros h w.
  change (boundsOf (withHistory h w) g) with (boundsOf w g).
  by destruct (boundsOf w g).
Qed.

Lemma HistoryFree_Vertex_new x y : HistoryFree (Vertex_new x y).
Proof. intros h w. reflexivity. Qed.

Lemma HistoryFree_Line_new v0 v1 : HistoryFree (Line_new v0 v1).
Proof. intros h w. reflexivity. Qed.

(** After a read: the fields other than the history are those of the world
    itself, and the branch taken is the same. *)
Ltac after_get :=
  apply HistoryFree_get; intros h w;
  change (lineAt (withHistory h w)) with (lineAt w);
  change (vertexAt (withHistory h w)) with (vertexAt w);
  change (things (this (withHistory h w))) with (things (this w));
  change (vertexMap (this (withHistory h w))) with (vertexMap (this w));
  change (lineMap (this (withHistory h w))) with (lineMap (this w));
  repeat match goal with
  | |- context [match indexOf ?a ?b with _ => _ end] => destruct (indexOf a b)
  | |- context [match @lookup ?K ?A ?M ?L ?k ?m with _ => _ end] =>
      destruct (@lookup K A M L k m)
  end;
  try reflexivity;
  lazymatch goal with
  | |- ?c (withHistory h w) = _ =>
      let E := fresh in enough (HistoryFree c) as E by apply E
  end.

Ltac history_step :=
  first [ apply HistoryFree_addToSpatialGrid
        | apply HistoryFree_removeFromSpatialGrid
        | apply HistoryFree_Line_new
        | apply HistoryFree_Vertex_new
        | apply HistoryFree_ret
        | apply HistoryFree_modThis; reflexivity
        | apply HistoryFree_modify; reflexivity ].

Ltac history_free_with known :=
  first [ known
        | history_step
        | apply HistoryFree_bind;
          [history_free_with known | intros ?; history_free_with known] ].

Ltac history_free := history_free_with fail.

Lemma HistoryFree_Line_clearVertices l : HistoryFree (Line_clearVertices l).
Proof. unfold Line_clearVertices. after_get; history_free. Qed.

Lemma HistoryFree_Line_clone l vm v0 v1 : HistoryFree (Line_clone l vm v0 v1).
Proof. unfold Line_clone. after_get; history_free. Qed.

Lemma HistoryFree_thingPush t : HistoryFree (thingPush t).
Proof. unfold thingPush. after_get; history_free. Qed.

Lemma HistoryFree_thingSplice t : HistoryFree (thingSplice t).
Proof. unfold thingSplice. after_get; history_free. Qed.

(** The closures of the map never touch the history. *)
Lemma runFunc_HistoryFree (f : Func) : HistoryFree (runFunc f).
Proof.
  destruct f; simpl;
    try apply HistoryFree_thingPush; try apply HistoryFree_thingSplice;
    try after_get;
    history_free_with
      ltac:(first [ apply HistoryFree_Line_clearVertices
                  | apply HistoryFree_Line_clone ]).
Qed.


Lemma withHistory_content (h : History.t) (w w' : World) :
  content w = content w' -> withHistory h w = withHistory h w'.
Proof.
  intros E. change (withHistory h (content w) = withHistory h (content w')).
  by rewrite E.
Qed.

Lemma pop_snoc {A} (l : list A) (a : A) :
  History.pop (l ++ [a]) = (Some a, l).
Proof.
  unfold History.pop. by rewrite last_snoc, removelast_last.
Qed.


Lemma undo_top (a : History.Action) (st rd : list History.Action)
    (w w1 w2 : World) :
  history (this w) = History.mk (st ++ [a]) rd ->
  content w = content w1 ->
  runFunc (History.undoFunc a) w1 = Ok tt w2 ->
  History_undo w = Ok tt (withHistory (History.mk st (rd ++ [a])) w2).
Proof.
  intros Hh Hc Hun. unfold History_undo, mbind at 1, M_bind at 1, get.
  cbv beta zeta. rewrite Hh. cbn [History.stack History.redoStack].
  rewrite pop_snoc. unfold mbind, M_bind, modThis, modify.
  change (with_this (set_history (History.mk st rd)) w)
    with (withHistory (History.mk st rd) w).
  rewrite (withHistory_content _ w w1 Hc).
  rewrite runFunc_HistoryFree, Hun. reflexivity.
Qed.

(** Writing back the value that was read undoes a change of property. *)
Lemma metadata_set_back (m : Metadata) (p : string) (v last : JsVal) :
  metadata_get m p = Some last ->
  metadata_set (metadata_set m p v) p last = m.
Proof.
  unfold metadata_get, metadata_set. intros H. destruct m.
  repeat match type of H with
  | (if ?b then _ else _) = _ => destruct b eqn:?
  end; try discriminate; injection H as <-;
  match goal with E : String.eqb p _ = true |- _ =>
    apply String.eqb_eq in E; subst p end;
  destruct v; reflexivity.
Qed.

Lemma properties_set_back (q : Properties) (p : string) (v last : JsVal) :
  properties_get q p = Some last ->
  properties_set (properties_set q p v) p last = q.
Proof.
  unfold properties_get, properties_set. intros H. destruct q.
  repeat match type of H with
  | (if ?b then _ else _) = _ => destruct b eqn:?
  end; try discriminate; injection H as <-;
  match goal with E : String.eqb p _ = true |- _ =>
    apply String.eqb_eq in E; subst p end;
  destruct v; reflexivity.
Qed.

(** The closures of [setMapProperty]: the undo closure, which writes the
    value read before the change, gives the map back as it was. *)
Lemma SetMetadata_reverts (w : World) (p : string) (v last : JsVal) :
  metadata_get (metadata (this w)) p = Some last ->
  exists w1,
    runFunc (SetMetadata p v) w = Ok tt w1
    /\ runFunc (SetMetadata p last) w1 = Ok tt w.
Proof.
  intros H. eexists. split; [reflexivity|].
  simpl. unfold modThis, modify, with_this. simpl.
  rewrite (metadata_set_back _ _ _ _ H).
  destruct w as [? ? ? ? ? []]. reflexivity.
Qed.

(** The closures of [setSectorProperty], for a sector that exists. *)
Lemma SetSector_reverts (w : World) (s : SectorId) (o : Sector)
    (p : string) (v last : JsVal) :
  h_sectors w !! s = Some o ->
  properties_get (properties o) p = Some last ->
  exists w1,
    runFunc (SetSector s p v) w = Ok tt w1
    /\ runFunc (SetSector s p last) w1 = Ok tt w.
Proof.
  intros Hs H. eexists. split; [reflexivity|].
  simpl. unfold modify. f_equal.
  unfold putSector, sectorAt. simpl.
  rewrite lookup_insert_eq, Hs. simpl.
  rewrite (properties_set_back _ _ _ _ H), insert_insert_eq.
  destruct o, w. simpl in *. by rewrite (insert_id _ _ _ Hs).
Qed.



(** ** Things *)

Lemma indexOf_None `{EqDecision A} (x : A) (l : list A) :
  x ∉ l -> indexOf x l = None.
Proof.
  induction l as [|y l IH]; intros Hx; simpl; [reflexivity|].
  destruct (decide (y = x)) as [->|Hne].
  - exfalso. apply Hx. left.
  - rewrite IH; [reflexivity|]. intros Hin. apply Hx. right. exact Hin.
Qed.

Lemma indexOf_app_fresh `{EqDecision A} (x : A) (l r : list A) :
  x ∉ l -> indexOf x (l ++ x :: r) = Some (length l).
Proof.
  induction l as [|y l IH]; intros Hx; simpl.
  - destruct (decide (x = x)); [reflexivity | contradiction].
  - destruct (decide (y = x)) as [->|Hne].
    + exfalso. apply Hx. left.
    + rewrite IH; [reflexivity|]. intros Hin. apply Hx. right. exact Hin.
Qed.

Lemma delete_middle {A} (l r : list A) (x : A) :
  delete (length l) (l ++ x :: r) = l ++ r.
Proof. induction l as [|y l IH]; simpl; [reflexivity | by rewrite IH]. Qed.

Lemma thingPush_fresh (w : World) (t : ThingId) :
  t ∉ things (this w) ->
  exists w', thingPush t w = Ok tt w'
             /\ things (this w') = things (this w) ++ [t]
             /\ sameButThings w w'.
Proof.
  intros Hf. unfold thingPush, mbind, M_bind, get. simpl.
  rewrite (indexOf_None _ _ Hf).
  unfold modThis, addToSpatialGrid, modify. simpl.
  eexists. split; [reflexivity|].
  destruct (thingAt _ t); simpl. split; [reflexivity|]. by repeat split.
Qed.

Lemma thingSplice_last (w : World) (t : ThingId) (l : list ThingId) :
  things (this w) = l ++ [t] -> t ∉ l ->
  exists w', thingSplice t w = Ok tt w'
             /\ things (this w') = l
             /\ sameButThings w w'.
Proof.
  intros E Hf. unfold thingSplice, mbind, M_bind, get. simpl.
  rewrite E, (indexOf_app_fresh t l [] Hf).
  unfold modThis, removeFromSpatialGrid, modify. simpl.
  eexists. split; [reflexivity|].
  destruct (thingAt _ t); simpl.
  rewrite E, delete_middle, app_nil_r. split; [reflexivity|]. by repeat split.
Qed.

Lemma addThing_fresh (w : World) (x y z ty : Z) (clone : option ThingId) :
  h_next w ∉ things (this w) ->
  exists w', addThing x y z ty clone w = Ok (h_next w) w'
             /\ things (this w') = things (this w) ++ [h_next w]
             /\ history (this w')
                = History.record (history (this w)) (thingAction (h_next w))
             /\ h_next w' = S (h_next w).
Proof.
  intros Hf.
  unfold addThing, addThing_, History_do, Thing_clone, Thing_new, alloc,
    modThis, modify, mbind, M_bind, mret, M_ret, get.
  destruct clone; simpl;
    match goal with
    | |- context [thingPush ?t ?w0] =>
        destruct (thingPush_fresh w0 t) as (w' & Hp & Ht & Hh & Hn & _);
          [exact Hf|]
    end;
    rewrite Hp; exists w'; (split; [reflexivity|]);
    rewrite Ht, Hh, Hn; by repeat split.
Qed.

Lemma last_record (h : History.t) (a : History.Action) :
  last (History.stack (History.record h a)) = Some a.
Proof.
  unfold History.record.
  destruct (History.replace h _ _) eqn:Hr; simpl.
  - apply replace_spec in Hr as (top & Htop & _).
    assert (Hne : History.stack h <> []).
    { intros E. rewrite E in Htop. discriminate. }
    rewrite insert_last_length by exact Hne. apply last_snoc.
  - apply last_snoc.
Qed.

Lemma record_thing_on_thing (h : History.t) (t1 t2 : ThingId) :
  History.record (History.record h (thingAction t1)) (thingAction t2)
  = History.mk (removelast (History.stack (History.record h (thingAction t1)))
                ++ [thingAction t2])
               (History.redoStack (History.record h (thingAction t1))).
Proof.
  set (h1 := History.record h (thingAction t1)).
  assert (Hl : last (History.stack h1) = Some (thingAction t1))
    by apply last_record.
  unfold History.record at 1.
  assert (Hr : History.replace h1 (History.target (thingAction t2))
                 (History.parameter (thingAction t2)) = true).
  { apply replace_spec. exists (thingAction t1). by repeat split. }
  rewrite Hr. f_equal. apply insert_last_length.
  intros E. rewrite E in Hl. discriminate.
Qed.

Lemma removelast_elem_of {A} (l : list A) (x : A) :
  x ∈ removelast l -> x ∈ l.
Proof.
  destruct (decide (l = [])) as [->|Hne]; [done|].
  destruct (exists_last Hne) as (l' & y & ->).
  rewrite removelast_last. intros Hin. apply elem_of_app. by left.
Qed.

Lemma undoCount_record (h : History.t) (a : History.Action) :
  History.undoCount (History.record h a)
  = if History.replace h (History.target a) (History.parameter a)
    then History.undoCount h else S (History.undoCount h).
Proof.
  unfold History.record, History.undoCount.
  destruct (History.replace h _ _); simpl.
  - apply length_insert.
  - rewrite length_app. simpl. lia.
Qed.

(** C10. Two [addThing] calls in a row: both actions carry target [null],
    parameter [null] and coalescing [true], so the second takes the place
    of the first on the undo stack; the undo count does not grow with the
    second call; one [undo()] takes out the second thing only, and the undo
    stack it leaves holds no entry for the first thing, which stays in the
    map. *)
Theorem addThing_twice_coalesces (w : World)
    (x1 y1 z1 ty1 : Z) (c1 : option ThingId)
    (x2 y2 z2 ty2 : Z) (c2 : option ThingId)
    (Hfresh : forall t, t ∈ things (this w) -> (t < h_next w)%nat)
    (Hunused : thingAction (h_next w) ∉ History.stack (history (this w))) :
  let n := h_next w in
  exists w1 w2 w3,
    addThing x1 y1 z1 ty1 c1 w = Ok n w1
    /\ addThing x2 y2 z2 ty2 c2 w1 = Ok (S n) w2
    /\ History_undo w2 = Ok tt w3
    /\ last (History.stack (history (this w1))) = Some (thingAction n)
    /\ last (History.stack (history (this w2))) = Some (thingAction (S n))
    /\ History.undoCount (history (this w2))
       = History.undoCount (history (this w1))
    /\ History.undoCount (history (this w1))
       = (if History.replace (history (this w)) TNull None
          then History.undoCount (history (this w))
          else S (History.undoCount (history (this w))))
    /\ things (this w2) = things (this w) ++ [n; S n]
    /\ things (this w3) = things (this w) ++ [n]
    /\ History.stack (history (this w3))
       = removelast (History.stack (history (this w1)))
    /\ thingAction n ∉ History.stack (history (this w3)).
Proof.
  intros n.
  assert (Hn : n ∉ things (this w)).
  { intros Hin. apply Hfresh in Hin. unfold n in Hin. lia. }
  destruct (addThing_fresh w x1 y1 z1 ty1 c1 Hn) as (w1 & H1 & Ht1 & Hh1 & Hn1).
  assert (Hn' : h_next w1 ∉ things (this w1)).
  { rewrite Ht1, Hn1. intros Hin. apply elem_of_app in Hin as [Hin|Hin].
    - apply Hfresh in Hin. lia.
    - apply list_elem_of_singleton in Hin. unfold n in Hin. lia. }
  destruct (addThing_fresh w1 x2 y2 z2 ty2 c2 Hn') as (w2 & H2 & Ht2 & Hh2 & Hn2).
  rewrite Hn1 in H2, Ht2, Hh2. fold n in H2, Ht2, Hh2.
  assert (Hs2 : history (this w2)
                = History.mk (removelast (History.stack (history (this w1)))
                              ++ [thingAction (S n)])
                             (History.redoStack (history (this w1)))).
  { rewrite Hh2, Hh1. apply record_thing_on_thing. }
  (* the undo *)
  set (w2' := with_this
                (set_history
                   (History.mk (removelast (History.stack (history (this w1))))
                               (History.redoStack (history (this w1))))) w2).
  assert (Hsplice : exists w3', thingSplice (S n) w2' = Ok tt w3'
            /\ things (this w3') = things (this w) ++ [n]
            /\ sameButThings w2' w3').
  { apply thingSplice_last.
    - unfold w2'. simpl. rewrite Ht2, Ht1. reflexivity.
    - intros Hin. apply elem_of_app in Hin as [Hin|Hin].
      + apply Hfresh in Hin. fold n in Hin. lia.
      + apply list_elem_of_singleton in Hin. lia. }
  destruct Hsplice as (w3' & Hsp & Ht3 & Hh3 & _).
  eexists w1, w2, _. split; [exact H1|]. split; [exact H2|].
  split.
  { unfold History_undo, History.pop, mbind, M_bind, get. simpl.
    rewrite Hs2. simpl. rewrite last_snoc, removelast_last.
    unfold modThis, modify. simpl. fold w2'. simpl in Hsp. rewrite Hsp.
    reflexivity. }
  simpl. rewrite Hh3. unfold w2'. simpl.
  split; [rewrite Hh1; apply last_record|].
  split; [rewrite Hs2; simpl; apply last_snoc|].
  split.
  { rewrite Hs2. unfold History.undoCount. simpl.
    assert (Hl : last (History.stack (history (this w1))) = Some (thingAction n))
      by (rewrite Hh1; apply last_record).
    destruct (decide (History.stack (history (this w1)) = [])) as [E|Hne].
    - rewrite E in Hl. discriminate.
    - destruct (exists_last Hne) as (l' & y & E). rewrite E.
      rewrite removelast_last, !length_app. reflexivity. }
  split; [rewrite Hh1; apply (undoCount_record _ (thingAction n))|].
  split; [rewrite Ht2, Ht1, <- app_assoc; reflexivity|].
  split; [exact Ht3|].
  split; [reflexivity|].
  rewrite Hh1. unfold History.record.
  destruct (History.replace _ _ _) eqn:Hr; simpl.
  - apply replace_spec in Hr as (top & Htop & _).
    assert (Hne : History.stack (history (this w)) <> []).
    { intros E. rewrite E in Htop. discriminate. }
    rewrite insert_last_length by exact Hne. rewrite removelast_last.
    intros Hin. apply Hunused. by apply removelast_elem_of.
  - rewrite removelast_last. exact Hunused.
Qed.

(** The theorem at the empty map. *)
Lemma addThing_twice_coalesces_witness :
  exists w1 w2 w3,
    addThing 0 0 0 1 None newWorld = Ok 0%nat w1
    /\ addThing 10 10 0 1 None w1 = Ok 1%nat w2
    /\ History_undo w2 = Ok tt w3
    /\ History.undoCount (history (this w2)) = 1%nat
    /\ things (this w3) = [0%nat]
    /\ History.stack (history (this w3)) = [].
Proof.
  destruct (addThing_twice_coalesces newWorld 0 0 0 1 None 10 10 0 1 None)
    as (w1 & w2 & w3 & H1 & H2 & H3 & Hl1 & _ & Hc2 & Hc1 & _ & Ht3 & Hs3 & _).
  - intros t Ht. simpl in Ht. inversion Ht.
  - simpl. intros Hin. inversion Hin.
  - exists w1, w2, w3. simpl in *.
    split; [exact H1|]. split; [exact H2|]. split; [exact H3|].
    split; [rewrite Hc2; exact Hc1|]. split; [exact Ht3|].
    rewrite Hs3. unfold History.undoCount in Hc1.
    destruct (History.stack (history (this w1))) as [|a [|b l]];
      simpl in *; try reflexivity; discriminate.
Defined.

(** ** Property setters *)

Lemma sectorAt_put w s x : sectorAt (putSector s x w) s = x.
Proof. unfold sectorAt, putSector. simpl. by rewrite lookup_insert_eq. Qed.

Lemma setLight w s v :
  setSectorProperty s "lightLevel" (VNum v) w =
  if decide (lightLevel (properties (sectorAt w s)) = v) then Ok tt w
  else
    let a := History.mkAction (SetSector s "lightLevel" (VNum v))
               (SetSector s "lightLevel" (VNum (lightLevel (properties (sectorAt w s)))))
               (TObj (GSector s)) (Some "lightLevel") true in
    Ok tt (putSector s (withLight v (sectorAt w s))
             (with_this (set_history (History.record (history (this w)) a)) w)).
Proof.
  unfold setSectorProperty, setProperty, mbind, M_bind, get. simpl.
  destruct (decide _) as [E|N].
  - rewrite bool_decide_eq_true_2; [reflexivity | by rewrite E].
  - rewrite bool_decide_eq_false_2; [|congruence].
    unfold History_do, modThis, modify, mbind, M_bind. simpl.
    reflexivity.
Qed.

Lemma light_withLight v o : lightLevel (properties (withLight v o)) = v.
Proof. reflexivity. Qed.

Lemma history_put_with w s x h :
  history (this (putSector s x (with_this (set_history h) w))) = h.
Proof. reflexivity. Qed.

Lemma record_light_on_light s v l v' l' red :
  History.record (History.mk [lightAction s v l] red) (lightAction s v' l')
  = History.mk [lightAction s v' l'] red.
Proof.
  unfold History.record, History.replace. simpl.
  rewrite !bool_decide_eq_true_2 by reflexivity. reflexivity.
Qed.

(** C4. Three [setSectorProperty(s, "lightLevel", _)] calls with 160, 164
    and 168 on a map with an empty history leave one entry on the undo
    stack. The entry is the action of the last call, whose undo closure
    captured the value 164 that the second call had written: one [undo()]
    sets lightLevel to 164, whatever the value before the first call. *)
Theorem setSectorProperty_coalesced_undo (w : World) (s : SectorId)
    (Hempty : History.stack (history (this w)) = []) :
  exists w3 w4,
    (setSectorProperty s "lightLevel" (VNum 160);;
     setSectorProperty s "lightLevel" (VNum 164);;
     setSectorProperty s "lightLevel" (VNum 168)) w = Ok tt w3
    /\ lightLevel (properties (sectorAt w3 s)) = 168
    /\ History.undoCount (history (this w3)) = 1%nat
    /\ History_undo w3 = Ok tt w4
    /\ lightLevel (properties (sectorAt w4 s)) = 164.
Proof.
  assert (Hstep : exists w2 red,
    (setSectorProperty s "lightLevel" (VNum 160);;
     setSectorProperty s "lightLevel" (VNum 164)) w = Ok tt w2
    /\ lightLevel (properties (sectorAt w2 s)) = 164
    /\ history (this w2) = History.mk [lightAction s 164 160] red).
  { unfold mbind, M_bind. rewrite setLight.
    destruct (decide (lightLevel (properties (sectorAt w s)) = 160)) as [E|N].
    - rewrite setLight, E. simpl. eexists _, _. split; [reflexivity|].
      rewrite sectorAt_put. split; [reflexivity|].
      simpl. unfold History.record, History.replace. rewrite Hempty. reflexivity.
    - simpl. rewrite setLight, sectorAt_put. simpl.
      eexists _, _. split; [reflexivity|].
      rewrite sectorAt_put. split; [reflexivity|].
      simpl. unfold History.record at 2. unfold History.replace.
      rewrite Hempty. simpl. apply record_light_on_light. }
  destruct Hstep as (w2 & red & H2 & Hl2 & Hh2).
  set (w3 := putSector s (withLight 168 (sectorAt w2 s))
               (with_this (set_history (History.mk [lightAction s 168 164] red)) w2)).
  assert (H3 : (setSectorProperty s "lightLevel" (VNum 160);;
                setSectorProperty s "lightLevel" (VNum 164);;
                setSectorProperty s "lightLevel" (VNum 168)) w = Ok tt w3).
  { unfold mbind, M_bind in *.
    destruct (setSectorProperty s "lightLevel" (VNum 160) w) as [[] w1|];
      [|discriminate].
    rewrite H2, setLight, Hl2. simpl. unfold w3.
    rewrite Hh2. fold (lightAction s 168 164).
    rewrite record_light_on_light. reflexivity. }
  exists w3. eexists. split; [exact H3|].
  split; [unfold w3; by rewrite sectorAt_put|].
  split; [reflexivity|].
  split.
  - unfold History_undo, History.pop, mbind, M_bind, get, modThis, modify.
    simpl. reflexivity.
  - unfold sectorAt. simpl. rewrite lookup_insert_eq. reflexivity.
Qed.

Lemma setSectorProperty_coalesced_undo_witness :
  sectors (this oneSectorWorld) = [0%nat]
  /\ lightLevel (properties (sectorAt oneSectorWorld 0%nat)) = 160
  /\ exists w3 w4,
    (setSectorProperty 0%nat "lightLevel" (VNum 160);;
     setSectorProperty 0%nat "lightLevel" (VNum 164);;
     setSectorProperty 0%nat "lightLevel" (VNum 168)) oneSectorWorld = Ok tt w3
    /\ lightLevel (properties (sectorAt w3 0%nat)) = 168
    /\ History.undoCount (history (this w3)) = 1%nat
    /\ History_undo w3 = Ok tt w4
    /\ lightLevel (properties (sectorAt w4 0%nat)) = 164.
Proof.
  split; [reflexivity|]. split; [reflexivity|].
  apply (setSectorProperty_coalesced_undo oneSectorWorld 0%nat).
  reflexivity.
Defined.

(** C4 as stated fails: on a map whose sector has lightLevel 128, the three
    calls leave one undo step, and [undo()] sets lightLevel to 164, not to
    the 128 it had before the first call. *)
Lemma coalesced_undo_misses_first_value :
  exists w3 w4,
    (setSectorProperty 0%nat "lightLevel" (VNum 160);;
     setSectorProperty 0%nat "lightLevel" (VNum 164);;
     setSectorProperty 0%nat "lightLevel" (VNum 168)) dimSectorWorld = Ok tt w3
    /\ History.undoCount (history (this w3)) = 1%nat
    /\ History_undo w3 = Ok tt w4
    /\ lightLevel (properties (sectorAt dimSectorWorld 0%nat)) = 128
    /\ lightLevel (properties (sectorAt w4 0%nat)) = 164.
Proof.
  eexists _, _.
  split; [vm_compute; reflexivity|].
  split; [vm_compute; reflexivity|].
  split; [vm_compute; reflexivity|].
  split; vm_compute; reflexivity.
Qed.

(** ** Scenarios *)


(** C3. The box scenario. The first [addLine] call registers its two
    endpoint vertices and then throws: the iteration over the grid cells of
    the segment hands the endpoint vertices to the line callback, which
    reads [line.v0.x]. The same happens in each of the four calls, so a
    caller that catches the exceptions ends with four vertices, no line and
    no sector. *)
Theorem box_scenario :
  (exists msg w, addLine 0 0 100 0 false newWorld = Throw msg w
                 /\ length (vertices (this w)) = 2%nat
                 /\ lines (this w) = [] /\ sectors (this w) = [])
  /\ (exists w,
        (a ← attempt (addLine 0 0 100 0 false);
         b ← attempt (addLine 100 0 100 100 false);
         c ← attempt (addLine 100 100 0 100 false);
         d ← attempt (addLine 0 100 0 0 false);
         mret (threw a && threw b && threw c && threw d)) newWorld
        = Ok true w
        /\ length (vertices (this w)) = 4%nat
        /\ lines (this w) = [] /\ sectors (this w) = []).
Proof.
  split.
  - eexists _, _. split; [vm_compute; reflexivity|]. by repeat split.
  - eexists. split; [vm_compute; reflexivity|]. by repeat split.
Qed.

(** ** The spatial grid invariant *)

(** C9. The grid invariant breaks without any exception. The [redo()]
    that follows [staleIndexPrefix] runs the closure of [#removeVertex]
    again: it
    takes the vertex (10, 0) out of the grid and splices the index it
    captured when the vertex was first removed, which now holds the vertex
    (20, 0). The vertex (10, 0) stays registered in the array of vertices
    while no cell contains it. *)
Theorem grid_invariant_broken_by_redo :
  exists w1 w2,
    staleIndexPrefix newWorld = Ok tt w1
    /\ gridInvariant w1 = true
    /\ History_redo w1 = Ok tt w2
    /\ vertices (this w2) = [1%nat]
    /\ (v_x (vertexAt w2 1%nat), v_y (vertexAt w2 1%nat)) = (10, 0)
    /\ cellsHolding (spatialGrid (this w2)) (GVertex 1%nat) = []
    /\ gridInvariant w2 = false.
Proof.
  eexists _, _. split; [vm_compute; reflexivity|].
  split; [vm_compute; reflexivity|].
  split; [vm_compute; reflexivity|].
  repeat split; vm_compute; reflexivity.
Qed.

(** ** Serialization round trip *)

(** C7. [deserialize(serialize(map))] throws for a map whose lines close a
    loop. The map [triangleMap] is built without any exception and holds
    three vertices, three lines and no sector. Loading its serialized form
    into a new map registers the vertices and the lines and then throws in
    [rebuildSectors]: [#addSector] calls [Sector.addToMap], whose iteration
    over the grid cells of the new sector hands a vertex to a callback that
    reads [other.#parent]. *)
Theorem roundtrip_throws_on_triangle :
  (deserialize pathData;; moveVertex (-50) 150 0 0 true) newWorld
    = Ok true triangleMap
  /\ length (vertices (this triangleMap)) = 3%nat
  /\ length (lines (this triangleMap)) = 3%nat
  /\ sectors (this triangleMap) = []
  /\ exists msg w,
       deserialize (serialize triangleMap) newWorld = Throw msg w
       /\ length (lines (this w)) = 3%nat
       /\ sectors (this w) = [].
Proof.
  split; [vm_compute; reflexivity|].
  split; [vm_compute; reflexivity|].
  split; [vm_compute; reflexivity|].
  split; [vm_compute; reflexivity|].
  eexists _, _. split; [vm_compute; reflexivity|].
  split; vm_compute; reflexivity.
Qed.

(** ** [#wouldSegmentCrossAny] *)

Section WouldCross.

Variables (x0 y0 x1 y1 : Z) (boundsMin boundsMax : Z * Z).
Variable ignore : option (list LineId).


Local Abbreviation inside w := (fun g => isInside w g boundsMin boundsMax = true).






End WouldCross.



(** ** What a rebuild leaves untouched *)

Section Frame.

(** A relation between the world before and after a run that the sector
    bookkeeping respects: writes to sector objects, to the [sector] field of
    a line side, to the array of sectors and to the grid, and
    allocations. *)
Variable P : World -> World -> Prop.
Hypothesis P_refl : forall w, P w w.
Hypothesis P_trans : forall w1 w2 w3, P w1 w2 -> P w2 w3 -> P w1 w3.
Hypothesis P_putSector : forall w s x, P w (putSector s x w).
Hypothesis P_frontSector : forall w l x,
  P w (putLine l (set_front (set_sector x (front (lineAt w l))) (lineAt w l)) w).
Hypothesis P_backSector : forall w l x,
  P w (putLine l (set_back (set_sector x (back (lineAt w l))) (lineAt w l)) w).
Hypothesis P_grid : forall w x, P w (with_this (set_spatialGrid x) w).
Hypothesis P_sectors : forall w x, P w (with_this (set_sectors x) w).
Hypothesis P_alloc : forall w,
  P w (mkWorld (h_vertices w) (h_lines w) (h_sectors w) (h_things w)
               (S (h_next w)) (this w)).




























End Frame.

(** ** The scratch references of a rebuild *)

Lemma bind_Ok {A B} (c : M A) (k : A -> M B) (w w' : World) (b : B) :
  (c ≫= k) w = Ok b w' ->
  exists a w1, c w = Ok a w1 /\ k a w1 = Ok b w'.
Proof.
  unfold mbind, M_bind. destruct (c w) as [a w1|]; [|discriminate].
  intros H. eauto.
Qed.




















(** ** [addLine] on a line that exists *)




Lemma addVertex_existing (w : World) (x y : Z) (skip : bool) (v : VertexId) :
  vertexMap (this w) !! createVertexKey x y = Some v ->
  addVertex x y skip w = Ok v w.
Proof.
  intros E. unfold addVertex, mbind, M_bind, get. rewrite E. reflexivity.
Qed.





(** * Further properties of the code *)

(** ** Orientation, intersection and area *)

Lemma orientation_cases (px py qx qy rx ry : Z) :
  let c := (qx - px) * (ry - py) - (qy - py) * (rx - px) in
  Utility.orientation px py qx qy rx ry = Z.sgn c.
Proof.
  intros c. unfold Utility.orientation. fold c.
  destruct (Z.eqb_spec c 0) as [->|Hn]; [reflexivity|].
  destruct (Z.gtb_spec c 0); lia.
Qed.

Lemma orientation_facts (px py qx qy rx ry : Z) :
  Utility.orientation px py rx ry qx qy = - Utility.orientation px py qx qy rx ry
  /\ Utility.orientation qx qy px py rx ry = - Utility.orientation px py qx qy rx ry
  /\ Utility.orientation qx qy rx ry px py = Utility.orientation px py qx qy rx ry
  /\ Utility.orientation px py px py rx ry = 0
  /\ Utility.orientation px py qx qy px py = 0
  /\ Utility.orientation px py qx qy qx qy = 0.
Proof.
  rewrite !orientation_cases. cbv zeta.
  repeat split.
  - rewrite <- Z.sgn_opp. f_equal. ring.
  - rewrite <- Z.sgn_opp. f_equal. ring.
  - f_equal. ring.
  - replace (_ - _) with 0 by ring. reflexivity.
  - replace (_ - _) with 0 by ring. reflexivity.
  - replace (_ - _) with 0 by ring. reflexivity.
Qed.



(** X3. Two segments that share an endpoint never intersect properly. *)
Theorem segmentsProperlyIntersect_shared_endpoint
    (ax ay bx by_ cx cy dx dy : Z) :
  (ax = cx /\ ay = cy) \/ (ax = dx /\ ay = dy)
  \/ (bx = cx /\ by_ = cy) \/ (bx = dx /\ by_ = dy) ->
  Utility.segmentsProperlyIntersect ax ay bx by_ cx cy dx dy = false.
Proof.
  unfold Utility.segmentsProperlyIntersect. cbv zeta.
  intros [[<- <-]|[[<- <-]|[[<- <-]|[<- <-]]]];
    pose proof (orientation_facts ax ay bx by_ ax ay) as (_ & _ & _ & _ & H1 & _);
    pose proof (orientation_facts ax ay bx by_ bx by_) as (_ & _ & _ & _ & _ & H2);
    rewrite ?H1, ?H2, ?Z.mul_0_l, ?Z.mul_0_r; reflexivity.
Qed.

Lemma segmentsProperlyIntersect_shared_endpoint_witness :
  Utility.segmentsProperlyIntersect 0 0 4 4 4 4 8 0 = false.
Proof.
  apply segmentsProperlyIntersect_shared_endpoint.
  right. right. left. split; reflexivity.
Defined.

(** X4. The two tests of [#wouldSegmentCrossAny] exclude each other: no
    pair of segments both intersects properly and overlaps collinearly. *)
Theorem crossing_tests_exclusive (ax ay bx by_ cx cy dx dy : Z) :
  Utility.segmentsProperlyIntersect ax ay bx by_ cx cy dx dy
  && Utility.collinearOverlapMoreThanEndpoint ax ay bx by_ cx cy dx dy = false.
Proof.
  unfold Utility.segmentsProperlyIntersect,
    Utility.collinearOverlapMoreThanEndpoint. cbv zeta.
  destruct (Z.eqb_spec (Utility.orientation ax ay bx by_ cx cy) 0) as [->|Hn].
  - rewrite Z.mul_0_l. reflexivity.
  - simpl. apply andb_false_r.
Qed.

(** X5. Two segments AB and BD that meet at B, with B inside the bounding
    box of A and D, do not overlap by more than an endpoint, whichever of
    the two is taken first. *)
Theorem collinearOverlap_touching (ax ay bx by_ dx dy : Z) :
  Utility.onSegment ax ay bx by_ dx dy = true ->
  Utility.collinearOverlapMoreThanEndpoint ax ay bx by_ bx by_ dx dy = false
  /\ Utility.collinearOverlapMoreThanEndpoint bx by_ dx dy ax ay bx by_ = false.
Proof.
  unfold Utility.onSegment, Utility.collinearOverlapMoreThanEndpoint.
  cbv zeta. rewrite !andb_true_iff, !Z.leb_le. intros [[[? ?] ?] ?].
  split.
  - destruct (negb _ || negb _); [reflexivity|].
    destruct (Z.abs (ax - bx) >=? Z.abs (ay - by_));
      repeat match goal with
      | |- context [if ?a <=? ?b then _ else _] => destruct (Z.leb_spec a b)
      end; rewrite Z.gtb_ltb; apply Z.ltb_ge; lia.
  - destruct (negb _ || negb _); [reflexivity|].
    destruct (Z.abs (bx - dx) >=? Z.abs (by_ - dy));
      repeat match goal with
      | |- context [if ?a <=? ?b then _ else _] => destruct (Z.leb_spec a b)
      end; rewrite Z.gtb_ltb; apply Z.ltb_ge; lia.
Qed.

Lemma collinearOverlap_touching_witness :
  Utility.collinearOverlapMoreThanEndpoint 0 0 5 5 5 5 9 9 = false
  /\ Utility.collinearOverlapMoreThanEndpoint 5 5 9 9 0 0 5 5 = false.
Proof. apply collinearOverlap_touching. reflexivity. Defined.


(** ** The ray cast of [polygonContainsPoint] *)

(** The ray cast against a vertical edge at [x]: the slope term vanishes. *)
Lemma ray_vertical_edge (px x dy k : Z) :
  Utility.Qltb (inject_Z px)
               (inject_Z ((x - x) * k) / inject_Z dy + inject_Z x)%Q
  = (px <? x).
Proof.
  rewrite Z.sub_diag, Z.mul_0_l.
  assert (E : (inject_Z 0 / inject_Z dy + inject_Z x == inject_Z x)%Q).
  { unfold Qdiv. rewrite Qmult_0_l, Qplus_0_l. reflexivity. }
  unfold Utility.Qltb.
  destruct (Z.ltb_spec px x) as [Hlt|Hge].
  - apply negb_true_iff. apply not_true_is_false. intros H.
    apply Qle_bool_iff in H. rewrite E, <- Zle_Qle in H. lia.
  - apply negb_false_iff. apply Qle_bool_iff. rewrite E, <- Zle_Qle. lia.
Qed.

(** X7. For an axis-aligned rectangle given counter-clockwise from
    (x0, y0), [Utility.polygonContainsPoint] holds exactly on the half-open
    box x0 <= px < x1, y0 <= py < y1: the points of the left and of the
    bottom edge count as inside, those of the right and of the top edge do
    not. *)
Theorem polygonContainsPoint_rectangle (x0 y0 x1 y1 px py : Z) :
  x0 < x1 -> y0 < y1 ->
  Utility.polygonContainsPoint [x0; y0; x1; y0; x1; y1; x0; y1] px py
  = (x0 <=? px) && (px <? x1) && (y0 <=? py) && (py <? y1).
Proof.
  intros Hx Hy.
  unfold Utility.polygonContainsPoint, Utility.at_. simpl.
  rewrite !ray_vertical_edge.
  rewrite !Z.gtb_ltb.
  destruct (Z.ltb_spec py y0), (Z.ltb_spec py y1),
           (Z.ltb_spec px x0), (Z.ltb_spec px x1),
           (Z.leb_spec x0 px), (Z.leb_spec y0 py);
    simpl; try reflexivity; lia.
Qed.

Lemma polygonContainsPoint_rectangle_witness :
  Utility.polygonContainsPoint [0; 0; 10; 0; 10; 10; 0; 10] 0 5
  = (0 <=? 0) && (0 <? 10) && (0 <=? 5) && (5 <? 10).
Proof. apply polygonContainsPoint_rectangle; lia. Defined.

(** ** Line keys, edits of missing geometry and things *)

Lemma createLineKey_sym (x0 y0 x1 y1 : Z) :
  createLineKey x1 y1 x0 y0 = createLineKey x0 y0 x1 y1.
Proof.
  unfold createLineKey.
  destruct (Z.ltb_spec x1 x0), (Z.ltb_spec x0 x1),
           (Z.eqb_spec x1 x0), (Z.eqb_spec x0 x1),
           (Z.leb_spec y1 y0), (Z.leb_spec y0 y1);
    simpl; try reflexivity; try lia.
  f_equal; f_equal; lia.
Qed.

(** X8. A line key does not depend on the direction of the segment, and two
    segments have the same key exactly when they have the same endpoints,
    in either order. *)
Theorem createLineKey_unordered (x0 y0 x1 y1 a0 b0 a1 b1 : Z) :
  createLineKey x1 y1 x0 y0 = createLineKey x0 y0 x1 y1
  /\ (createLineKey x0 y0 x1 y1 = createLineKey a0 b0 a1 b1
      <-> (x0 = a0 /\ y0 = b0 /\ x1 = a1 /\ y1 = b1)
          \/ (x0 = a1 /\ y0 = b1 /\ x1 = a0 /\ y1 = b0)).
Proof.
  split; [apply createLineKey_sym|]. unfold createLineKey.
  destruct (Z.ltb_spec x0 x1), (Z.eqb_spec x0 x1), (Z.leb_spec y0 y1),
           (Z.ltb_spec a0 a1), (Z.eqb_spec a0 a1), (Z.leb_spec b0 b1);
    simpl; (split; [intros [= ? ? ? ?]; lia
                   | intros [(?&?&?&?)|(?&?&?&?)]; subst;
                     try reflexivity; try lia;
                     f_equal; f_equal; lia]).
Qed.

(** X9. An edit addressed at something that is not in the map changes
    nothing: [removeVertex] and [removeLine] return [false] when no vertex
    or line has the key, [moveVertex] returns [false] when there is no
    vertex to move and [true] when the target is the source, and [getLine]
    finds a line under either order of its endpoints. *)
Theorem edits_of_missing_geometry (w : World) (x0 y0 x1 y1 : Z)
    (skipRebuild : bool) :
  (vertexMap (this w) !! createVertexKey x0 y0 = None ->
   removeVertex x0 y0 skipRebuild w = Ok false w
   /\ ((x0, y0) <> (x1, y1) ->
       moveVertex x0 y0 x1 y1 skipRebuild w = Ok false w))
  /\ moveVertex x0 y0 x0 y0 skipRebuild w = Ok true w
  /\ (lineMap (this w) !! createLineKey x0 y0 x1 y1 = None ->
      removeLine x0 y0 x1 y1 skipRebuild w = Ok false w
      /\ removeLine x1 y1 x0 y0 skipRebuild w = Ok false w)
  /\ getLine w x1 y1 x0 y0 = getLine w x0 y0 x1 y1.
Proof.
  pose proof (createLineKey_sym x0 y0 x1 y1) as Hk.
  split; [|split; [|split]].
  - intros Hv. split.
    + unfold removeVertex, mbind, M_bind, get. cbv beta iota. by rewrite Hv.
    + intros Hne. unfold moveVertex.
      destruct ((x0 =? x1) && (y0 =? y1)) eqn:E.
      * apply andb_true_iff in E as [?%Z.eqb_eq ?%Z.eqb_eq]. congruence.
      * unfold mbind, M_bind, get. cbv beta iota. by rewrite Hv.
  - unfold moveVertex. by rewrite !Z.eqb_refl.
  - intros Hl. split.
    + unfold removeLine, mbind, M_bind, get. cbv beta iota. by rewrite Hl.
    + unfold removeLine, mbind, M_bind, get. cbv beta iota.
      by rewrite Hk, Hl.
  - unfold getLine. by rewrite Hk.
Qed.

Lemma edits_of_missing_geometry_witness :
  removeVertex 5 5 false oneLineMap = Ok false oneLineMap
  /\ moveVertex 5 5 6 6 false oneLineMap = Ok false oneLineMap
  /\ removeLine 0 0 5 5 false oneLineMap = Ok false oneLineMap.
Proof.
  pose proof (edits_of_missing_geometry oneLineMap 5 5 6 6 false)
    as (H1 & _).
  pose proof (edits_of_missing_geometry oneLineMap 0 0 5 5 false)
    as (_ & _ & H2 & _).
  destruct (H1 ltac:(vm_compute; reflexivity)) as [Ha Hb].
  split; [exact Ha|]. split; [apply Hb; discriminate|].
  exact (proj1 (H2 ltac:(vm_compute; reflexivity))).
Defined.

Lemma indexOf_elem `{EqDecision A} (x : A) (l : list A) :
  x ∈ l -> exists i, indexOf x l = Some i.
Proof.
  induction l as [|y l IH]; intros H; [inversion H|]. simpl.
  destruct (decide (y = x)); [by eexists|].
  apply elem_of_cons in H as [?|H]; [congruence|].
  destruct (IH H) as [i ->]. by eexists.
Qed.

(** X10. [removeThing(thing)] of a thing that is not in the map throws and
    changes nothing; of a thing that is in the map it returns [true],
    takes the thing out of the list of things, and leaves every other
    thing in place and in order. *)
Theorem removeThing_spec (w : World) (thing : ThingId) :
  (thing ∉ things (this w) ->
   removeThing thing w = Throw "Attempted to remove non-existing thing" w)
  /\ (thing ∈ things (this w) ->
      exists w' i,
        removeThing thing w = Ok true w'
        /\ indexOf thing (things (this w)) = Some i
        /\ things (this w') = delete i (things (this w))
        /\ h_things w' = h_things w
        /\ vertices (this w') = vertices (this w)
        /\ lines (this w') = lines (this w)
        /\ sectors (this w') = sectors (this w)).
Proof.
  split.
  - intros Hn. unfold removeThing, mbind, M_bind, get. cbv beta iota.
    unfold includes. by rewrite bool_decide_eq_false_2.
  - intros Hin. unfold removeThing, mbind, M_bind, get. cbv beta iota.
    unfold includes. rewrite bool_decide_eq_true_2 by exact Hin.
    destruct (indexOf thing (things (this w))) as [i|] eqn:Ei.
    2:{ destruct (indexOf_elem _ _ Hin) as [i Hi]. congruence. }
    unfold removeThing_, mbind, M_bind, get. cbv beta iota. rewrite Ei.
    unfold History_do, mbind, M_bind, modThis, modify.
    cbn [History.doFunc runFunc]. unfold thingSplice, mbind, M_bind, get.
    cbv beta iota.
    change (things (this (with_this _ w))) with (things (this w)).
    rewrite Ei. unfold removeFromSpatialGrid, modThis, modify, mret, M_ret.
    cbv beta iota.
    destruct (boundsOf _ (GThing thing)); eexists _, i;
      (split; [reflexivity|]); by repeat split.
Qed.

Lemma removeThing_spec_witness :
  removeThing 5%nat oneThingWorld
  = Throw "Attempted to remove non-existing thing" oneThingWorld
  /\ exists w', removeThing 0%nat oneThingWorld = Ok true w'
                /\ things (this w') = [].
Proof.
  pose proof (removeThing_spec oneThingWorld 5%nat) as (H1 & _).
  pose proof (removeThing_spec oneThingWorld 0%nat) as (_ & H2).
  split.
  - apply H1. apply (bool_decide_unpack _). vm_compute. exact I.
  - destruct H2 as (w' & i & Hr & Hi & Ht & _).
    { vm_compute. left. }
    exists w'. split; [exact Hr|]. rewrite Ht.
    assert (E : i = 0%nat) by (vm_compute in Hi; congruence).
    rewrite E. vm_compute. reflexivity.
Defined.

(** ** The cells of the spatial grid *)

Lemma elem_of_range (a b x : Z) : x ∈ range a b <-> a <= x <= b.
Proof.
  unfold range. rewrite list_elem_of_fmap. split.
  - intros (i & -> & Hi). apply elem_of_seq in Hi. lia.
  - intros H. exists (Z.to_nat (x - a)). split; [lia|].
    apply elem_of_seq. lia.
Qed.

Lemma NoDup_range (a b : Z) : NoDup (range a b).
Proof.
  unfold range. apply NoDup_fmap_2; [|apply NoDup_seq].
  intros i j H. lia.
Qed.

Lemma fold_insert_lookup {V} (f : Z -> option V -> V) (xs : list Z)
    (m : gmap Z V) (x : Z) :
  NoDup xs ->
  fold_left (fun m x => <[x := f x (m !! x)]> m) xs m !! x
  = if decide (x ∈ xs) then Some (f x (m !! x)) else m !! x.
Proof.
  intros Hnd. revert m. induction Hnd as [|x0 xs Hx0 Hnd IH]; intros m.
  - simpl. destruct (decide (x ∈ [])) as [H|]; [inversion H|reflexivity].
  - simpl. rewrite IH.
    destruct (decide (x = x0)) as [->|Hne].
    + destruct (decide (x0 ∈ xs)); [contradiction|].
      rewrite lookup_insert_eq.
      destruct (decide (x0 ∈ x0 :: xs)) as [|N]; [reflexivity|].
      exfalso. apply N. left.
    + rewrite lookup_insert_ne by congruence.
      destruct (decide (x ∈ xs)), (decide (x ∈ x0 :: xs)) as [H|N];
        try reflexivity.
      * exfalso. apply N. by right.
      * apply elem_of_cons in H as [?|?]; contradiction.
Qed.

Lemma fold_prune_lookup {V} (h : V -> V) (emp : V -> bool) (xs : list Z)
    (m : gmap Z V) (x : Z) :
  NoDup xs ->
  fold_left (fun m x =>
    match m !! x with
    | None => m
    | Some c => let c' := h c in
                if emp c' then delete x m else <[x := c']> m
    end) xs m !! x
  = if decide (x ∈ xs)
    then m !! x ≫= (fun c => if emp (h c) then None else Some (h c))
    else m !! x.
Proof.
  intros Hnd. revert m. induction Hnd as [|x0 xs Hx0 Hnd IH]; intros m.
  - simpl. destruct (decide (x ∈ [])) as [H|]; [inversion H|reflexivity].
  - simpl. rewrite IH.
    destruct (decide (x = x0)) as [->|Hne].
    + destruct (decide (x0 ∈ xs)); [contradiction|].
      destruct (decide (x0 ∈ x0 :: xs)) as [|N];
        [|exfalso; apply N; left].
      destruct (m !! x0) as [c|] eqn:E; simpl.
      * destruct (emp (h c));
          [by rewrite lookup_delete_eq|by rewrite lookup_insert_eq].
      * exact E.
    + assert (Hsame : forall m' : gmap Z V, m' !! x = m !! x ->
                (if decide (x ∈ xs)
                 then m' !! x ≫= (fun c => if emp (h c) then None else Some (h c))
                 else m' !! x)
                = if decide (x ∈ x0 :: xs)
                  then m !! x ≫= (fun c => if emp (h c) then None else Some (h c))
                  else m !! x).
      { intros m' ->.
        destruct (decide (x ∈ xs)), (decide (x ∈ x0 :: xs)) as [H|N];
          try reflexivity.
        - exfalso. apply N. by right.
        - apply elem_of_cons in H as [?|?]; contradiction. }
      apply Hsame.
      destruct (m !! x0) as [c|]; [|reflexivity]. simpl.
      destruct (emp (h c));
        [by rewrite lookup_delete_ne by congruence
        |by rewrite lookup_insert_ne by congruence].
Qed.

Lemma gridAddColumn_lookup g ys col y :
  NoDup ys ->
  gridAddColumn g ys col !! y
  = if decide (y ∈ ys) then Some (setAdd g (default [] (col !! y)))
    else col !! y.
Proof.
  intros H. unfold gridAddColumn.
  apply (fold_insert_lookup (fun _ o => setAdd g (default [] o)) ys col y H).
Qed.

Lemma gridRemoveColumn_lookup g ys col y :
  NoDup ys ->
  gridRemoveColumn g ys col !! y
  = if decide (y ∈ ys)
    then col !! y ≫= (fun c => if (length (setDelete g c) =? 0)%nat
                               then None else Some (setDelete g c))
    else col !! y.
Proof.
  intros H. unfold gridRemoveColumn.
  apply (fold_prune_lookup (setDelete g) (fun c => (length c =? 0)%nat)
           ys col y H).
Qed.

Lemma gridAdd_lookup g b grid x :
  gridAdd g b grid !! x
  = if decide (x ∈ range (cellOf (minX b)) (cellOf (maxX b)))
    then Some (gridAddColumn g (range (cellOf (minY b)) (cellOf (maxY b)))
                 (default ∅ (grid !! x)))
    else grid !! x.
Proof.
  unfold gridAdd.
  apply (fold_insert_lookup
    (fun _ o => gridAddColumn g (range (cellOf (minY b)) (cellOf (maxY b)))
                  (default ∅ o)) _ grid x (NoDup_range _ _)).
Qed.

Lemma gridRemove_lookup g b grid x :
  gridRemove g b grid !! x
  = if decide (x ∈ range (cellOf (minX b)) (cellOf (maxX b)))
    then grid !! x ≫= (fun col =>
           if (size (gridRemoveColumn g
                       (range (cellOf (minY b)) (cellOf (maxY b))) col) =? 0)%nat
           then None
           else Some (gridRemoveColumn g
                        (range (cellOf (minY b)) (cellOf (maxY b))) col))
    else grid !! x.
Proof.
  unfold gridRemove.
  apply (fold_prune_lookup
    (gridRemoveColumn g (range (cellOf (minY b)) (cellOf (maxY b))))
    (fun c => (size c =? 0)%nat) _ grid x (NoDup_range _ _)).
Qed.

Lemma inCells_spec b x y :
  inCells b x y = true
  <-> x ∈ range (cellOf (minX b)) (cellOf (maxX b))
      /\ y ∈ range (cellOf (minY b)) (cellOf (maxY b)).
Proof.
  unfold inCells. rewrite !andb_true_iff, !Z.leb_le, !elem_of_range. lia.
Qed.

(** What [#addToSpatialGrid] does to each cell. *)
Lemma gridAdd_cellAt g b grid x y :
  cellAt (gridAdd g b grid) x y
  = if inCells b x y then setAdd g (cellAt grid x y) else cellAt grid x y.
Proof.
  unfold cellAt. rewrite gridAdd_lookup.
  destruct (inCells b x y) eqn:E.
  - apply inCells_spec in E as [Hx Hy].
    destruct (decide _); [|contradiction]. simpl.
    rewrite gridAddColumn_lookup by apply NoDup_range.
    destruct (decide _); [|contradiction]. simpl.
    by destruct (grid !! x).
  - destruct (decide _) as [Hx|]; [|reflexivity]. simpl.
    rewrite gridAddColumn_lookup by apply NoDup_range.
    destruct (decide _) as [Hy|].
    + assert (inCells b x y = true) by (by apply inCells_spec). congruence.
    + by destruct (grid !! x).
Qed.

Lemma length_zero_nil {A} (l : list A) : (length l =? 0)%nat = true -> l = [].
Proof. destruct l; [reflexivity|discriminate]. Qed.

(** What [#removeFromSpatialGrid] does to each cell. *)
Lemma gridRemove_cellAt g b grid x y :
  cellAt (gridRemove g b grid) x y
  = if inCells b x y then setDelete g (cellAt grid x y) else cellAt grid x y.
Proof.
  unfold cellAt. rewrite gridRemove_lookup.
  destruct (decide (x ∈ _)) as [Hx|Hx].
  - destruct (grid !! x) as [col|] eqn:Ec; simpl.
    + assert (E : default [] ((if (size (gridRemoveColumn g
                     (range (cellOf (minY b)) (cellOf (maxY b))) col) =? 0)%nat
                   then None
                   else Some (gridRemoveColumn g
                     (range (cellOf (minY b)) (cellOf (maxY b))) col))
                  ≫= (.!! y))
                = default [] (gridRemoveColumn g
                     (range (cellOf (minY b)) (cellOf (maxY b))) col !! y)).
      { destruct (size _ =? 0)%nat eqn:Es; [|reflexivity].
        apply Nat.eqb_eq, map_size_empty_iff in Es. rewrite Es.
        simpl. by rewrite lookup_empty. }
      rewrite E. rewrite gridRemoveColumn_lookup by apply NoDup_range.
      destruct (decide (y ∈ _)) as [Hy|Hy].
      * assert (Hin : inCells b x y = true) by (by apply inCells_spec).
        rewrite Hin. destruct (col !! y) as [c|]; simpl; [|reflexivity].
        destruct (length (setDelete g c) =? 0)%nat eqn:El; [|reflexivity].
        simpl. symmetry. by apply length_zero_nil.
      * destruct (inCells b x y) eqn:Hin; [|reflexivity].
        apply inCells_spec in Hin as [_ ?]. contradiction.
    + by destruct (inCells b x y).
  - destruct (inCells b x y) eqn:Hin; [|reflexivity].
    apply inCells_spec in Hin as [? _]. contradiction.
Qed.

(** [noEmptyCell], cell by cell. *)
Lemma noEmptyCell_spec (grid : Grid) :
  noEmptyCell grid = true
  <-> forall x col, grid !! x = Some col ->
        col <> ∅ /\ forall y c, col !! y = Some c -> c <> [].
Proof.
  unfold noEmptyCell. rewrite forallb_forall. split.
  - intros H x col Hx.
    specialize (H (x, col)). simpl in H.
    rewrite andb_true_iff, negb_true_iff, Nat.eqb_neq, forallb_forall in H.
    destruct H as [Hs Hc].
    { apply list_elem_of_In, elem_of_map_to_list. exact Hx. }
    split.
    + intros ->. apply Hs. apply map_size_empty.
    + intros y c Hy ->.
      specialize (Hc (y, [])). simpl in Hc.
      discriminate Hc. apply list_elem_of_In, elem_of_map_to_list. exact Hy.
  - intros H [x col] Hin. simpl.
    apply list_elem_of_In, elem_of_map_to_list in Hin.
    destruct (H x col Hin) as [Hne Hc].
    rewrite andb_true_iff, negb_true_iff, Nat.eqb_neq, forallb_forall.
    split.
    + intros Hs. apply Hne. by apply map_size_empty_iff.
    + intros [y c] Hy. simpl.
      apply list_elem_of_In, elem_of_map_to_list in Hy.
      specialize (Hc y c Hy). by destruct c.
Qed.

(** Two grids without empty cells or columns that agree on every cell are
    the same grid. *)
Lemma grid_ext (g1 g2 : Grid) :
  noEmptyCell g1 = true -> noEmptyCell g2 = true ->
  (forall x y, cellAt g1 x y = cellAt g2 x y) -> g1 = g2.
Proof.
  rewrite !noEmptyCell_spec. intros H1 H2 Hc.
  assert (Hcol : forall (ga gb : Grid),
    (forall x col, ga !! x = Some col ->
        col <> ∅ /\ forall y c, col !! y = Some c -> c <> []) ->
    (forall x col, gb !! x = Some col ->
        col <> ∅ /\ forall y c, col !! y = Some c -> c <> []) ->
    (forall x y, cellAt ga x y = cellAt gb x y) ->
    forall x col y c, ga !! x = Some col -> col !! y = Some c ->
      exists col', gb !! x = Some col' /\ col' !! y = Some c).
  { intros ga gb Ha Hb Hab x col y c Hx Hy.
    specialize (Hab x y). unfold cellAt in Hab. rewrite Hx in Hab. simpl in Hab.
    rewrite Hy in Hab. simpl in Hab.
    destruct (Ha x col Hx) as [_ Hne]. specialize (Hne y c Hy).
    destruct (gb !! x) as [col'|]; simpl in Hab; [|congruence].
    exists col'. split; [reflexivity|].
    destruct (col' !! y); simpl in Hab; congruence. }
  apply map_eq. intros x.
  assert (G : g1 !! x = g2 !! x); [|exact G].
  destruct (g1 !! x) as [c1|] eqn:E1, (g2 !! x) as [c2|] eqn:E2.
  - f_equal. apply map_eq. intros y.
    destruct (c1 !! y) as [l1|] eqn:F1.
    + destruct (Hcol g1 g2 H1 H2 Hc x c1 y l1 E1 F1) as (c & Ec & Fc).
      rewrite E2 in Ec. injection Ec as Ec. congruence.
    + destruct (c2 !! y) as [l2|] eqn:F2; [|reflexivity].
      destruct (Hcol g2 g1 H2 H1 (fun x y => eq_sym (Hc x y)) x c2 y l2 E2 F2)
        as (c & Ec & Fc).
      rewrite E1 in Ec. injection Ec as Ec. congruence.
  - destruct (H1 x c1 E1) as [Hne _].
    destruct (map_choose c1 Hne) as (y & l & Hy).
    destruct (Hcol g1 g2 H1 H2 Hc x c1 y l E1 Hy) as (c & Ec & _). congruence.
  - destruct (H2 x c2 E2) as [Hne _].
    destruct (map_choose c2 Hne) as (y & l & Hy).
    destruct (Hcol g2 g1 H2 H1 (fun x y => eq_sym (Hc x y)) x c2 y l E2 Hy)
      as (c & Ec & _). congruence.
  - reflexivity.
Qed.

Lemma setAdd_not_empty (g : Geom) (c : list Geom) : setAdd g c <> [].
Proof.
  unfold setAdd. destruct (includes g c) eqn:E.
  - intros ->. unfold includes in E. apply bool_decide_eq_true in E.
    inversion E.
  - by destruct c.
Qed.

Lemma cellOf_mono (a b : Z) : a <= b -> cellOf a <= cellOf b.
Proof.
  intros H. unfold cellOf, SPATIAL_GRID_CELL_SIZE.
  apply Z.div_le_mono; lia.
Qed.

Lemma gridAdd_noEmptyCell g b grid :
  minY b <= maxY b ->
  noEmptyCell grid = true -> noEmptyCell (gridAdd g b grid) = true.
Proof.
  intros Hb. rewrite !noEmptyCell_spec. intros H x col Hx.
  rewrite gridAdd_lookup in Hx.
  destruct (decide (x ∈ _)) as [Hin|]; [|by apply (H x)].
  injection Hx as <-.
  assert (Hy0 : cellOf (minY b) ∈ range (cellOf (minY b)) (cellOf (maxY b))).
  { apply elem_of_range. pose proof (cellOf_mono _ _ Hb). lia. }
  split.
  - intros E.
    assert (F := gridAddColumn_lookup g _ (default ∅ (grid !! x))
                   (cellOf (minY b))
                   (NoDup_range (cellOf (minY b)) (cellOf (maxY b)))).
    rewrite E, lookup_empty in F.
    destruct (decide _); [discriminate|contradiction].
  - intros y c. rewrite gridAddColumn_lookup by apply NoDup_range.
    destruct (decide _).
    + intros [= <-]. apply setAdd_not_empty.
    + destruct (grid !! x) as [col0|] eqn:E0; simpl.
      * intros Hy. by apply (proj2 (H x col0 E0) y).
      * by rewrite lookup_empty.
Qed.

Lemma gridRemove_noEmptyCell g b grid :
  noEmptyCell grid = true -> noEmptyCell (gridRemove g b grid) = true.
Proof.
  rewrite !noEmptyCell_spec. intros H x col Hx.
  rewrite gridRemove_lookup in Hx.
  destruct (decide (x ∈ _)) as [Hin|]; [|by apply (H x)].
  destruct (grid !! x) as [col0|] eqn:E0; simpl in Hx; [|discriminate].
  destruct (size _ =? 0)%nat eqn:Es; [discriminate|].
  injection Hx as <-. split.
  - intros E. rewrite E, map_size_empty in Es. discriminate.
  - intros y c. rewrite gridRemoveColumn_lookup by apply NoDup_range.
    destruct (decide _).
    + destruct (col0 !! y) as [c0|]; simpl; [|discriminate].
      destruct (length (setDelete g c0) =? 0)%nat eqn:El; [discriminate|].
      intros [= <-] E. rewrite E in El. discriminate.
    + intros Hy. by apply (proj2 (H x col0 E0) y).
Qed.

Lemma setDelete_setAdd (g : Geom) (c : list Geom) :
  g ∉ c -> setDelete g (setAdd g c) = c.
Proof.
  intros Hn. unfold setAdd, includes.
  rewrite bool_decide_eq_false_2 by exact Hn.
  unfold setDelete. rewrite filter_app.
  rewrite filter_cons_False by (intros H; by apply H).
  rewrite filter_nil, app_nil_r.
  induction c as [|a c IH]; [reflexivity|].
  rewrite filter_cons_True.
  - f_equal. apply IH. intros H. apply Hn. by right.
  - intros ->. apply Hn. left.
Qed.

(** Removing from the grid what was just added gives the grid back. *)
Lemma gridRemove_gridAdd g b grid :
  minY b <= maxY b ->
  noEmptyCell grid = true ->
  (forall x y, inCells b x y = true -> g ∉ cellAt grid x y) ->
  gridRemove g b (gridAdd g b grid) = grid.
Proof.
  intros Hb Ht Hg. apply grid_ext.
  - apply gridRemove_noEmptyCell, gridAdd_noEmptyCell; assumption.
  - exact Ht.
  - intros x y. rewrite gridRemove_cellAt, gridAdd_cellAt.
    destruct (inCells b x y) eqn:E; [|reflexivity].
    apply setDelete_setAdd, Hg, E.
Qed.

Lemma elem_of_setAdd (g h : Geom) (c : list Geom) :
  h ∈ setAdd g c <-> h ∈ c \/ h = g.
Proof.
  unfold setAdd, includes. case_bool_decide as E.
  - split; [by left|]. intros [?| ->]; assumption.
  - rewrite elem_of_app, list_elem_of_singleton. reflexivity.
Qed.

Lemma elem_of_setDelete (g h : Geom) (c : list Geom) :
  h ∈ setDelete g c <-> h ∈ c /\ h <> g.
Proof. unfold setDelete. rewrite list_elem_of_filter. tauto. Qed.

(** X11. [#addToSpatialGrid(geometry)] puts the geometry into every cell its
    bounds overlap and into no other, and takes nothing out of any cell; a
    geometry without finite bounds (a sector built from no line) leaves the
    grid as it is. *)
Theorem addToSpatialGrid_cells (w : World) (g : Geom) :
  exists w',
    addToSpatialGrid g w = Ok tt w'
    /\ match boundsOf w g with
       | Some b =>
           forall x y h,
             h ∈ cellAt (spatialGrid (this w')) x y
             <-> h ∈ cellAt (spatialGrid (this w)) x y
                 \/ (h = g /\ inCells b x y = true)
       | None => w' = w
       end.
Proof.
  unfold addToSpatialGrid, modify. eexists. split; [reflexivity|].
  destruct (boundsOf w g) as [b|]; [|reflexivity].
  intros x y h. simpl. rewrite gridAdd_cellAt.
  destruct (inCells b x y).
  - rewrite elem_of_setAdd. tauto.
  - split; [by left|]. intros [?|[_ ?]]; [assumption|discriminate].
Qed.

(** X12. [#removeFromSpatialGrid(geometry)] takes the geometry out of every
    cell its bounds overlap and leaves every other entry of every cell in
    place. *)
Theorem removeFromSpatialGrid_cells (w : World) (g : Geom) :
  exists w',
    removeFromSpatialGrid g w = Ok tt w'
    /\ match boundsOf w g with
       | Some b =>
           forall x y h,
             h ∈ cellAt (spatialGrid (this w')) x y
             <-> h ∈ cellAt (spatialGrid (this w)) x y
                 /\ ~ (h = g /\ inCells b x y = true)
       | None => w' = w
       end.
Proof.
  unfold removeFromSpatialGrid, modify. eexists. split; [reflexivity|].
  destruct (boundsOf w g) as [b|]; [|reflexivity].
  intros x y h. simpl. rewrite gridRemove_cellAt.
  destruct (inCells b x y).
  - rewrite elem_of_setDelete. tauto.
  - split; [|tauto]. intros H. split; [exact H|]. intros [_ ?]. discriminate.
Qed.

(** X13. The grid never keeps an empty cell or an empty column: both
    [#addToSpatialGrid] and [#removeFromSpatialGrid] lead from a grid
    without empty cells and columns to such a grid. *)
Theorem spatialGrid_no_empty_cell (w : World) (g : Geom) :
  noEmptyCell (spatialGrid (this w)) = true ->
  (orderedBounds w g ->
   noEmptyCell (spatialGrid (this (world_of (addToSpatialGrid g w)))) = true)
  /\ noEmptyCell
       (spatialGrid (this (world_of (removeFromSpatialGrid g w)))) = true.
Proof.
  intros Ht. unfold orderedBounds, addToSpatialGrid, removeFromSpatialGrid,
    modify. simpl.
  destruct (boundsOf w g) as [b|]; simpl; [|by split].
  split.
  - intros Hb. by apply gridAdd_noEmptyCell.
  - by apply gridRemove_noEmptyCell.
Qed.

Lemma cellsHolding_nil (grid : Grid) (g : Geom) :
  cellsHolding grid g = [] -> forall x y, g ∉ cellAt grid x y.
Proof.
  intros E x y Hin. unfold cellAt in Hin.
  destruct (grid !! x) as [col|] eqn:Ex; simpl in Hin; [|inversion Hin].
  destruct (col !! y) as [c|] eqn:Ey; simpl in Hin; [|inversion Hin].
  assert (H : (x, y) ∈ cellsHolding grid g).
  { unfold cellsHolding. apply list_elem_of_bind. exists (x, col). split.
    - apply list_elem_of_bind. exists (y, c). split.
      + simpl. unfold includes. rewrite bool_decide_eq_true_2 by exact Hin.
        left.
      + apply elem_of_map_to_list. exact Ey.
    - apply elem_of_map_to_list. exact Ex. }
  rewrite E in H. inversion H.
Qed.

(** X14. Taking a geometry out of the grid right after it was put in gives
    the map back as it was, when the grid had no empty cell and did not
    hold the geometry. *)
Theorem add_then_remove_from_grid (w : World) (g : Geom) :
  noEmptyCell (spatialGrid (this w)) = true ->
  orderedBounds w g ->
  cellsHolding (spatialGrid (this w)) g = [] ->
  (addToSpatialGrid g;; removeFromSpatialGrid g) w = Ok tt w.
Proof.
  intros Ht Hb Hg. unfold orderedBounds in Hb.
  unfold addToSpatialGrid, removeFromSpatialGrid, modify, mbind, M_bind.
  destruct (boundsOf w g) as [b|] eqn:E.
  - change (boundsOf (with_this _ w) g) with (boundsOf w g). rewrite E.
    f_equal. unfold with_this. simpl.
    rewrite gridRemove_gridAdd;
      [|exact Hb|exact Ht|intros; by apply cellsHolding_nil].
    destruct w as [? ? ? ? ? []]. reflexivity.
  - rewrite E. reflexivity.
Qed.

Lemma spatialGrid_no_empty_cell_witness :
  noEmptyCell (spatialGrid (this twoVertexWorld)) = true
  /\ noEmptyCell (spatialGrid (this (world_of
       (addToSpatialGrid (GVertex 2%nat) twoVertexWorld)))) = true
  /\ noEmptyCell (spatialGrid (this (world_of
       (removeFromSpatialGrid (GVertex 0%nat) twoVertexWorld)))) = true.
Proof.
  assert (Ht : noEmptyCell (spatialGrid (this twoVertexWorld)) = true)
    by (vm_compute; reflexivity).
  split; [exact Ht|]. split.
  - apply (proj1 (spatialGrid_no_empty_cell twoVertexWorld (GVertex 2%nat) Ht)).
    vm_compute. discriminate.
  - apply (proj2 (spatialGrid_no_empty_cell twoVertexWorld (GVertex 0%nat) Ht)).
Defined.

Lemma add_then_remove_from_grid_witness :
  (addToSpatialGrid (GVertex 2%nat);;
   removeFromSpatialGrid (GVertex 2%nat)) twoVertexWorld = Ok tt twoVertexWorld.
Proof.
  apply add_then_remove_from_grid.
  - vm_compute. reflexivity.
  - vm_compute. discriminate.
  - vm_compute. reflexivity.
Defined.

(** ** Undo and redo *)

Lemma withHistory_self (w : World) : withHistory (history (this w)) w = w.
Proof. destruct w as [? ? ? ? ? []]. reflexivity. Qed.

Lemma runFunc_withHistory (f : Func) (h : History.t) (w : World) :
  runFunc f (withHistory h w) = mapWorld (withHistory h) (runFunc f w).
Proof. apply runFunc_HistoryFree. Qed.

(** X15. [undo()] followed by [redo()] leaves both stacks of the history as
    they were, when the two closures of the action on top return; so does
    [redo()] followed by [undo()]. *)
Theorem undo_redo_history (w w1 w2 : World) (a : History.Action)
    (rest : list History.Action) :
  (History.stack (history (this w)) = rest ++ [a] ->
   runFunc (History.undoFunc a) w = Ok tt w1 ->
   runFunc (History.doFunc a) w1 = Ok tt w2 ->
   (History_undo;; History_redo) w = Ok tt w2
   /\ history (this w2) = history (this w))
  /\ (History.redoStack (history (this w)) = rest ++ [a] ->
      runFunc (History.doFunc a) w = Ok tt w1 ->
      runFunc (History.undoFunc a) w1 = Ok tt w2 ->
      (History_redo;; History_undo) w = Ok tt w2
      /\ history (this w2) = history (this w)).
Proof.
  assert (Hkeep : forall f u v, runFunc f u = Ok tt v ->
            history (this v) = history (this u)).
  { intros f u v H.
    pose proof (runFunc_withHistory f (history (this u)) u) as E.
    rewrite withHistory_self, H in E. simpl in E. injection E as E.
    rewrite E at 1. reflexivity. }
  split.
  - intros Hs Hu Hd.
    assert (Hh : history (this w2) = history (this w)).
    { rewrite (Hkeep _ _ _ Hd), (Hkeep _ _ _ Hu). reflexivity. }
    split; [|exact Hh].
    destruct (history (this w)) as [st rd] eqn:E. simpl in Hs. subst st.
    unfold mbind, M_bind.
    rewrite (undo_top a rest rd w w w1 E eq_refl Hu).
    unfold History_redo, mbind, M_bind, get. cbv beta zeta.
    change (history (this (withHistory ?h ?x))) with h.
    cbn [History.stack History.redoStack]. rewrite pop_snoc.
    unfold modThis, modify.
    change (with_this (set_history ?h) (withHistory ?h' ?x))
      with (withHistory h x).
    rewrite runFunc_withHistory, Hd. simpl. f_equal.
    rewrite <- (withHistory_self w2) at 2. rewrite Hh. reflexivity.
  - intros Hs Hd Hu.
    assert (Hh : history (this w2) = history (this w)).
    { rewrite (Hkeep _ _ _ Hu), (Hkeep _ _ _ Hd). reflexivity. }
    split; [|exact Hh].
    destruct (history (this w)) as [st rd] eqn:E. simpl in Hs. subst rd.
    unfold mbind, M_bind.
    unfold History_redo, mbind, M_bind, get. cbv beta zeta.
    rewrite E. cbn [History.stack History.redoStack]. rewrite pop_snoc.
    unfold modThis, modify.
    change (with_this (set_history ?h) w) with (withHistory h w).
    rewrite runFunc_withHistory, Hd. simpl.
    rewrite (undo_top a st rest _ w1 w2); [| reflexivity | reflexivity | exact Hu].
    f_equal. rewrite <- (withHistory_self w2) at 2. rewrite Hh. reflexivity.
Qed.

(** X16. An action whose [undo] closure throws is lost: [undo()] has popped
    it from the undo stack and never pushes it on the redo stack. In the
    same way an action whose [do] closure throws during [redo()] is gone
    from the redo stack and does not come back on the undo stack. *)
Theorem throwing_closure_loses_action (w w1 : World) (a : History.Action)
    (rest : list History.Action) (msg : string) :
  (History.stack (history (this w)) = rest ++ [a] ->
   runFunc (History.undoFunc a) w = Throw msg w1 ->
   exists w', History_undo w = Throw msg w'
     /\ History.stack (history (this w')) = rest
     /\ History.redoStack (history (this w'))
        = History.redoStack (history (this w)))
  /\ (History.redoStack (history (this w)) = rest ++ [a] ->
      runFunc (History.doFunc a) w = Throw msg w1 ->
      exists w', History_redo w = Throw msg w'
        /\ History.redoStack (history (this w')) = rest
        /\ History.stack (history (this w'))
           = History.stack (history (this w))).
Proof.
  split.
  - intros Hs Hu. destruct (history (this w)) as [st rd] eqn:E.
    simpl in Hs. subst st.
    unfold History_undo, mbind, M_bind, get. cbv beta zeta.
    rewrite E. cbn [History.stack History.redoStack]. rewrite pop_snoc.
    unfold modThis, modify.
    change (with_this (set_history ?h) w) with (withHistory h w).
    rewrite runFunc_withHistory, Hu. simpl. eexists. split; [reflexivity|].
    split; reflexivity.
  - intros Hs Hd. destruct (history (this w)) as [st rd] eqn:E.
    simpl in Hs. subst rd.
    unfold History_redo, mbind, M_bind, get. cbv beta zeta.
    rewrite E. cbn [History.stack History.redoStack]. rewrite pop_snoc.
    unfold modThis, modify.
    change (with_this (set_history ?h) w) with (withHistory h w).
    rewrite runFunc_withHistory, Hd. simpl. eexists. split; [reflexivity|].
    split; reflexivity.
Qed.

Lemma undo_redo_history_witness :
  exists w2,
    (History_undo;; History_redo) oneLineMap = Ok tt w2
    /\ history (this w2) = history (this oneLineMap).
Proof.
  eexists.
  eapply (proj1 (undo_redo_history oneLineMap _ _
            (addLineAction 2%nat 0 0 10 0)
            [addVertexAction 0%nat 0 0; addVertexAction 1%nat 10 0])).
  - vm_compute. reflexivity.
  - vm_compute. reflexivity.
  - vm_compute. reflexivity.
Defined.

Lemma throwing_closure_loses_action_witness :
  exists w',
    History_undo reAddedLineWorld = Throw "Line missing from vertices" w'
    /\ History.stack (history (this w'))
       = [addVertexAction 0%nat 0 0; addVertexAction 1%nat 10 0]
    /\ History.redoStack (history (this w'))
       = History.redoStack (history (this reAddedLineWorld)).
Proof.
  eapply (proj1 (throwing_closure_loses_action reAddedLineWorld _
            (addLineAction 2%nat 0 0 10 0)
            [addVertexAction 0%nat 0 0; addVertexAction 1%nat 10 0] _)).
  - vm_compute. reflexivity.
  - vm_compute. reflexivity.
Defined.

(** ** Property setters: validation, change and undo *)

Lemma setProperty_rejects current value msg doF target parameter w :
  accepts current value = false ->
  setProperty current value msg doF target parameter w = Throw msg w.
Proof.
  unfold accepts, setProperty. destruct current as [last|]; [|reflexivity].
  intros ->. reflexivity.
Qed.

Lemma sameType_refl (v : JsVal) : sameType v v = true.
Proof. by destruct v. Qed.

Lemma setProperty_same value msg doF target parameter w :
  setProperty (Some value) value msg doF target parameter w = Ok tt w.
Proof.
  unfold setProperty. rewrite sameType_refl. simpl.
  rewrite bool_decide_eq_true_2 by reflexivity. reflexivity.
Qed.

(** X17. A setter called with a property the object does not have, or with a
    value of another type than the current one, throws its validation error
    and leaves the map and its history untouched. *)
Theorem setters_reject_invalid (w : World) (property : string)
    (value : JsVal) :
  (forall line (isFront : bool),
     accepts (side_get (if isFront then front (lineAt w line)
                        else back (lineAt w line)) property) value = false ->
     setSideProperty line property value isFront w
     = Throw "Invalid side property" w)
  /\ (forall line,
     accepts (flags_get (flags (lineAt w line)) property) value = false ->
     setLineFlag line property value w = Throw "Invalid flags property" w)
  /\ (forall s,
     accepts (properties_get (properties (sectorAt w s)) property) value
       = false ->
     setSectorProperty s property value w
     = Throw "Invalid sector property" w)
  /\ (accepts (metadata_get (metadata (this w)) property) value = false ->
     setMapProperty property value w = Throw "Invalid metadata property" w).
Proof.
  repeat split; intros;
    unfold setSideProperty, setLineFlag, setSectorProperty, setMapProperty,
      mbind, M_bind, get; cbv beta zeta;
    by apply setProperty_rejects.
Qed.

Lemma setters_reject_invalid_witness :
  setSideProperty 0%nat "lightLevel" (VNum 1) true newWorld
  = Throw "Invalid side property" newWorld
  /\ setLineFlag 0%nat "secret" (VNum 1) newWorld
     = Throw "Invalid flags property" newWorld
  /\ setSectorProperty 0%nat "floorTexture" (VNum 1) newWorld
     = Throw "Invalid sector property" newWorld
  /\ setMapProperty "flags" (VBool true) newWorld
     = Throw "Invalid metadata property" newWorld.
Proof.
  split; [|split; [|split]].
  - apply (proj1 (setters_reject_invalid newWorld "lightLevel" (VNum 1))).
    reflexivity.
  - apply (proj1 (proj2 (setters_reject_invalid newWorld "secret" (VNum 1)))).
    reflexivity.
  - apply (proj1 (proj2 (proj2
             (setters_reject_invalid newWorld "floorTexture" (VNum 1))))).
    reflexivity.
  - apply (proj2 (proj2 (proj2
             (setters_reject_invalid newWorld "flags" (VBool true))))).
    reflexivity.
Defined.

(** X18. A setter called with the value the property already has returns at
    once: nothing is written and no action is recorded. *)
Theorem setters_skip_unchanged (w : World) (property : string)
    (value : JsVal) :
  (forall line (isFront : bool),
     side_get (if isFront then front (lineAt w line)
               else back (lineAt w line)) property = Some value ->
     setSideProperty line property value isFront w = Ok tt w)
  /\ (forall line,
     flags_get (flags (lineAt w line)) property = Some value ->
     setLineFlag line property value w = Ok tt w)
  /\ (forall s,
     properties_get (properties (sectorAt w s)) property = Some value ->
     setSectorProperty s property value w = Ok tt w)
  /\ (metadata_get (metadata (this w)) property = Some value ->
     setMapProperty property value w = Ok tt w).
Proof.
  repeat split; intros; 
    unfold setSideProperty, setLineFlag, setSectorProperty, setMapProperty,
      mbind, M_bind, get; cbv beta zeta;
    match goal with H : _ = Some value |- _ => rewrite H end;
    apply setProperty_same.
Qed.

Lemma setters_skip_unchanged_witness :
  setSectorProperty 0%nat "lightLevel" (VNum 160) oneSectorWorld
  = Ok tt oneSectorWorld
  /\ setMapProperty "skyTexture" (VStr "SKY1") oneSectorWorld
     = Ok tt oneSectorWorld.
Proof.
  split.
  - apply (proj1 (proj2 (proj2
             (setters_skip_unchanged oneSectorWorld "lightLevel" (VNum 160))))).
    reflexivity.
  - apply (proj2 (proj2 (proj2
             (setters_skip_unchanged oneSectorWorld "skyTexture" (VStr "SKY1"))))).
    reflexivity.
Defined.

Ltac by_property H :=
  repeat match type of H with
  | (if ?b then _ else _) = _ => destruct b eqn:?
  end; try discriminate.

Lemma metadata_get_set (m : Metadata) (p : string) (v last : JsVal) :
  metadata_get m p = Some last -> sameType v last = true ->
  metadata_get (metadata_set m p v) p = Some v.
Proof.
  unfold metadata_get, metadata_set. intros H Ht.
  by_property H; injection H as <-;
  match goal with E : String.eqb p _ = true |- _ =>
    apply String.eqb_eq in E; subst p end;
  destruct v; try discriminate; reflexivity.
Qed.

Lemma metadata_get_set_other (m : Metadata) (p q : string) (v : JsVal) :
  q <> p -> metadata_get (metadata_set m p v) q = metadata_get m q.
Proof.
  intros Hne. unfold metadata_set.
  destruct v; try reflexivity;
  repeat match goal with
  | |- context [if String.eqb p ?s then _ else _] =>
      destruct (String.eqb_spec p s) as [->|]
  end; try reflexivity;
  unfold metadata_get;
  repeat match goal with
  | |- context [if String.eqb q ?s then _ else _] =>
      destruct (String.eqb_spec q s) as [->|]
  end; try reflexivity; congruence.
Qed.

Lemma properties_get_set (m : Properties) (p : string) (v last : JsVal) :
  properties_get m p = Some last -> sameType v last = true ->
  properties_get (properties_set m p v) p = Some v.
Proof.
  unfold properties_get, properties_set. intros H Ht.
  by_property H; injection H as <-;
  match goal with E : String.eqb p _ = true |- _ =>
    apply String.eqb_eq in E; subst p end;
  destruct v; try discriminate; reflexivity.
Qed.

Lemma properties_get_set_other (m : Properties) (p q : string) (v : JsVal) :
  q <> p -> properties_get (properties_set m p v) q = properties_get m q.
Proof.
  intros Hne. unfold properties_set.
  destruct v; try reflexivity;
  repeat match goal with
  | |- context [if String.eqb p ?s then _ else _] =>
      destruct (String.eqb_spec p s) as [->|]
  end; try reflexivity;
  unfold properties_get;
  repeat match goal with
  | |- context [if String.eqb q ?s then _ else _] =>
      destruct (String.eqb_spec q s) as [->|]
  end; try reflexivity; congruence.
Qed.

(** X19. [setMapProperty(property, value)] with a new value of the right type
    writes the value, so that the property reads back as [value], leaves
    every other metadata property and the rest of the map as they were, and
    records one action; when that action did not take the place of another,
    [undo()] gives the map back as it was before the call. *)
Theorem setMapProperty_change (w : World) (property : string)
    (value last : JsVal) :
  metadata_get (metadata (this w)) property = Some last ->
  sameType value last = true ->
  last <> value ->
  exists w',
    setMapProperty property value w = Ok tt w'
    /\ metadata_get (metadata (this w')) property = Some value
    /\ (forall q, q <> property ->
          metadata_get (metadata (this w')) q
          = metadata_get (metadata (this w)) q)
    /\ m_flags (metadata (this w')) = m_flags (metadata (this w))
    /\ content (with_this (set_metadata (metadata (this w))) w') = content w
    /\ history (this w')
       = History.record (history (this w))
           (History.mkAction (SetMetadata property value)
              (SetMetadata property last) TThis (Some property) true)
    /\ (History.replace (history (this w)) TThis (Some property) = false ->
        exists w'', History_undo w' = Ok tt w''
          /\ content w'' = content w
          /\ History.stack (history (this w''))
             = History.stack (history (this w))).
Proof.
  intros Hget Hty Hne.
  set (a := History.mkAction (SetMetadata property value)
              (SetMetadata property last) TThis (Some property) true).
  exists (with_this
            (fun m => set_metadata (metadata_set (metadata m) property value) m)
            (withHistory (History.record (history (this w)) a) w)).
  split.
  { unfold setMapProperty, mbind, M_bind, get. cbv beta zeta.
    rewrite Hget. unfold setProperty. rewrite Hty.
    rewrite bool_decide_eq_false_2 by exact Hne. reflexivity. }
  split; [by apply (metadata_get_set _ _ _ last)|].
  split; [intros q Hq; by apply metadata_get_set_other|].
  split.
  { cbn [this with_this withHistory metadata set_metadata set_history].
    unfold metadata_set. destruct value; try reflexivity;
      repeat match goal with
      | |- context [if ?b then _ else _] => destruct b
      end; reflexivity. }
  split; [destruct w as [? ? ? ? ? []]; reflexivity|].
  split; [reflexivity|].
  intros Hr. eexists. split.
  - apply (undo_top a (History.stack (history (this w))) [] _
             (with_this (fun m => set_metadata
                           (metadata_set (metadata m) property value) m) w)
             w).
    + cbn [this with_this withHistory history set_metadata set_history].
      unfold History.record. cbn [History.target History.parameter a].
      rewrite Hr. reflexivity.
    + reflexivity.
    + cbn [History.undoFunc a runFunc]. unfold modThis, modify. f_equal.
      unfold with_this. cbn [this metadata set_metadata].
      rewrite (metadata_set_back _ _ _ _ Hget).
      destruct w as [? ? ? ? ? []]. reflexivity.
  - split; reflexivity.
Qed.

Lemma setMapProperty_change_witness :
  exists w',
    setMapProperty "author" (VStr "id") newWorld = Ok tt w'
    /\ metadata_get (metadata (this w')) "author" = Some (VStr "id")
    /\ exists w'', History_undo w' = Ok tt w''
         /\ content w'' = content newWorld.
Proof.
  destruct (setMapProperty_change newWorld "author" (VStr "id") (VStr ""))
    as (w' & H1 & H2 & _ & _ & _ & _ & H3);
    [reflexivity|reflexivity|discriminate|].
  exists w'. split; [exact H1|]. split; [exact H2|].
  destruct (H3 eq_refl) as (w'' & Hu & Hc & _).
  exists w''. split; [exact Hu | exact Hc].
Defined.

Lemma side_get_set (m : Side) (p : string) (v last : JsVal) :
  side_get m p = Some last -> sameType v last = true ->
  side_get (side_set m p v) p = Some v.
Proof.
  unfold side_get, side_set. intros H Ht.
  by_property H; injection H as <-;
  match goal with E : String.eqb p _ = true |- _ =>
    apply String.eqb_eq in E; subst p end;
  destruct v; try discriminate; reflexivity.
Qed.

Lemma side_get_set_other (m : Side) (p q : string) (v : JsVal) :
  q <> p -> side_get (side_set m p v) q = side_get m q.
Proof.
  intros Hne. unfold side_set.
  destruct v; try reflexivity;
  repeat match goal with
  | |- context [if String.eqb p ?s then _ else _] =>
      destruct (String.eqb_spec p s) as [->|]
  end; try reflexivity;
  unfold side_get;
  repeat match goal with
  | |- context [if String.eqb q ?s then _ else _] =>
      destruct (String.eqb_spec q s) as [->|]
  end; try reflexivity; congruence.
Qed.

Lemma side_set_back (m : Side) (p : string) (v last : JsVal) :
  side_get m p = Some last -> side_set (side_set m p v) p last = m.
Proof.
  unfold side_get, side_set. intros H. destruct m.
  by_property H; injection H as <-;
  match goal with E : String.eqb p _ = true |- _ =>
    apply String.eqb_eq in E; subst p end;
  destruct v; reflexivity.
Qed.

Lemma side_set_sectors (m : Side) (p : string) (v : JsVal) :
  sector (side_set m p v) = sector m
  /\ sectorOld (side_set m p v) = sectorOld m
  /\ sectorOverride (side_set m p v) = sectorOverride m.
Proof.
  unfold side_set. destruct v;
    repeat match goal with
    | |- context [if ?b then _ else _] => destruct b
    end; by repeat split.
Qed.

(** X20. [setSideProperty(line, property, value, isFront)] with a new value
    of the right type writes the property of that side only: the property
    reads back as [value], the other properties of the side, its sector
    references, the other side, the flags and the vertices of the line are
    as before, and one action is recorded under the line and the parameter
    ["front:" + property] or ["back:" + property]; when that action did not
    take the place of another, [undo()] gives the map back. *)
Theorem setSideProperty_change (w : World) (line : LineId) (o : Line)
    (property : string) (value last : JsVal) (isFront : bool) :
  h_lines w !! line = Some o ->
  side_get (sideOf isFront o) property = Some last ->
  sameType value last = true ->
  last <> value ->
  let parameter := (if isFront then "front" else "back") +:+ ":" +:+ property in
  exists w',
    setSideProperty line property value isFront w = Ok tt w'
    /\ side_get (sideOf isFront (lineAt w' line)) property = Some value
    /\ (forall q, q <> property ->
          side_get (sideOf isFront (lineAt w' line)) q
          = side_get (sideOf isFront o) q)
    /\ sector (sideOf isFront (lineAt w' line)) = sector (sideOf isFront o)
    /\ sideOf (negb isFront) (lineAt w' line) = sideOf (negb isFront) o
    /\ flags (lineAt w' line) = flags o
    /\ l_v0 (lineAt w' line) = l_v0 o /\ l_v1 (lineAt w' line) = l_v1 o
    /\ (forall l, l <> line -> lineAt w' l = lineAt w l)
    /\ history (this w')
       = History.record (history (this w))
           (History.mkAction (SetSide line isFront property value)
              (SetSide line isFront property last)
              (TObj (GLine line)) (Some parameter) true)
    /\ (History.replace (history (this w)) (TObj (GLine line))
          (Some parameter) = false ->
        exists w'', History_undo w' = Ok tt w''
          /\ content w'' = content w).
Proof.
  intros Hl Hget Hty Hne parameter.
  set (a := History.mkAction (SetSide line isFront property value)
              (SetSide line isFront property last)
              (TObj (GLine line)) (Some parameter) true).
  set (o' := if isFront then set_front (side_set (front o) property value) o
             else set_back (side_set (back o) property value) o).
  assert (Hat : lineAt w line = o) by (unfold lineAt; by rewrite Hl).
  exists (putLine line o' (withHistory (History.record (history (this w)) a) w)).
  assert (Hat' : forall h, lineAt (putLine line o' (withHistory h w)) line = o').
  { intros h. unfold lineAt, putLine. simpl. by rewrite lookup_insert_eq. }
  split.
  { unfold setSideProperty, mbind, M_bind, get. cbv beta iota zeta.
    rewrite Hat. fold (sideOf isFront o). rewrite Hget.
    unfold setProperty. rewrite Hty. cbn [negb].
    rewrite bool_decide_eq_false_2 by exact Hne.
    unfold History_do, mbind, M_bind, modThis, modify.
    cbn [History.doFunc runFunc]. unfold modify. cbv beta iota. f_equal.
    change (lineAt (with_this _ w) line) with (lineAt w line).
    rewrite Hat. reflexivity. }
  rewrite !Hat'. unfold o', sideOf in *.
  destruct (side_set_sectors (front o) property value) as (Sf & _).
  destruct (side_set_sectors (back o) property value) as (Sb & _).
  split; [destruct isFront; simpl; by apply (side_get_set _ _ _ last)|].
  split; [intros q Hq; destruct isFront; simpl; by apply side_get_set_other|].
  split; [destruct isFront; simpl; assumption|].
  split; [by destruct isFront|].
  split; [by destruct isFront|].
  split; [by destruct isFront|].
  split; [by destruct isFront|].
  split.
  { intros l Hneq. unfold lineAt, putLine. simpl.
    by rewrite lookup_insert_ne by congruence. }
  split; [reflexivity|].
  intros Hr. eexists. split.
  - apply (undo_top a (History.stack (history (this w))) [] _
             (putLine line (if isFront
                then set_front (side_set (front o) property value) o
                else set_back (side_set (back o) property value) o) w) w).
    + cbn [this putLine withHistory with_this history set_history].
      unfold History.record. cbn [History.target History.parameter a].
      rewrite Hr. reflexivity.
    + reflexivity.
    + cbn [History.undoFunc a runFunc]. unfold modify. f_equal.
      unfold lineAt, putLine. simpl. rewrite lookup_insert_eq. simpl.
      rewrite insert_insert_eq.
      destruct isFront; simpl;
        rewrite (side_set_back _ _ _ _ Hget);
        destruct o, w; simpl in *; by rewrite (insert_id _ _ _ Hl).
  - reflexivity.
Qed.

Lemma setSideProperty_change_witness :
  exists w',
    setSideProperty 2%nat "textureMiddle" (VStr "BRICK") false oneLineMap
    = Ok tt w'
    /\ side_get (back (lineAt w' 2%nat)) "textureMiddle" = Some (VStr "BRICK")
    /\ front (lineAt w' 2%nat) = front (lineAt oneLineMap 2%nat)
    /\ exists w'', History_undo w' = Ok tt w''
         /\ content w'' = content oneLineMap.
Proof.
  pose proof (setSideProperty_change oneLineMap 2%nat (lineAt oneLineMap 2%nat)
                "textureMiddle" (VStr "BRICK") (VStr "") false
                ltac:(vm_compute; reflexivity) ltac:(vm_compute; reflexivity)
                eq_refl ltac:(discriminate)) as H.
  cbv zeta in H. cbn [sideOf negb] in H.
  destruct H as (w' & H1 & H2 & _ & _ & H3 & _ & _ & _ & _ & _ & H4).
  exists w'. split; [exact H1|]. split; [exact H2|]. split; [exact H3|].
  apply H4. vm_compute. reflexivity.
Defined.

(** ** Removing a sector *)

(** The loop of [clearLines] writes lines only. *)
Lemma clearLines_loop_sectors (self : SectorId) (ls : list LineId) (w : World) :
  h_sectors (world_of (forEach ls (fun l =>
      w' ← get;
      let o := lineAt w' l in
      if bool_decide (sector (back o) = Some self)
      then modLine l (fun o' => set_back (set_sector None (back o')) o')
      else if bool_decide (sector (front o) = Some self)
      then modLine l (fun o' => set_front (set_sector None (front o')) o')
      else throw "Line not connected to this sector") w))
  = h_sectors w.
Proof.
  revert w. induction ls as [|l ls IH]; intros w; [reflexivity|].
  cbn [forEach]. unfold mbind at 1, M_bind at 1.
  unfold mbind at 1, M_bind at 1, get. cbv beta iota zeta.
  destruct (bool_decide _).
  - unfold modLine, modify. cbv beta iota. rewrite IH. reflexivity.
  - destruct (bool_decide _).
    + unfold modLine, modify. cbv beta iota. rewrite IH. reflexivity.
    + reflexivity.
Qed.

Lemma clearLines_returns (s : SectorId) (w w1 : World) :
  Sector_clearLines s w = Ok tt w1 -> s_map (sectorAt w1 s) = false.
Proof.
  intros H. unfold Sector_clearLines in H.
  apply bind_Ok in H as (w0 & w0' & Hg & H). injection Hg as <- <-.
  cbv beta in H.
  destruct (s_map (sectorAt w s)) eqn:Em; [discriminate|].
  apply bind_Ok in H as ([] & w2 & Hf & H).
  assert (Hs : h_sectors (world_of (Ok tt w2)) = h_sectors w)
    by (rewrite <- Hf; apply clearLines_loop_sectors).
  simpl in Hs.
  unfold modSector, modify in H. injection H as <-.
  unfold sectorAt, putSector. simpl. rewrite lookup_insert_eq. simpl.
  fold (sectorAt w2 s). unfold sectorAt. rewrite Hs. exact Em.
Qed.

(** X21. [#removeSector(sector)] never returns: it throws for a sector that
    is not registered, [clearLines()] throws for a sector that is on a map,
    and for a registered sector that is on no map [removeFromMap()] throws
    at the end, if [clearLines()] did not throw before. *)
Theorem removeSector_never_returns (w : World) (s : SectorId) :
  exists msg w', removeSector_ s w = Throw msg w'.
Proof.
  destruct (removeSector_ s w) as [[] w'|msg w'] eqn:E; [|by eexists _, _].
  exfalso. unfold removeSector_ in E.
  apply bind_Ok in E as (w0 & w0' & Hg & E). injection Hg as <- <-.
  destruct (indexOf s (sectors (this w))) as [i|]; [|discriminate].
  apply bind_Ok in E as ([] & w1 & Hc & E).
  apply clearLines_returns in Hc.
  apply bind_Ok in E as ([] & w2 & Hr & E).
  apply bind_Ok in E as ([] & w3 & Hm & E).
  assert (Hs : s_map (sectorAt w3 s) = false).
  { unfold modThis, modify in Hm. injection Hm as <-.
    unfold removeFromSpatialGrid, modify in Hr. injection Hr as <-.
    simpl. destruct (s_bounds (sectorAt w1 s)); exact Hc. }
  unfold Sector_removeFromMap in E.
  apply bind_Ok in E as (w4 & w4' & Hg & E). injection Hg as <- <-.
  rewrite Hs in E. discriminate.
Qed.

(** ** Selection *)

Lemma elem_of_fold_setAdd (xs sel : list Geom) (h : Geom) :
  h ∈ fold_left (fun acc x => setAdd x acc) xs sel <-> h ∈ sel \/ h ∈ xs.
Proof.
  revert sel. induction xs as [|x xs IH]; intros sel; simpl.
  - split; [by left|]. intros [?|H]; [assumption|inversion H].
  - rewrite IH, elem_of_setAdd, elem_of_cons. tauto.
Qed.

Lemma elem_of_fold_setDelete (xs sel : list Geom) (h : Geom) :
  h ∈ fold_left (fun acc x => setDelete x acc) xs sel <-> h ∈ sel /\ h ∉ xs.
Proof.
  revert sel. induction xs as [|x xs IH]; intros sel; simpl.
  - split; [intros ?; split; [assumption|by intros ?%elem_of_nil]|tauto].
  - rewrite IH, elem_of_setDelete, not_elem_of_cons. tauto.
Qed.

Lemma select_step (w : World) (g : Geom) :
  exists sel',
    select [g] w = Ok tt (with_this (set_selection sel') w)
    /\ (forall h, h ∈ sel' <->
          (h ∈ selection (this w)
           \/ ((g ∉ selection (this w))
               /\ (h = g \/ h ∈ selectedWith w g)))).
Proof.
  unfold select. cbn [forEach]. unfold mbind, M_bind, get, mret, M_ret.
  cbv beta iota zeta. unfold includes. case_bool_decide as E.
  - exists (selection (this w)). split.
    + destruct w as [? ? ? ? ? []]. reflexivity.
    + intros h. tauto.
  - eexists. split; [reflexivity|].
    intros h. rewrite elem_of_fold_setAdd, elem_of_cons.
    fold (selectedWith w g). tauto.
Qed.

Lemma bind_then (c k : M unit) (w : World) :
  (c;; k) w
  = match (c;; mret tt) w with
    | Ok _ w1 => k w1
    | Throw msg w1 => Throw msg w1
    end.
Proof.
  unfold mbind, M_bind, mret, M_ret. destruct (c w); reflexivity.
Qed.

Lemma select_cons (g : Geom) (gs : list Geom) (w : World) :
  select (g :: gs) w
  = match select [g] w with
    | Ok _ w1 => select gs w1
    | Throw msg w1 => Throw msg w1
    end.
Proof. unfold select. cbn [forEach]. apply bind_then. Qed.

Lemma selectedWith_closed (w : World) (g : Geom) (l : LineId) :
  GLine l ∈ g :: selectedWith w g ->
  GVertex (l_v0 (lineAt w l)) ∈ g :: selectedWith w g
  /\ GVertex (l_v1 (lineAt w l)) ∈ g :: selectedWith w g.
Proof.
  intros H. apply elem_of_cons in H as [<-|H].
  - simpl. split; [right; left|right; right; left].
  - destruct g as [v|l0|s|t]; simpl in H; try (by inversion H).
    + repeat (apply elem_of_cons in H as [H|H]; [discriminate|]).
      inversion H.
    + apply list_elem_of_bind in H as (l1 & H & Hl1).
      repeat (apply elem_of_cons in H as [H|H]; [try discriminate|]).
      * injection H as ->. split; right; simpl;
          apply list_elem_of_bind; exists l1;
          (split; [|exact Hl1]); [left|right; left].
      * inversion H.
Qed.

(** X22. [select(geometries)] returns with every listed geometry selected
    and nothing deselected; it writes the selection only. What it adds
    beyond the selection it found are listed geometries that were not
    selected, the endpoints of such lines, and the lines of such sectors
    with their endpoints. If every selected line had both endpoints
    selected before the call, this holds after it. *)
Theorem select_spec (w : World) (geometries : list Geom) :
  exists sel',
    select geometries w = Ok tt (with_this (set_selection sel') w)
    /\ (forall g, g ∈ geometries -> g ∈ sel')
    /\ (forall h, h ∈ selection (this w) -> h ∈ sel')
    /\ (forall h, h ∈ sel' ->
          h ∈ selection (this w)
          \/ exists g, g ∈ geometries /\ (g ∉ selection (this w))
                       /\ (h = g \/ h ∈ selectedWith w g))
    /\ (endpointsSelected w (selection (this w)) -> endpointsSelected w sel').
Proof.
  revert w. induction geometries as [|g gs IH]; intros w.
  - exists (selection (this w)). split.
    + destruct w as [? ? ? ? ? []]. reflexivity.
    + split; [intros g H; inversion H|]. split; [tauto|]. split; [|tauto].
      intros h H. by left.
  - destruct (select_step w g) as (sel1 & H1 & M1).
    destruct (IH (with_this (set_selection sel1) w))
      as (sel2 & H2 & A2 & B2 & C2 & D2).
    exists sel2. split.
    { rewrite select_cons, H1, H2. reflexivity. }
    cbn [this with_this selection set_selection] in *.
    assert (Hg : g ∈ sel1).
    { apply M1. destruct (decide (g ∈ selection (this w))); [by left|].
      right. split; [assumption|by left]. }
    split.
    { intros g0 [->|H]%elem_of_cons; [by apply B2|by apply A2]. }
    split.
    { intros h H. apply B2, M1. by left. }
    split.
    { intros h H. apply C2 in H as [H|(g0 & Hin & Hn & H)].
      - apply M1 in H as [H|(Hn & H)]; [by left|].
        right. exists g. split; [left|]. split; assumption.
      - destruct (decide (g0 ∈ selection (this w))) as [Hs|Hs].
        + exfalso. apply Hn, M1. by left.
        + right. exists g0. split; [by right|]. split; assumption. }
    intros Hc. apply D2. intros l Hl.
    apply M1 in Hl as [Hl|(Hn & Hl)].
    + destruct (Hc l Hl) as [? ?]. split; apply M1; by left.
    + destruct (selectedWith_closed w g l) as [E0 E1].
      { apply elem_of_cons. exact Hl. }
      apply elem_of_cons in E0, E1.
      split; apply M1; right; (split; [exact Hn|assumption]).
Qed.

(** X23. [deselect(geometries)] takes exactly the listed geometries out of
    the selection, and [deselect()] empties it; neither touches anything
    else. *)
Theorem deselect_spec (w : World) (geometries : list Geom) :
  (exists sel',
     deselect (Some geometries) w = Ok tt (with_this (set_selection sel') w)
     /\ forall h, h ∈ sel' <-> (h ∈ selection (this w) /\ h ∉ geometries))
  /\ deselect None w = Ok tt (with_this (set_selection []) w).
Proof.
  split; [|reflexivity].
  eexists. split; [reflexivity|]. intros h. apply elem_of_fold_setDelete.
Qed.

(** ** Lines and their vertices *)

Lemma Side_roundtrip (s : Side) (d : SideData) :
  Side_serialize (Side_deserialize s d) = d.
Proof. by destruct d. Qed.

Lemma vertexAt_putVertex (w : World) (v u : VertexId) (x : Vertex) :
  vertexAt (putVertex v x w) u = if decide (u = v) then x else vertexAt w u.
Proof.
  unfold vertexAt, putVertex. simpl. destruct (decide (u = v)) as [->|].
  - by rewrite lookup_insert_eq.
  - by rewrite lookup_insert_ne by congruence.
Qed.

Lemma lineAt_putLine_at (w : World) (l k : LineId) (x : Line) :
  lineAt (putLine l x w) k = if decide (k = l) then x else lineAt w k.
Proof.
  unfold lineAt, putLine. simpl. destruct (decide (k = l)) as [->|].
  - by rewrite lookup_insert_eq.
  - by rewrite lookup_insert_ne by congruence.
Qed.

Lemma lineAt_putVertex (w : World) (v : VertexId) (x : Vertex) (l : LineId) :
  lineAt (putVertex v x w) l = lineAt w l.
Proof. reflexivity. Qed.

Lemma vertexAt_putLine (w : World) (l : LineId) (x : Line) (v : VertexId) :
  vertexAt (putLine l x w) v = vertexAt w v.
Proof. reflexivity. Qed.

(** [new Line(v0, v1)]: the line is allocated with empty sides and flags
    and listed on both vertices. *)
Lemma Line_new_spec (w : World) (v0 v1 : VertexId) :
  exists w',
    Line_new v0 v1 w = Ok (h_next w) w'
    /\ l_v0 (lineAt w' (h_next w)) = v0
    /\ l_v1 (lineAt w' (h_next w)) = v1
    /\ front (lineAt w' (h_next w)) = newSide
    /\ back (lineAt w' (h_next w)) = newSide
    /\ flags (lineAt w' (h_next w)) = newFlags
    /\ (forall l, l <> h_next w -> lineAt w' l = lineAt w l)
    /\ (forall u, v_x (vertexAt w' u) = v_x (vertexAt w u)
                  /\ v_y (vertexAt w' u) = v_y (vertexAt w u)
                  /\ v_lines (vertexAt w' u)
                     = v_lines (vertexAt w u)
                       ++ (if decide (u = v0) then [h_next w] else [])
                       ++ (if decide (u = v1) then [h_next w] else []))
    /\ this w' = this w /\ h_next w' = S (h_next w).
Proof.
  unfold Line_new, Vertex_addLine, alloc, modify, mbind, M_bind, get,
    mret, M_ret. cbv beta iota zeta.
  eexists. split; [reflexivity|].
  rewrite !lineAt_putVertex, !lineAt_putLine_at.
  rewrite decide_True by reflexivity.
  do 5 (split; [reflexivity|]).
  split.
  { intros l Hne. rewrite !lineAt_putVertex, lineAt_putLine_at.
    by rewrite decide_False. }
  split; [|by split].
  intros u. rewrite !vertexAt_putVertex, !vertexAt_putLine.
  change (vertexAt (mkWorld (h_vertices w) (h_lines w) (h_sectors w)
                      (h_things w) (S (h_next w)) (this w)))
    with (vertexAt w).
  destruct (decide (u = v1)) as [E1|E1], (decide (u = v0)) as [E0|E0];
    subst; simpl; rewrite ?decide_True by reflexivity;
    rewrite ?decide_False by congruence; simpl;
    rewrite ?app_nil_r, <- ?app_assoc; by repeat split.
Qed.

(** X24. [Line.deserialize(data, vertexMap)] throws and constructs nothing
    when the vertex map lacks an endpoint; otherwise, when the map gives
    each key a vertex with those coordinates, it returns a new line that
    serializes back to [data], lists the line on both vertices and leaves
    the lines that existed as they were. *)
Theorem Line_deserialize_roundtrip (w : World) (d : LineData)
    (vmap : gmap VKey VertexId) :
  (vmap !! createVertexKey (ld_v0 d).1 (ld_v0 d).2 = None
   \/ vmap !! createVertexKey (ld_v1 d).1 (ld_v1 d).2 = None ->
   Line_deserialize d vmap w = Throw "Missing vertex" w)
  /\ (forall v0 v1,
        vmap !! createVertexKey (ld_v0 d).1 (ld_v0 d).2 = Some v0 ->
        vmap !! createVertexKey (ld_v1 d).1 (ld_v1 d).2 = Some v1 ->
        (v_x (vertexAt w v0), v_y (vertexAt w v0)) = ld_v0 d ->
        (v_x (vertexAt w v1), v_y (vertexAt w v1)) = ld_v1 d ->
        exists w',
          Line_deserialize d vmap w = Ok (h_next w) w'
          /\ Line_serialize w' (h_next w) = d
          /\ h_next w ∈ v_lines (vertexAt w' v0)
          /\ h_next w ∈ v_lines (vertexAt w' v1)
          /\ (forall l, l <> h_next w -> lineAt w' l = lineAt w l)
          /\ this w' = this w).
Proof.
  split.
  - unfold Line_deserialize. intros [-> | ->]; [reflexivity|].
    by destruct (vmap !! _).
  - intros v0 v1 H0 H1 E0 E1. unfold Line_deserialize. rewrite H0, H1.
    destruct (Line_new_spec w v0 v1)
      as (w1 & Hn & A0 & A1 & Af & Ab & Afl & Ao & Av & At & An).
    unfold mbind at 1, M_bind at 1. rewrite Hn.
    unfold modLine, modify, mbind, M_bind, mret, M_ret. cbv beta iota.
    eexists. split; [reflexivity|].
    assert (Hat : forall X, lineAt (putLine (h_next w) X w1) (h_next w) = X).
    { intros X. unfold lineAt, putLine. simpl. by rewrite lookup_insert_eq. }
    split.
    { unfold Line_serialize, x0_of, y0_of, x1_of, y1_of.
      rewrite !Hat. cbn [l_v0 l_v1 front back flags].
      change (vertexAt (putLine _ _ w1)) with (vertexAt w1).
      rewrite A0, A1.
      destruct (Av v0) as (-> & -> & _), (Av v1) as (-> & -> & _).
      rewrite E0, E1, !Side_roundtrip. by destruct d as [[] [] ? ? ?]. }
    change (vertexAt (putLine _ _ w1)) with (vertexAt w1).
    split.
    { destruct (Av v0) as (_ & _ & ->).
      apply elem_of_app. right. apply elem_of_app. left.
      rewrite decide_True by reflexivity. left. }
    split.
    { destruct (Av v1) as (_ & _ & ->).
      apply elem_of_app. right. apply elem_of_app. right.
      rewrite decide_True by reflexivity. left. }
    split; [|exact At].
    intros l Hne. unfold lineAt at 1, putLine. simpl.
    rewrite lookup_insert_ne by congruence. by apply Ao.
Qed.

(** X25. [vertex.removeLine(line)] throws and leaves the vertex as it is
    when the line is not in its list; otherwise it takes out the first
    occurrence of the line and nothing else. Called right after
    [vertex.addLine(line)] on a vertex that did not list the line, it gives
    the vertex back as it was. *)
Theorem Vertex_removeLine_spec (w : World) (v : VertexId) (line : LineId) :
  (line ∉ v_lines (vertexAt w v) ->
   Vertex_removeLine v line w
   = Throw "Attempted to remove non-existent line from vertex" w)
  /\ (forall i, indexOf line (v_lines (vertexAt w v)) = Some i ->
      exists w',
        Vertex_removeLine v line w = Ok tt w'
        /\ v_lines (vertexAt w' v) = delete i (v_lines (vertexAt w v))
        /\ v_x (vertexAt w' v) = v_x (vertexAt w v)
        /\ v_y (vertexAt w' v) = v_y (vertexAt w v)
        /\ (forall u, u <> v -> vertexAt w' u = vertexAt w u))
  /\ (forall o, h_vertices w !! v = Some o -> line ∉ v_lines o ->
      (Vertex_addLine v line;; Vertex_removeLine v line) w = Ok tt w).
Proof.
  split; [|split].
  - intros Hn. unfold Vertex_removeLine, mbind, M_bind, get. cbv beta iota.
    by rewrite (indexOf_None _ _ Hn).
  - intros i Hi. unfold Vertex_removeLine, mbind, M_bind, get, modify.
    cbv beta iota. rewrite Hi. eexists. split; [reflexivity|].
    rewrite vertexAt_putVertex, decide_True by reflexivity.
    do 3 (split; [reflexivity|]).
    intros u Hu. rewrite vertexAt_putVertex. by rewrite decide_False.
  - intros o Ho Hn.
    assert (Hat : vertexAt w v = o) by (unfold vertexAt; by rewrite Ho).
    unfold Vertex_addLine, Vertex_removeLine, mbind, M_bind, get, modify.
    cbv beta iota. rewrite vertexAt_putVertex, decide_True by reflexivity.
    rewrite Hat. cbn [v_lines set_v_lines].
    rewrite (indexOf_app_fresh line (v_lines o) [] Hn). f_equal.
    rewrite delete_middle, app_nil_r.
    unfold putVertex. simpl. rewrite insert_insert_eq.
    destruct o, w; simpl in *. by rewrite (insert_id _ _ _ Ho).
Qed.

Lemma Vertex_removeLine_spec_witness :
  Vertex_removeLine 0%nat 7%nat oneLineMap
  = Throw "Attempted to remove non-existent line from vertex" oneLineMap
  /\ (Vertex_addLine 0%nat 7%nat;; Vertex_removeLine 0%nat 7%nat) oneLineMap
     = Ok tt oneLineMap.
Proof.
  pose proof (Vertex_removeLine_spec oneLineMap 0%nat 7%nat) as (H1 & _ & H3).
  split.
  - apply H1. vm_compute. intros H. inversion H; subst.
    match goal with H : _ ∈ [] |- _ => inversion H end.
  - apply (H3 (vertexAt oneLineMap 0%nat)).
    + vm_compute. reflexivity.
    + vm_compute. intros H. inversion H; subst.
      match goal with H : _ ∈ [] |- _ => inversion H end.
Defined.

Lemma Line_deserialize_roundtrip_witness :
  Line_deserialize brickLine ∅ newWorld = Throw "Missing vertex" newWorld
  /\ exists w',
       Line_deserialize brickLine (vertexMap (this twoVertexWorld))
         twoVertexWorld = Ok 3%nat w'
       /\ Line_serialize w' 3%nat = brickLine.
Proof.
  split.
  - apply (proj1 (Line_deserialize_roundtrip newWorld brickLine ∅)).
    left. reflexivity.
  - destruct (proj2 (Line_deserialize_roundtrip twoVertexWorld brickLine
                       (vertexMap (this twoVertexWorld))) 1%nat 0%nat
                ltac:(vm_compute; reflexivity) ltac:(vm_compute; reflexivity)
                ltac:(vm_compute; reflexivity) ltac:(vm_compute; reflexivity))
      as (w' & H1 & H2 & _).
    exists w'. split; [exact H1 | exact H2].
Defined.

(** ** Vertices of a map without lines *)

Lemma rebuild_or_skip (skip : bool) (w : World) :
  skip = true \/ modifiedLines (this w) = [] ->
  (if skip then mret tt else rebuildSectors) w = Ok tt w.
Proof.
  intros [->|E]; [reflexivity|]. destruct skip; [reflexivity|].
  unfold rebuildSectors, mbind, M_bind, get. by rewrite E.
Qed.

Lemma bind_step {A B} (c : M A) (k : A -> M B) (w w1 : World) (a : A) :
  c w = Ok a w1 -> (c ≫= k) w = k a w1.
Proof. intros H. unfold mbind, M_bind. by rewrite H. Qed.

(** [#addVertex(vertex)] for a vertex whose object exists. *)
Lemma addVertex__spec (w : World) (v : VertexId) (x y : Z)
    (ls : list LineId) :
  vertexAt w v = mkVertex x y ls ->
  addVertex_ v w
  = Ok tt (with_this (fun m =>
      set_spatialGrid (gridAdd (GVertex v) (mkBounds x y x y) (spatialGrid m))
        (set_vertexMap (<[createVertexKey x y := v]> (vertexMap m))
           (set_vertices (vertices m ++ [v])
              (set_history (History.record (history m) (addVertexAction v x y))
                 m)))) w).
Proof.
  intros Hv. unfold addVertex_. unfold mbind at 1, M_bind at 1, get.
  cbv beta iota zeta. unfold keyOfVertex. rewrite Hv. cbn [v_x v_y].
  unfold History_do. cbn [History.doFunc runFunc].
  unfold modThis, addToSpatialGrid, modify, mbind, M_bind. cbv beta iota.
  change (boundsOf (with_this ?f (with_this ?g (with_this ?h w))) (GVertex v))
    with (boundsOf w (GVertex v)).
  unfold boundsOf. rewrite Hv. cbn [v_x v_y]. reflexivity.
Qed.

Lemma addVertex_creates (w : World) (x y : Z) (skipRebuild : bool) :
  vertexMap (this w) !! createVertexKey x y = None ->
  lines (this w) = [] ->
  skipRebuild = true \/ modifiedLines (this w) = [] ->
  let v := h_next w in
  let w' := withVertex x y w in
  addVertex x y skipRebuild w = Ok v w'
  /\ addVertex x y skipRebuild w' = Ok v w'
  /\ vertexAt w' v = mkVertex x y []
  /\ vertices (this w') = vertices (this w) ++ [v]
  /\ vertexMap (this w') !! createVertexKey x y = Some v
  /\ (forall k, k <> createVertexKey x y ->
        vertexMap (this w') !! k = vertexMap (this w) !! k)
  /\ GVertex v ∈ cellAt (spatialGrid (this w')) (cellOf x) (cellOf y)
  /\ history (this w')
     = History.record (history (this w)) (addVertexAction v x y)
  /\ (lines (this w'), sectors (this w'), things (this w'),
      selection (this w'), metadata (this w'), modifiedLines (this w'))
     = (lines (this w), sectors (this w), things (this w),
        selection (this w), metadata (this w), modifiedLines (this w)).
Proof.
  intros Hn Hl Hr v w'.
  assert (Hat : vertexAt w' v = mkVertex x y []).
  { unfold w', withVertex, vertexAt. simpl. by rewrite lookup_insert_eq. }
  assert (Hmap : vertexMap (this w') !! createVertexKey x y = Some v).
  { unfold w', withVertex. simpl. by rewrite lookup_insert_eq. }
  split.
  { unfold addVertex. unfold mbind at 1, M_bind at 1, get.
    cbv beta iota zeta. rewrite Hn.
    rewrite (bind_step _ _ w _ v (eq_refl : Vertex_new x y w = Ok v _)).
    erewrite bind_step; [|apply (addVertex__spec _ v x y []);
      unfold vertexAt; simpl; by rewrite lookup_insert_eq].
    unfold mbind at 1, M_bind at 1, get. cbv beta iota zeta.
    cbn [this with_this lines set_spatialGrid set_vertexMap set_vertices
         set_history putVertex].
    rewrite Hl, filter_nil. cbn [forEach].
    unfold mbind at 1, M_bind at 1, mret at 1, M_ret at 1. cbv beta iota.
    erewrite bind_step; [reflexivity|].
    apply rebuild_or_skip. destruct Hr as [?|?]; [by left|by right]. }
  split; [by apply addVertex_existing|].
  split; [exact Hat|]. split; [reflexivity|]. split; [exact Hmap|].
  split.
  { intros k Hk. unfold w', withVertex. simpl.
    by rewrite lookup_insert_ne by congruence. }
  split.
  { unfold w', withVertex. simpl. rewrite gridAdd_cellAt.
    unfold inCells. simpl. rewrite !Z.leb_refl. simpl.
    apply elem_of_setAdd. by right. }
  split; reflexivity.
Qed.

(** X26. On a map without lines, [addVertex(x, y)] at a position that has no
    vertex constructs a vertex, appends it to the vertices, enters it in
    the vertex map under its key and in the grid cell of its position, and
    records one action; everything else is untouched. A second call with
    the same position returns the same vertex and changes nothing. *)
Theorem addVertex_new_position (w : World) (x y : Z) (skipRebuild : bool) :
  vertexMap (this w) !! createVertexKey x y = None ->
  lines (this w) = [] ->
  skipRebuild = true \/ modifiedLines (this w) = [] ->
  let v := h_next w in
  let w' := withVertex x y w in
  addVertex x y skipRebuild w = Ok v w'
  /\ addVertex x y skipRebuild w' = Ok v w'
  /\ vertexAt w' v = mkVertex x y []
  /\ vertices (this w') = vertices (this w) ++ [v]
  /\ vertexMap (this w') !! createVertexKey x y = Some v
  /\ (forall k, k <> createVertexKey x y ->
        vertexMap (this w') !! k = vertexMap (this w) !! k)
  /\ GVertex v ∈ cellAt (spatialGrid (this w')) (cellOf x) (cellOf y)
  /\ history (this w')
     = History.record (history (this w)) (addVertexAction v x y)
  /\ (lines (this w'), sectors (this w'), things (this w'),
      selection (this w'), metadata (this w'), modifiedLines (this w'))
     = (lines (this w), sectors (this w), things (this w),
        selection (this w), metadata (this w), modifiedLines (this w)).
Proof. apply addVertex_creates. Qed.

Lemma record_remove_on_add (h : History.t) (v : VertexId) (i : nat)
    (x y : Z) :
  History.record (History.record h (addVertexAction v x y))
                 (removeVertexAction v i x y)
  = History.mk
      (removelast (History.stack (History.record h (addVertexAction v x y)))
       ++ [removeVertexAction v i x y])
      (History.redoStack (History.record h (addVertexAction v x y))).
Proof.
  set (h1 := History.record h (addVertexAction v x y)).
  assert (Hl : last (History.stack h1) = Some (addVertexAction v x y))
    by apply last_record.
  unfold History.record at 1, History.replace. rewrite Hl.
  cbn [History.coalescing History.target History.parameter addVertexAction
       removeVertexAction andb].
  rewrite !bool_decide_eq_true_2 by reflexivity. cbn [andb].
  rewrite insert_last_length; [reflexivity|].
  intros E. rewrite E in Hl. discriminate.
Qed.

(** X27. On a map without lines, [removeVertex(x, y)] right after
    [addVertex(x, y)] created the vertex returns [true] and leaves every
    field of the map but the history as it was before the two calls: the
    vertices, both key maps and the grid. The action of the removal takes
    the place of the action of the addition on the undo stack, so the two
    calls leave one undo step. *)
Theorem addVertex_then_removeVertex (w : World) (x y : Z)
    (skipRebuild : bool) :
  vertexMap (this w) !! createVertexKey x y = None ->
  lines (this w) = [] ->
  skipRebuild = true \/ modifiedLines (this w) = [] ->
  h_next w ∉ vertices (this w) ->
  noEmptyCell (spatialGrid (this w)) = true ->
  cellsHolding (spatialGrid (this w)) (GVertex (h_next w)) = [] ->
  exists w'',
    (addVertex x y skipRebuild ≫= fun _ => removeVertex x y skipRebuild) w
    = Ok true w''
    /\ set_history (history (this w)) (this w'') = this w
    /\ history (this w'')
       = History.record
           (History.record (history (this w)) (addVertexAction (h_next w) x y))
           (removeVertexAction (h_next w) (length (vertices (this w))) x y)
    /\ History.undoCount (history (this w''))
       = History.undoCount
           (History.record (history (this w))
              (addVertexAction (h_next w) x y)).
Proof.
  intros Hn Hl Hr Hf Ht Hg.
  destruct (addVertex_creates w x y skipRebuild Hn Hl Hr)
    as (Ha & _ & Hat & Hv & Hm & _).
  cbv zeta in *.
  set (v := h_next w) in *. set (w' := withVertex x y w) in *.
  rewrite (bind_step _ _ w w' v Ha).
  unfold removeVertex, removeVertex_, mbind, M_bind, get.
  cbv beta iota zeta. unfold VertexId in *. rewrite Hm, Hat.
  cbn [v_lines length removeIncident]. unfold mbind, M_bind, get.
  cbv beta iota. rewrite Hat. cbn [v_lines]. unfold mret at 1, M_ret at 1.
  cbv beta iota.
  rewrite Hv, (indexOf_app_fresh v (vertices (this w)) [] Hf).
  unfold keyOfVertex. rewrite Hat. cbn [v_x v_y].
  fold (removeVertexAction v (length (vertices (this w))) x y).
  unfold History_do. cbn [History.doFunc runFunc removeVertexAction].
  unfold modThis, removeFromSpatialGrid, modify, mbind, M_bind.
  cbv beta iota.
  change (boundsOf (with_this ?f w') (GVertex v))
    with (boundsOf w' (GVertex v)).
  unfold boundsOf. rewrite Hat. cbn [v_x v_y].
  rewrite rebuild_or_skip.
  2:{ destruct Hr as [?|?]; [by left|by right]. }
  unfold mret, M_ret. eexists. split; [reflexivity|].
  unfold w', withVertex.
  cbn [this with_this putVertex history vertices vertexMap spatialGrid
       set_history set_vertices set_vertexMap set_spatialGrid lines
       lineMap modifiedLines sectors things selection metadata].
  rewrite gridRemove_gridAdd;
    [|cbn; lia|exact Ht|intros; by apply cellsHolding_nil].
  rewrite delete_middle, app_nil_r, delete_insert_id by exact Hn.
  split; [by destruct (this w)|].
  split; [reflexivity|].
  match goal with
  | |- History.undoCount ?h = _ =>
      change h with
        (History.record
           (History.record (history (this w)) (addVertexAction v x y))
           (removeVertexAction v (length (vertices (this w))) x y))
  end.
  rewrite record_remove_on_add. unfold History.undoCount.
  cbn [History.stack]. rewrite length_app. cbn [length].
  set (st := History.stack _).
  assert (Hne : st <> []).
  { unfold st. intros E.
    pose proof (last_record (history (this w)) (addVertexAction v x y)) as L.
    rewrite E in L. discriminate. }
  destruct (exists_last Hne) as (l' & a & ->).
  rewrite removelast_last, length_app. simpl. lia.
Qed.

Lemma addVertex_new_position_witness :
  exists w',
    addVertex 50 60 false twoVertexWorld = Ok 3%nat w'
    /\ addVertex 50 60 false w' = Ok 3%nat w'
    /\ vertices (this w') = [0; 1; 3]%nat.
Proof.
  pose proof (addVertex_new_position twoVertexWorld 50 60 false
                ltac:(vm_compute; reflexivity) ltac:(vm_compute; reflexivity)
                ltac:(right; vm_compute; reflexivity)) as H.
  cbv zeta in H. destruct H as (H1 & H2 & _ & H3 & _).
  exists (withVertex 50 60 twoVertexWorld).
  split; [exact H1|]. split; [exact H2|].
  rewrite H3. vm_compute. reflexivity.
Defined.

Lemma addVertex_then_removeVertex_witness :
  exists w'',
    (addVertex 50 60 false ≫= fun _ => removeVertex 50 60 false)
      twoVertexWorld = Ok true w''
    /\ set_history (history (this twoVertexWorld)) (this w'')
       = this twoVertexWorld.
Proof.
  destruct (addVertex_then_removeVertex twoVertexWorld 50 60 false)
    as (w'' & H1 & H2 & _).
  - vm_compute. reflexivity.
  - vm_compute. reflexivity.
  - right. vm_compute. reflexivity.
  - apply (bool_decide_unpack _). vm_compute. exact I.
  - vm_compute. reflexivity.
  - vm_compute. reflexivity.
  - exists w''. split; [exact H1 | exact H2].
Defined.

(** ** Serialization without lines *)

Lemma deserialize_vertices (vs : list (Z * Z)) (w : World) :
  allocated w ->
  exists w',
    forEach vs (fun vData => v ← Vertex_new vData.1 vData.2; addVertex_ v) w
    = Ok tt w'
    /\ coordsOf w' (vertices (this w')) = coordsOf w (vertices (this w)) ++ vs
    /\ allocated w'
    /\ things (this w') = things (this w)
    /\ h_things w' = h_things w
    /\ sameLinesAndSectors w w'.
Proof.
  revert w. induction vs as [|[x y] vs IH]; intros w Ha.
  - exists w. split; [reflexivity|]. rewrite app_nil_r.
    split; [reflexivity|]. split; [exact Ha|]. by repeat split.
  - cbn [forEach fst snd].
    set (wA := putVertex (h_next w) (mkVertex x y [])
                 (mkWorld (h_vertices w) (h_lines w) (h_sectors w)
                    (h_things w) (S (h_next w)) (this w))).
    assert (HA : vertexAt wA (h_next w) = mkVertex x y []).
    { unfold wA, vertexAt. simpl. by rewrite lookup_insert_eq. }
    pose proof (addVertex__spec wA (h_next w) x y [] HA) as HB.
    set (wB := with_this _ wA) in HB.
    destruct (IH wB) as (w' & Hrun & Hc & Hal & Ht & Hh & Hs).
    { destruct Ha as [Hv Hth]. split.
      - intros v [Hin| ->%list_elem_of_singleton]%elem_of_app; simpl.
        + specialize (Hv v Hin). lia.
        + lia.
      - intros t Hin. specialize (Hth t Hin). simpl. lia. }
    exists w'. split.
    { rewrite <- Hrun. unfold mbind at 1, M_bind at 1.
      unfold mbind at 1, M_bind at 1.
      change (Vertex_new x y w) with (Ok (h_next w) wA). cbv beta iota.
      rewrite HB. reflexivity. }
    split.
    { rewrite Hc.
      assert (E : coordsOf wB (vertices (this wB))
                  = coordsOf w (vertices (this w)) ++ [(x, y)]).
      { change (vertices (this wB)) with (vertices (this w) ++ [h_next w]).
        unfold coordsOf. rewrite fmap_app. cbn [fmap list_fmap].
        change (vertexAt wB) with (vertexAt wA). rewrite HA. f_equal.
        apply list_fmap_ext. intros i v Hv.
        apply list_elem_of_lookup_2 in Hv. destruct Ha as [Ha _].
        specialize (Ha v Hv). unfold wA, vertexAt, putVertex. simpl.
        rewrite lookup_insert_ne by lia. reflexivity. }
      rewrite E, <- app_assoc. reflexivity. }
    split; [exact Hal|]. split; [exact Ht|]. split; [exact Hh|].
    destruct Hs as (? & ? & ? & ? & ?). by repeat split.
Qed.

(** [#addThing(thing)] for a thing that is not in the map. *)
Lemma addThing__spec (w : World) (t : ThingId) :
  t ∉ things (this w) ->
  addThing_ t w
  = Ok tt (with_this (fun m =>
      set_spatialGrid
        (gridAdd (GThing t)
           (mkBounds (t_x (thingAt w t)) (t_y (thingAt w t))
                     (t_x (thingAt w t)) (t_y (thingAt w t)))
           (spatialGrid m))
        (set_things (things m ++ [t])
           (set_history (History.record (history m) (thingAction t)) m))) w).
Proof.
  intros Hf. unfold addThing_, History_do. cbn [History.doFunc runFunc].
  unfold thingPush, modThis, addToSpatialGrid, modify, mbind, M_bind, get.
  cbv beta iota.
  change (things (this (with_this ?f w))) with (things (this w)).
  rewrite (indexOf_None _ _ Hf). reflexivity.
Qed.

Lemma deserialize_things (ts : list Thing) (w : World) :
  allocated w ->
  exists w',
    forEach ts (fun tData =>
      t ← Thing_new (t_x tData) (t_y tData) (t_z tData) (typeId tData)
                    (angle tData);
      addThing_ t) w = Ok tt w'
    /\ thingAt w' <$> things (this w') = (thingAt w <$> things (this w)) ++ ts
    /\ vertices (this w') = vertices (this w)
    /\ h_vertices w' = h_vertices w
    /\ h_lines w' = h_lines w
    /\ h_sectors w' = h_sectors w
    /\ sameLinesAndSectors w w'.
Proof.
  revert w. induction ts as [|d ts IH]; intros w Ha.
  - exists w. split; [reflexivity|]. rewrite app_nil_r. by repeat split.
  - cbn [forEach].
    set (wA := putThing (h_next w)
                 (mkThing (t_x d) (t_y d) (t_z d) (typeId d) (angle d))
                 (mkWorld (h_vertices w) (h_lines w) (h_sectors w)
                    (h_things w) (S (h_next w)) (this w))).
    assert (Hf : h_next w ∉ things (this wA)).
    { intros Hin. destruct Ha as [_ Ha]. specialize (Ha _ Hin). lia. }
    pose proof (addThing__spec wA (h_next w) Hf) as HB.
    set (wB := with_this _ wA) in HB.
    destruct (IH wB) as (w' & Hrun & Hc & Hv & Hhv & Hhl & Hhs & Hs).
    { destruct Ha as [Hv Hth]. split.
      - intros v Hin. specialize (Hv v Hin). simpl. lia.
      - intros t [Hin| ->%list_elem_of_singleton]%elem_of_app; simpl.
        + specialize (Hth t Hin). lia.
        + lia. }
    exists w'. split.
    { rewrite <- Hrun. unfold mbind at 1, M_bind at 1.
      unfold mbind at 1, M_bind at 1.
      change (Thing_new (t_x d) (t_y d) (t_z d) (typeId d) (angle d) w)
        with (Ok (h_next w) wA). cbv beta iota.
      rewrite HB. reflexivity. }
    split.
    { rewrite Hc.
      assert (E : thingAt wB <$> things (this wB)
                  = (thingAt w <$> things (this w)) ++ [d]).
      { change (things (this wB)) with (things (this w) ++ [h_next w]).
        rewrite fmap_app. cbn [fmap list_fmap].
        change (thingAt wB) with (thingAt wA).
        assert (HA : thingAt wA (h_next w) = d).
        { unfold wA, thingAt, putThing. simpl. rewrite lookup_insert_eq.
          by destruct d. }
        rewrite HA. f_equal.
        apply list_fmap_ext. intros i t Ht.
        apply list_elem_of_lookup_2 in Ht. destruct Ha as [_ Ha].
        specialize (Ha t Ht). unfold wA, thingAt, putThing. simpl.
        rewrite lookup_insert_ne by lia. reflexivity. }
      rewrite E, <- app_assoc. reflexivity. }
    split; [exact Hv|]. split; [exact Hhv|]. split; [exact Hhl|].
    split; [exact Hhs|].
    destruct Hs as (? & ? & ? & ? & ?). by repeat split.
Qed.

(** X28. Loading serialized data that holds vertices and things but no line
    and no sector into a map without modified lines returns, and the map
    then serializes back to exactly that data: vertices and things in
    order, and the metadata. *)
Theorem deserialize_serialize_without_lines (data : MapData) (w : World) :
  md_lines data = [] ->
  md_sectors data = [] ->
  modifiedLines (this w) = [] ->
  exists w', deserialize data w = Ok tt w' /\ serialize w' = data.
Proof.
  intros Hl Hs Hm. unfold deserialize. rewrite Hl, Hs. cbn [forEach].
  set (w0 := with_this (fun m =>
      mkDoomMap (md_metadata data) (history m) [] ∅ [] ∅ (modifiedLines m)
                [] [] (selection m) ∅) w).
  destruct (deserialize_vertices (md_vertices data) w0)
    as (w1 & H1 & C1 & A1 & T1 & HT1 & S1).
  { split; intros ? H; inversion H. }
  destruct (deserialize_things (md_things data) w1 A1)
    as (w2 & H2 & C2 & V2 & HV2 & HL2 & HS2 & S2).
  exists w2.
  destruct S1 as (L1 & Se1 & M1 & Me1 & _), S2 as (L2 & Se2 & M2 & Me2 & _).
  split.
  - unfold mbind at 1, M_bind at 1. unfold modThis at 1, modify at 1.
    cbv beta iota. fold w0.
    rewrite (bind_step _ _ w0 w1 tt H1).
    unfold mbind at 1, M_bind at 1, mret at 1, M_ret at 1. cbv beta iota.
    unfold mbind at 1, M_bind at 1, mret at 1, M_ret at 1. cbv beta iota.
    rewrite (bind_step _ _ w1 w2 tt H2).
    unfold rebuildSectors, mbind, M_bind, get.
    rewrite M2, M1. cbn. rewrite Hm. reflexivity.
  - unfold serialize. rewrite L2, L1, Se2, Se1, Me2, Me1, C2, T1, V2.
    fold (coordsOf w2 (vertices (this w1))).
    assert (E : coordsOf w2 (vertices (this w1))
                = coordsOf w1 (vertices (this w1))).
    { unfold coordsOf, vertexAt. by rewrite HV2. }
    rewrite E, C1. cbn. destruct data. simpl in *. subst. reflexivity.
Qed.

Lemma deserialize_serialize_without_lines_witness :
  exists w', deserialize startData newWorld = Ok tt w'
             /\ serialize w' = startData.
Proof.
  apply deserialize_serialize_without_lines; reflexivity.
Defined.
